(** * wav_to_header.py: packing WAV files into a C header

    A shallow embedding of [src/wav_to_header.py] (the packing script of
    punch-strength-arcade) and the properties of it that the specification
    states, with the functions of [src/generate_audio.py] that work on
    the same files.

    Conventions of the embedding:
    - text is [string] (a sequence of 8-bit characters, UTF-8 encoded where
      the script prints non-ASCII symbols); file contents are [list byte];
    - the file system is a finite map from paths to nodes (regular files and
      directories), standard input is the list of events still to come,
      standard output the list of chunks written so far;
    - statements of the script are computations in a state-and-exception
      monad [M]: they return a value, raise a Python exception, or leave
      through [sys.exit];
    - POSIX conventions are used for paths and line ends. *)

From stdpp Require Import gmap strings list pretty.
From Stdlib.Strings Require Import Ascii.
From Stdlib.Strings Require Byte String.
From Stdlib.Init Require Import Byte.

Open Scope string_scope.
Open Scope list_scope.

(** ** The Python built-ins the script uses *)

Module Py.

(** The characters written as [\n] and as a double quote in the source. *)
Definition nl : string := String "010"%char "".
Definition dq : string := String "034"%char "".

(** [s * n] *)
Fixpoint str_mul (s : string) (n : nat) : string :=
  match n with
  | O => ""
  | S k => s +:+ str_mul s k
  end.

(** [sep.join(parts)] *)
Definition join (sep : string) (parts : list string) : string :=
  String.concat sep parts.

(** [range(start, stop, step)] for a positive [step]. *)
Definition range (start stop step : nat) : list nat :=
  (λ k, start + k * step) <$> seq 0 ((stop - start + (step - 1)) / step).

(** [str(n)] and the [{n}] of an f-string, for a natural number. *)
Definition str_nat (n : nat) : string := pretty n.

(** The digit of [{b:02X}]. *)
Definition hex_digit (n : nat) : ascii :=
  match n with
  | 0 => "0" | 1 => "1" | 2 => "2" | 3 => "3" | 4 => "4" | 5 => "5"
  | 6 => "6" | 7 => "7" | 8 => "8" | 9 => "9" | 10 => "A" | 11 => "B"
  | 12 => "C" | 13 => "D" | 14 => "E" | _ => "F"
  end%char.

(** [f'{b:02X}'] for a byte [b]: two upper-case hexadecimal digits. *)
Definition format_02X (b : byte) : string :=
  let n := Byte.to_nat b in
  String (hex_digit (n / 16)) (String (hex_digit (n mod 16)) "").

(** Digit grouping of the [,] format option: a comma before every group
    of three digits, counted from the right. *)
Fixpoint group3 (digits : string) : string :=
  match digits with
  | "" => ""
  | String c rest =>
      String c
        (if ((0 <? String.length rest) && (String.length rest mod 3 =? 0))%nat
         then "," +:+ group3 rest
         else group3 rest)
  end.

(** [f'{z:,}'] *)
Definition format_comma (z : Z) : string :=
  match z with
  | Zneg p => "-" +:+ group3 (pretty (Zpos p))
  | _ => group3 (pretty z)
  end.

(** [s.ljust(width)] and [s.rjust(width)], the paddings of the format
    options [{s:12s}] and [{z:>6,}]. *)
Definition ljust (width : nat) (s : string) : string :=
  s +:+ str_mul " " (width - String.length s).
Definition rjust (width : nat) (s : string) : string :=
  str_mul " " (width - String.length s) +:+ s.

(** Rounding of the non-negative rational [num / den] to the nearest
    integer, ties to the even one: the rounding of the [f] presentation
    type. *)
Definition round_half_even (num den : Z) : Z :=
  let q := (num / den)%Z in
  let r := (num mod den)%Z in
  if (2 * r <? den)%Z then q
  else if (den <? 2 * r)%Z then (q + 1)%Z
  else if Z.even q then q else (q + 1)%Z.

(** [f'{n/1024:.1f}'] and [f'{n/1024:.0f}'] for an integer [n]. The
    quotient [n/1024] is a float; as long as [|n| < 2^53] it is the exact
    rational, and the format rounds it to the given number of decimals,
    a negative [n] keeping its sign even when the digits are all zero. *)
Definition format_kb_1f (n : Z) : string :=
  let q := round_half_even (Z.abs n * 10) 1024 in
  (if (n <? 0)%Z then "-" else "")
    +:+ pretty (q / 10)%Z +:+ "." +:+ pretty (q mod 10)%Z.
Definition format_kb_0f (n : Z) : string :=
  (if (n <? 0)%Z then "-" else "")
    +:+ pretty (round_half_even (Z.abs n) 1024).

(** [s.lower()]. On the ASCII letters; every other byte is kept, which is
    what the script's comparison with ['y'] can observe: no character
    other than [Y] has [y] as its lower case. *)
Definition lower_char (c : ascii) : ascii :=
  let n := nat_of_ascii c in
  if ((65 <=? n) && (n <=? 90))%nat then ascii_of_nat (n + 32) else c.
Fixpoint lower (s : string) : string :=
  match s with
  | "" => ""
  | String c rest => String (lower_char c) (lower rest)
  end.

(** [s.replace(old, new)] for a non-empty [old]: the occurrences are
    found from the left and do not overlap. [skip] counts the characters
    of a match still to drop. *)
Fixpoint replace_go (old new : string) (skip : nat) (s : string) : string :=
  match s with
  | "" => ""
  | String c rest =>
      match skip with
      | S k => replace_go old new k rest
      | O =>
          if String.prefix old s
          then new +:+ replace_go old new (String.length old - 1) rest
          else String c (replace_go old new 0 rest)
      end
  end.
Definition replace (old new s : string) : string := replace_go old new 0 s.

(** [os.path.join(a, b)] *)
Definition path_join (a b : string) : string :=
  if String.prefix "/" b then b
  else if decide (a = "") then b
  else if String.eqb (String.substring (String.length a - 1) 1 a) "/"
       then a +:+ b
       else a +:+ "/" +:+ b.

(** [os.path.basename(p)]: what follows the last slash. *)
Fixpoint has_slash (p : string) : bool :=
  match p with
  | "" => false
  | String c rest => Ascii.eqb c "/" || has_slash rest
  end.
Fixpoint basename (p : string) : string :=
  match p with
  | "" => ""
  | String _ rest => if has_slash p then basename rest else p
  end.

End Py.

Import Py.

(** ** The world the script runs in *)

(** A path names a regular file with its bytes, or a directory with the
    size [stat] reports for it. *)
Inductive node : Type :=
  | File (data : list byte)
  | Dir (st_size : Z).

(** What the user does at a prompt: a line (without its line end), or an
    interrupt. An exhausted input is the end of the stream. *)
Inductive stdin_event : Type :=
  | Line (s : string)
  | CtrlC.

Record world : Type := World {
  fs : gmap string node;
  stdin : list stdin_event;
  stdout : list string
}.

(** The exceptions that the operations below raise. *)
Inductive exn : Type :=
  | FileNotFoundError (path : string)
  | IsADirectoryError (path : string)
  | EOFError
  | KeyboardInterrupt.

(** [str(e)] *)
Definition str_exn (e : exn) : string :=
  match e with
  | FileNotFoundError p => "[Errno 2] No such file or directory: '" +:+ p +:+ "'"
  | IsADirectoryError p => "[Errno 21] Is a directory: '" +:+ p +:+ "'"
  | EOFError => "EOF when reading a line"
  | KeyboardInterrupt => ""
  end.

(** How a computation ends: with a value, with an exception, or with
    [sys.exit(code)]. *)
Inductive result (A : Type) : Type :=
  | Ok (a : A)
  | Raise (e : exn)
  | SysExit (code : Z).
Arguments Ok {A} a.
Arguments Raise {A} e.
Arguments SysExit {A} code.

Definition M (A : Type) : Type := world → result A * world.

Definition ret {A} (a : A) : M A := λ w, (Ok a, w).

Definition bind {A B} (m : M A) (k : A → M B) : M B :=
  λ w, match m w with
       | (Ok a, w') => k a w'
       | (Raise e, w') => (Raise e, w')
       | (SysExit c, w') => (SysExit c, w')
       end.

Declare Scope py_scope.
Delimit Scope py_scope with py.
Notation "'let*' x ':=' m 'in' k" := (bind m (λ x, k))
  (at level 10, x pattern, m at level 100, k at level 200) : py_scope.
Notation "m '>>' k" := (bind m (λ _, k))
  (at level 100, k at level 200, right associativity) : py_scope.

(** [sys.exit(code)] *)
Definition sys_exit {A} (code : Z) : M A := λ w, (SysExit code, w).

(** [for x in l: s = body(s, x)], the loop's variables threaded as [s]. *)
Fixpoint for_each {A S} (l : list A) (body : S → A → M S) (s : S) : M S :=
  match l with
  | [] => ret s
  | x :: rest => bind (body s x) (for_each rest body)
  end.

Definition write_stdout (s : string) : M unit :=
  λ w, (Ok (), World (fs w) (stdin w) (stdout w ++ [s])).

(** [print(s)] and [print(s, end='')] *)
Definition print (s : string) : M unit := write_stdout (s +:+ nl).
Definition print_no_end (s : string) : M unit := write_stdout s.

(** [input(prompt)] *)
Definition input (prompt : string) : M string :=
  bind (write_stdout prompt) (λ _ w,
    match stdin w with
    | [] => (Raise EOFError, w)
    | Line s :: rest => (Ok s, World (fs w) rest (stdout w))
    | CtrlC :: rest => (Raise KeyboardInterrupt, World (fs w) rest (stdout w))
    end).

(** [os.path.exists(p)] *)
Definition path_exists (p : string) : M bool :=
  λ w, (Ok (bool_decide (is_Some (fs w !! p))), w).

(** [os.path.getsize(p)] *)
Definition getsize (p : string) : M Z :=
  λ w, match fs w !! p with
       | Some (File data) => (Ok (Z.of_nat (length data)), w)
       | Some (Dir n) => (Ok n, w)
       | None => (Raise (FileNotFoundError p), w)
       end.

(** [with open(p, 'rb') as f: data = f.read()] *)
Definition read_binary (p : string) : M (list byte) :=
  λ w, match fs w !! p with
       | Some (File data) => (Ok data, w)
       | Some (Dir _) => (Raise (IsADirectoryError p), w)
       | None => (Raise (FileNotFoundError p), w)
       end.

(** [open(p, 'w')]: the file is created, or emptied when it exists. *)
Definition open_w (p : string) : M unit :=
  λ w, match fs w !! p with
       | Some (Dir _) => (Raise (IsADirectoryError p), w)
       | _ => (Ok (), World (<[p := File []]> (fs w)) (stdin w) (stdout w))
       end.

(** [f.write(s)] on the file opened at [p]. The text reaches the file at
    the latest when the [with] block is left, also by an exception; no
    statement of the script reads the file before that. *)
Definition append_node (s : string) (n : node) : node :=
  match n with
  | File data => File (data ++ String.list_byte_of_string s)
  | Dir z => Dir z
  end.
Definition file_write (p : string) (s : string) : M unit :=
  λ w, (Ok (), World (alter (append_node s) p (fs w)) (stdin w) (stdout w)).

(** ** The script *)

Open Scope py_scope.

Definition AUDIO_DIR : string := "audio_files".
Definition OUTPUT_FILE : string := "audio_data.h".

(** Lines 16-22. *)
Definition REQUIRED_FILES : list string :=
  ((λ i, str_nat i +:+ ".wav") <$> range 1 10 1) ++
  ((λ i, str_nat i +:+ ".wav") <$> range 10 20 1) ++
  ((λ i, str_nat i +:+ ".wav") <$> range 20 100 10) ++
  ((λ i, str_nat i +:+ ".wav") <$> range 100 1000 100) ++
  ["and.wav"].

(** Lines 36-42: one row of at most 16 bytes per iteration. *)
Definition array_row (audio_data : list byte) (array_str : string) (i : nat)
    : string :=
  let chunk := take 16 (drop i audio_data) in
  let hex_values := join ", " ((λ b, "0x" +:+ format_02X b) <$> chunk) in
  let array_str := array_str +:+ "  " +:+ hex_values in
  let array_str :=
    if (i + 16 <? length audio_data)%nat then array_str +:+ "," else array_str in
  array_str +:+ nl.

(** Lines 24-47. *)
Definition convert_wav_to_array (filepath var_name : string) : M string :=
  let* data := read_binary filepath in
  let audio_data := drop 44 data in
  let array_str :=
    "// " +:+ basename filepath +:+ " - " +:+ str_nat (length audio_data)
      +:+ " bytes" +:+ nl in
  let array_str :=
    array_str +:+ "const uint8_t " +:+ var_name +:+ "[] PROGMEM = {" +:+ nl in
  let array_str :=
    foldl (array_row audio_data) array_str (range 0 (length audio_data) 16) in
  let array_str := array_str +:+ "};" +:+ nl in
  let array_str :=
    array_str +:+ "const uint32_t " +:+ var_name +:+ "_len = "
      +:+ str_nat (length audio_data) +:+ ";" +:+ nl +:+ nl in
  ret array_str.

(** Lines 49-59. *)
Definition get_var_name (filename : string) : string :=
  let name := replace ".wav" "" filename in
  if decide (name = "and") then "audio_and"
  else "audio_" +:+ name.

(** Lines 72-74: the entry of one file. *)
Definition lookup_entry (lookup filename : string) : string :=
  let var_name := get_var_name filename in
  lookup +:+ "  {" +:+ dq +:+ filename +:+ dq +:+ ", " +:+ var_name +:+ ", "
    +:+ var_name +:+ "_len}," +:+ nl.

(** Lines 61-79. *)
Definition create_lookup_table (file_list : list string) : string :=
  let lookup := "// Lookup table for audio files" +:+ nl in
  let lookup := lookup +:+ "struct AudioFile {" +:+ nl in
  let lookup := lookup +:+ "  const char* name;" +:+ nl in
  let lookup := lookup +:+ "  const uint8_t* data;" +:+ nl in
  let lookup := lookup +:+ "  uint32_t length;" +:+ nl in
  let lookup := lookup +:+ "};" +:+ nl +:+ nl in
  let lookup := lookup +:+ "const AudioFile audioFiles[] = {" +:+ nl in
  let lookup := foldl lookup_entry lookup file_list in
  let lookup := lookup +:+ "};" +:+ nl +:+ nl in
  let lookup :=
    lookup +:+ "const int audioFileCount = " +:+ str_nat (length file_list)
      +:+ ";" +:+ nl +:+ nl in
  lookup.

(** Lines 99-110: the check of one required file. The loop's variables are
    [existing_files], [missing_files] and [total_size]. *)
Definition check_file (st : list string * list string * Z) (filename : string)
    : M (list string * list string * Z) :=
  let '(existing_files, missing_files, total_size) := st in
  let filepath := path_join AUDIO_DIR filename in
  let* found := path_exists filepath in
  if found : bool then
    let* size := getsize filepath in
    let data_size := (size - 44)%Z in
    let total_size := (total_size + data_size)%Z in
    let existing_files := existing_files ++ [filename] in
    print ("  ✓ " +:+ ljust 12 filename +:+ " - "
             +:+ rjust 6 (format_comma data_size) +:+ " bytes (audio data)") >>
    ret (existing_files, missing_files, total_size)
  else
    let missing_files := missing_files ++ [filename] in
    print ("  ✗ " +:+ ljust 12 filename +:+ " - MISSING!") >>
    ret (existing_files, missing_files, total_size).

(** [enumerate(l, start)] *)
Definition enumerate {A} (l : list A) (start : nat) : list (nat * A) :=
  zip (seq start (length l)) l.

(** Lines 150-159: the conversion of one existing file. *)
Definition convert_file (existing_files : list string) (_ : unit)
    (item : nat * string) : M unit :=
  let '(i, filename) := item in
  let filepath := path_join AUDIO_DIR filename in
  let var_name := get_var_name filename in
  print_no_end ("  [" +:+ str_nat i +:+ "/" +:+ str_nat (length existing_files)
                  +:+ "] Converting " +:+ filename +:+ "...") >>
  let* array_str := convert_wav_to_array filepath var_name in
  file_write OUTPUT_FILE array_str >>
  print " ✓".

(** Line 121. The product [FLASH_SIZE * 0.6] of line 122 is the float
    921600.0 exactly, so the comparison is one of integers. *)
Definition FLASH_SIZE : Z := 1500 * 1024.
Definition over_budget (total_size : Z) : bool :=
  (FLASH_SIZE * 6 <? total_size * 10)%Z.

(** Lines 139-167: the [with] block that writes the header. *)
Definition write_header (existing_files : list string) (total_size : Z)
    : M unit :=
  open_w OUTPUT_FILE >>
  file_write OUTPUT_FILE ("// Auto-generated audio data from WAV files" +:+ nl) >>
  file_write OUTPUT_FILE ("// DO NOT EDIT MANUALLY" +:+ nl) >>
  file_write OUTPUT_FILE
    ("// Generated from " +:+ str_nat (length existing_files) +:+ " WAV files"
       +:+ nl) >>
  file_write OUTPUT_FILE
    ("// Total audio data: " +:+ format_comma total_size +:+ " bytes"
       +:+ nl +:+ nl) >>
  file_write OUTPUT_FILE ("#ifndef AUDIO_DATA_H" +:+ nl) >>
  file_write OUTPUT_FILE ("#define AUDIO_DATA_H" +:+ nl +:+ nl) >>
  file_write OUTPUT_FILE ("#include <Arduino.h>" +:+ nl +:+ nl) >>
  for_each (enumerate existing_files 1) (convert_file existing_files) () >>
  print_no_end "  Creating lookup table..." >>
  file_write OUTPUT_FILE (create_lookup_table existing_files) >>
  print " ✓" >>
  file_write OUTPUT_FILE ("#endif // AUDIO_DATA_H" +:+ nl).

(** Lines 81-187. *)
Definition main : M unit :=
  print (str_mul "=" 60) >>
  print "WAV TO C HEADER CONVERTER" >>
  print (str_mul "=" 60) >>
  let* dir_found := path_exists AUDIO_DIR in
  (if negb dir_found then
     print (nl +:+ "❌ ERROR: Directory '" +:+ AUDIO_DIR +:+ "/' not found!") >>
     print "Please run generate_audio.py first" >>
     sys_exit 1
   else ret ()) >>
  print (nl +:+ "📂 Checking files in " +:+ AUDIO_DIR +:+ "/...") >>
  let* (existing_files, missing_files, total_size) :=
    for_each REQUIRED_FILES check_file ([], [], 0%Z) in
  (if negb (bool_decide (missing_files = [])) then
     print (nl +:+ "⚠️  WARNING: " +:+ str_nat (length missing_files)
              +:+ " files missing!") >>
     print "Proceeding with available files only..."
   else ret ()) >>
  print (nl +:+ "📊 Summary:") >>
  print ("  Files found: " +:+ str_nat (length existing_files) +:+ "/"
           +:+ str_nat (length REQUIRED_FILES)) >>
  print ("  Total audio data: " +:+ format_comma total_size +:+ " bytes ("
           +:+ format_kb_1f total_size +:+ " KB)") >>
  (if over_budget total_size then
     print (nl +:+ "⚠️  WARNING: Audio data is large ("
              +:+ format_kb_0f total_size +:+ "KB)") >>
     print "  This may not fit with your program code!" >>
     print "  Consider:" >>
     print "    - Using shorter audio clips" >>
     print "    - Lower sample rate (4kHz instead of 8kHz)" >>
     print "    - Using SD card instead"
   else ret ()) >>
  let* response :=
    input (nl +:+ "🔄 Convert " +:+ str_nat (length existing_files)
             +:+ " files to C header? (y/n): ") in
  (if negb (bool_decide (lower response = "y")) then
     print "Cancelled." >>
     sys_exit 0
   else ret ()) >>
  print (nl +:+ "⚙️  Generating " +:+ OUTPUT_FILE +:+ "...") >>
  write_header existing_files total_size >>
  let* output_size := getsize OUTPUT_FILE in
  print (nl +:+ "✅ Success!") >>
  print ("  Created: " +:+ OUTPUT_FILE) >>
  print ("  Header size: " +:+ format_comma output_size +:+ " bytes ("
           +:+ format_kb_1f output_size +:+ " KB)") >>
  print (nl +:+ str_mul "=" 60) >>
  print "NEXT STEPS" >>
  print (str_mul "=" 60) >>
  print ("1. Copy " +:+ OUTPUT_FILE +:+ " to your Arduino sketch folder") >>
  print "   (same directory as your .ino file)" >>
  print "" >>
  print "2. In your sketch, add:" >>
  print ("   #include " +:+ dq +:+ "audio_data.h" +:+ dq) >>
  print "" >>
  print "3. Upload to XIAO MG24 and test!" >>
  print "" >>
  print "⚠️  Note: Large sketches may take 2-3 minutes to upload" >>
  print (str_mul "=" 60).

(** Lines 189-199: the handlers around [main]. The traceback goes to the
    standard error stream, which the world does not record. *)
Definition guarded_main : M unit :=
  λ w, match main w with
       | (Raise KeyboardInterrupt, w') =>
           (print (nl +:+ nl +:+ "⚠️  Cancelled by user") >> sys_exit 1) w'
       | (Raise e, w') =>
           (print (nl +:+ nl +:+ "❌ ERROR: " +:+ str_exn e) >> sys_exit 1) w'
       | other => other
       end.

(** The exit status of the process. *)
Definition exit_status {A} (r : result A) : Z :=
  match r with
  | Ok _ => 0
  | SysExit code => code
  | Raise _ => 1
  end.

(** One run of the script: its exit status and the world it leaves. *)
Definition script (w : world) : Z * world :=
  let (r, w') := guarded_main w in (exit_status r, w').

(** ** The generator: [generate_audio.py]

    The functions of the generator that work on the files and the
    vocabulary. The synthesis of speech and the conversion of the audio
    are calls of external libraries; they are parameters of the
    embedding, and what is proved holds whatever they do. *)

Module GenerateAudio.

Definition OUTPUT_DIR : string := "audio_files".
Definition TEMP_DIR : string := "temp_audio".

(** Lines 32-51: the vocabulary. A dictionary is read in the order of its
    entries. *)
Definition NUMBERS_1_9 : list (nat * string) :=
  [ (1, "one"); (2, "two"); (3, "three"); (4, "four"); (5, "five");
    (6, "six"); (7, "seven"); (8, "eight"); (9, "nine") ].
Definition NUMBERS_10_19 : list (nat * string) :=
  [ (10, "ten"); (11, "eleven"); (12, "twelve"); (13, "thirteen");
    (14, "fourteen"); (15, "fifteen"); (16, "sixteen"); (17, "seventeen");
    (18, "eighteen"); (19, "nineteen") ].
Definition NUMBERS_TENS : list (nat * string) :=
  [ (20, "twenty"); (30, "thirty"); (40, "forty"); (50, "fifty");
    (60, "sixty"); (70, "seventy"); (80, "eighty"); (90, "ninety") ].
Definition NUMBERS_HUNDREDS : list (nat * string) :=
  [ (100, "one hundred"); (200, "two hundred"); (300, "three hundred");
    (400, "four hundred"); (500, "five hundred"); (600, "six hundred");
    (700, "seven hundred"); (800, "eight hundred"); (900, "nine hundred") ].

(** [str(z)] and the [{z}] of an f-string, for an integer. *)
Definition str_int (z : Z) : string := pretty z.

(** The first argument of [generate_audio_file] is a number or a word. *)
Inductive key : Type :=
  | Number (n : nat)
  | Word (s : string).
Definition str_key (k : key) : string :=
  match k with
  | Number n => str_nat n
  | Word s => s
  end.

(** [try: m except Exception as e: handler(e)]. An interrupt is no
    [Exception] and passes, as does [sys.exit]. *)
Definition try_except {A} (m : M A) (handler : exn → M A) : M A :=
  λ w, match m w with
       | (Raise KeyboardInterrupt, w') => (Raise KeyboardInterrupt, w')
       | (Raise e, w') => handler e w'
       | other => other
       end.

(** [try: m except: handler], which lets nothing pass. *)
Definition try_except_all {A} (m : M A) (handler : M A) : M A :=
  λ w, match m w with
       | (Ok a, w') => (Ok a, w')
       | (_, w') => handler w'
       end.

(** [os.remove(p)] *)
Definition os_remove (p : string) : M unit :=
  λ w, match fs w !! p with
       | Some (File _) => (Ok (), World (delete p (fs w)) (stdin w) (stdout w))
       | Some (Dir _) => (Raise (IsADirectoryError p), w)
       | None => (Raise (FileNotFoundError p), w)
       end.

Section generation.

(** The calls of the libraries: lines 64-65, which synthesise [text] and
    save it as an MP3 file, and lines 76-91, which load an MP3 file and
    export it as a WAV file. Each is some computation on the world. *)
Variable tts_save : string → string → M unit.
Variable export_wav : string → string → M unit.

(** Lines 61-69. *)
Definition generate_tts (text filename : string) : M bool :=
  try_except
    (tts_save text filename >> ret true)
    (λ e, print ("  ✗ Failed to generate TTS for '" +:+ text +:+ "': "
                   +:+ str_exn e) >>
          ret false).

(** Lines 72-95. *)
Definition convert_to_wav (mp3_file wav_file : string) : M bool :=
  try_except
    (export_wav mp3_file wav_file >> ret true)
    (λ e, print ("  ✗ Failed to convert " +:+ mp3_file +:+ ": "
                   +:+ str_exn e) >>
          ret false).

(** Lines 98-117. *)
Definition generate_audio_file (number : key) (text : string) : M bool :=
  let mp3_path := path_join TEMP_DIR (str_key number +:+ "_temp.mp3") in
  let wav_path := path_join OUTPUT_DIR (str_key number +:+ ".wav") in
  let* generated := generate_tts text mp3_path in
  if negb generated then ret false
  else
    let* converted := convert_to_wav mp3_path wav_path in
    if negb converted then ret false
    else
      try_except_all (os_remove mp3_path) (ret ()) >>
      ret true.

(** The body of the loops of lines 131-161, on [success_count]. *)
Definition generate_number (success_count : nat) (item : nat * string)
    : M nat :=
  let '(num, text) := item in
  let* generated := generate_audio_file (Number num) text in
  if generated : bool then
    print ("  ✓ " +:+ str_nat num +:+ ".wav - '" +:+ text +:+ "'") >>
    ret (success_count + 1)
  else
    print ("  ✗ Failed: " +:+ str_nat num +:+ ".wav") >>
    ret success_count.

(** Lines 120-173. *)
Definition generate_all_files : M (nat * nat) :=
  print (nl +:+ str_mul "=" 60) >>
  print "GENERATING AUDIO FILES FOR PUNCH ARCADE MACHINE" >>
  print (str_mul "=" 60 +:+ nl) >>
  let total_files := 35 in
  let success_count := 0 in
  print " Generating numbers 1-9..." >>
  let* success_count := for_each NUMBERS_1_9 generate_number success_count in
  print (nl +:+ " Generating numbers 10-19...") >>
  let* success_count := for_each NUMBERS_10_19 generate_number success_count in
  print (nl +:+ " Generating tens (20-90)...") >>
  let* success_count := for_each NUMBERS_TENS generate_number success_count in
  print (nl +:+ " Generating hundreds (100-900)...") >>
  let* success_count :=
    for_each NUMBERS_HUNDREDS generate_number success_count in
  print (nl +:+ " Generating connector word...") >>
  let* generated := generate_audio_file (Word "and") "and" in
  let* success_count :=
    if generated : bool then
      print "  ✓ and.wav - 'and'" >>
      ret (success_count + 1)
    else
      print "  ✗ Failed: and.wav" >>
      ret success_count in
  ret (success_count, total_files).

End generation.

(** Lines 203-211: the check of one required file. The loop's variables
    are [missing_files] and [total_size]. *)
Definition verify_file (st : list string * Z) (filename : string)
    : M (list string * Z) :=
  let '(missing_files, total_size) := st in
  let filepath := path_join OUTPUT_DIR filename in
  let* found := path_exists filepath in
  if found : bool then
    let* size := getsize filepath in
    let total_size := (total_size + size)%Z in
    print ("  ✓ " +:+ ljust 12 filename +:+ " - "
             +:+ rjust 6 (format_comma size) +:+ " bytes") >>
    ret (missing_files, total_size)
  else
    let missing_files := missing_files ++ [filename] in
    print ("  ✗ " +:+ ljust 12 filename +:+ " - MISSING!") >>
    ret (missing_files, total_size).

(** Lines 186-221. *)
Definition verify_files : M bool :=
  print (nl +:+ str_mul "=" 60) >>
  print "VERIFYING GENERATED FILES" >>
  print (str_mul "=" 60 +:+ nl) >>
  let required_files :=
    ((λ i, str_nat i +:+ ".wav") <$> range 1 10 1) ++
    ((λ i, str_nat i +:+ ".wav") <$> range 10 20 1) ++
    ((λ i, str_nat i +:+ ".wav") <$> range 20 100 10) ++
    ((λ i, str_nat i +:+ ".wav") <$> range 100 1000 100) ++
    ["and.wav"] in
  let* (missing_files, total_size) :=
    for_each required_files verify_file ([], 0%Z) in
  print (nl +:+ " Total files: "
           +:+ str_int (Z.of_nat (length required_files)
                        - Z.of_nat (length missing_files))
           +:+ "/" +:+ str_nat (length required_files)) >>
  print (" Total size: " +:+ format_comma total_size +:+ " bytes ("
           +:+ format_kb_1f total_size +:+ " KB)") >>
  if negb (bool_decide (missing_files = [])) then
    print (nl +:+ "⚠ WARNING: " +:+ str_nat (length missing_files)
             +:+ " files missing!") >>
    ret false
  else
    print (nl +:+ " All files generated successfully!") >>
    ret true.

(** Lines 247-272. The score is a Python integer; [//] and [%] round
    towards minus infinity, as [Z.div] and [Z.modulo] do for a positive
    divisor. *)
Definition test_score_announcement (score : Z) : M unit :=
  print (nl +:+ "Test Score: " +:+ str_int score) >>
  print "Files to play:" >>
  let hundreds := (score / 100 * 100)%Z in
  let remainder := (score mod 100)%Z in
  let tens := (remainder / 10 * 10)%Z in
  let ones := (remainder mod 10)%Z in
  (if (0 <? hundreds)%Z then
     print ("  → " +:+ str_int hundreds +:+ ".wav")
   else ret ()) >>
  (if (0 <? remainder)%Z then
     print "  → and.wav"
   else ret ()) >>
  (if (20 <=? remainder)%Z then
     print ("  → " +:+ str_int tens +:+ ".wav") >>
     (if (0 <? ones)%Z then
        print ("  → " +:+ str_int ones +:+ ".wav")
      else ret ())
   else if (10 <=? remainder)%Z then
     print ("  → " +:+ str_int remainder +:+ ".wav")
   else if (0 <? ones)%Z then
     print ("  → " +:+ str_int ones +:+ ".wav")
   else ret ()).

End GenerateAudio.

(** ** Reading the generated text back

    The definitions from here on are not part of the script. They say
    what a reader of the generated header finds in it, what the loops of
    the script compute, and what a run leaves; the lemmas that follow
    relate each of them to the script. *)

(** The value of a hexadecimal digit. *)
Definition hex_value (c : ascii) : option nat :=
  let n := nat_of_ascii c in
  if ((48 <=? n) && (n <=? 57))%nat then Some (n - 48)
  else if ((65 <=? n) && (n <=? 70))%nat then Some (n - 55)
  else if ((97 <=? n) && (n <=? 102))%nat then Some (n - 87)
  else None.

(** The byte written by a literal [0xHL] at the head of [s], if there is
    one. *)
Definition hex_literal (s : string) : option byte :=
  match s with
  | String "0" (String "x" (String h (String l _))) =>
      match hex_value h, hex_value l with
      | Some a, Some b => Byte.of_nat (16 * a + b)
      | _, _ => None
      end
  | _ => None
  end.

(** The bytes a C initializer list denotes: the values of its [0xHL]
    literals, in order; everything between them is skipped. [skip] counts
    the characters of a literal still to pass. *)
Fixpoint c_array_bytes_go (skip : nat) (s : string) : list byte :=
  match s with
  | "" => []
  | String _ rest =>
      match skip with
      | S k => c_array_bytes_go k rest
      | O =>
          match hex_literal s with
          | Some b => b :: c_array_bytes_go 3 rest
          | None => c_array_bytes_go 0 rest
          end
      end
  end.
Definition c_array_bytes (s : string) : list byte := c_array_bytes_go 0 s.

(** The characters between the literals of an initializer list. *)
Definition separator (c : ascii) : Prop :=
  c = " "%char ∨ c = ","%char ∨ c = "010"%char ∨ c = "}"%char.

(** The rows that lines 36-42 add for a payload. *)
Definition array_body (audio_data : list byte) : string :=
  foldl (array_row audio_data) "" (range 0 (length audio_data) 16).

(** The text that [convert_wav_to_array] returns for a file called
    [name] in the comment, of payload [audio_data]: a comment with the
    byte count, the array and the length constant. *)
Definition array_text (name var_name : string) (audio_data : list byte)
    : string :=
  "// " +:+ name +:+ " - " +:+ str_nat (length audio_data) +:+ " bytes" +:+ nl
  +:+ "const uint8_t " +:+ var_name +:+ "[] PROGMEM = {" +:+ nl
  +:+ array_body audio_data
  +:+ "};" +:+ nl
  +:+ "const uint32_t " +:+ var_name +:+ "_len = "
  +:+ str_nat (length audio_data) +:+ ";" +:+ nl +:+ nl.

(** ** What the loops compute *)

(** What [stat] reports as the size of a node. *)
Definition node_size (n : node) : Z :=
  match n with
  | File data => Z.of_nat (length data)
  | Dir st_size => st_size
  end.

(** The path that lines 100 and 151 build for a required file. *)
Definition audio_path (filename : string) : string :=
  path_join AUDIO_DIR filename.

(** What the loop of lines 99-110 computes on a file system [m]: the
    required files that exist, those that do not, the sum of the sizes
    less the header, and the line printed for each file. *)
Definition existing_in (m : gmap string node) (l : list string) : list string :=
  filter (λ f, is_Some (m !! audio_path f)) l.
Definition missing_in (m : gmap string node) (l : list string) : list string :=
  filter (λ f, ¬ is_Some (m !! audio_path f)) l.
Fixpoint data_total (m : gmap string node) (l : list string) : Z :=
  match l with
  | [] => 0
  | f :: rest =>
      match m !! audio_path f with
      | Some n => (node_size n - 44) + data_total m rest
      | None => data_total m rest
      end
  end%Z.
Definition found_line (filename : string) (data_size : Z) : string :=
  "  ✓ " +:+ ljust 12 filename +:+ " - "
    +:+ rjust 6 (format_comma data_size) +:+ " bytes (audio data)" +:+ nl.
Definition missing_line (filename : string) : string :=
  "  ✗ " +:+ ljust 12 filename +:+ " - MISSING!" +:+ nl.
Definition check_line (m : gmap string node) (filename : string) : string :=
  match m !! audio_path filename with
  | Some n => found_line filename (node_size n - 44)
  | None => missing_line filename
  end.

(** What the loop of lines 150-159 writes to the header for the files
    [l], up to the first one that cannot be read, and the exception that
    this one raises. *)
Fixpoint arrays_text (m : gmap string node) (l : list string) : string :=
  match l with
  | [] => ""
  | f :: rest =>
      match m !! audio_path f with
      | Some (File data) =>
          array_text (basename (audio_path f)) (get_var_name f) (drop 44 data)
            +:+ arrays_text m rest
      | _ => ""
      end
  end.
Fixpoint arrays_error (m : gmap string node) (l : list string) : option exn :=
  match l with
  | [] => None
  | f :: rest =>
      match m !! audio_path f with
      | Some (File _) => arrays_error m rest
      | Some (Dir _) => Some (IsADirectoryError (audio_path f))
      | None => Some (FileNotFoundError (audio_path f))
      end
  end.

(** The lines that lines 141-147 write at the top of the header. *)
Definition preamble (existing_files : list string) (total_size : Z) : string :=
  ("// Auto-generated audio data from WAV files" +:+ nl)
  +:+ ("// DO NOT EDIT MANUALLY" +:+ nl)
  +:+ ("// Generated from " +:+ str_nat (length existing_files)
         +:+ " WAV files" +:+ nl)
  +:+ ("// Total audio data: " +:+ format_comma total_size +:+ " bytes"
         +:+ nl +:+ nl)
  +:+ ("#ifndef AUDIO_DATA_H" +:+ nl)
  +:+ ("#define AUDIO_DATA_H" +:+ nl +:+ nl)
  +:+ ("#include <Arduino.h>" +:+ nl +:+ nl).

(** The text of the header that a confirmed run leaves for the file
    system [m]: complete when every existing required file can be read,
    cut after the arrays written so far otherwise. *)
Definition header_text (m : gmap string node) : string :=
  let existing_files := existing_in m REQUIRED_FILES in
  preamble existing_files (data_total m REQUIRED_FILES)
  +:+ arrays_text m existing_files
  +:+ match arrays_error m existing_files with
      | None =>
          create_lookup_table existing_files
            +:+ ("#endif // AUDIO_DATA_H" +:+ nl)
      | Some _ => ""
      end.

(** The file system that a confirmed run leaves. *)
Definition packed (m : gmap string node) : gmap string node :=
  match m !! OUTPUT_FILE with
  | Some (Dir _) => m
  | _ => <[OUTPUT_FILE := File (String.list_byte_of_string (header_text m))]> m
  end.

(** ** What a run leaves *)

(** The response that line 132 lets pass. *)
Definition accepted (response : string) : Prop := lower response = "y".

(** The exit status of a confirmed run. *)
Definition confirmed_status (m : gmap string node) : Z :=
  match m !! OUTPUT_FILE with
  | Some (Dir _) => 1
  | _ =>
      match arrays_error m (existing_in m REQUIRED_FILES) with
      | None => 0
      | Some _ => 1
      end
  end.

(** What a run of the script leaves, by the file system and the input it
    finds: its exit status, the file system and the input not yet read. *)
Definition outcome (m : gmap string node) (input : list stdin_event)
    : Z * gmap string node * list stdin_event :=
  match m !! AUDIO_DIR with
  | None => (1%Z, m, input)
  | Some _ =>
      match input with
      | [] => (1%Z, m, [])
      | CtrlC :: rest => (1%Z, m, rest)
      | Line response :: rest =>
          if decide (accepted response)
          then (confirmed_status m, packed m, rest)
          else (0%Z, m, rest)
      end
  end.

(** The lines that the loop of lines 99-110 prints, when it is reached. *)
Definition report (m : gmap string node) : list string :=
  match m !! AUDIO_DIR with
  | None => []
  | Some _ => check_line m <$> REQUIRED_FILES
  end.

(** The lines printed before the loop of lines 99-110. *)
Definition banner : list string :=
  [ str_mul "=" 60 +:+ nl;
    "WAV TO C HEADER CONVERTER" +:+ nl;
    str_mul "=" 60 +:+ nl;
    (nl +:+ "📂 Checking files in " +:+ AUDIO_DIR +:+ "/...") +:+ nl ].

(** A block of statements that only prints. *)
Definition prints_only (m : M unit) : Prop :=
  ∃ log, ∀ w, m w = (Ok (), World (fs w) (stdin w) (stdout w ++ log)).

(** ** The format of the generated header *)

(** An array as the header declares it: the comment with a byte count
    [n], the array [var_name] with the initializer rows [body], and the
    constant [var_name_len] of value [n]. *)
Definition array_layout (name var_name : string) (n : nat) (body : string)
    : string :=
  "// " +:+ name +:+ " - " +:+ str_nat n +:+ " bytes" +:+ nl
  +:+ "const uint8_t " +:+ var_name +:+ "[] PROGMEM = {" +:+ nl
  +:+ body
  +:+ "};" +:+ nl
  +:+ "const uint32_t " +:+ var_name +:+ "_len = " +:+ str_nat n +:+ ";"
  +:+ nl +:+ nl.

(** One entry of the lookup table, for the file [filename] and the array
    [var_name]. *)
Definition entry_layout (filename var_name : string) : string :=
  "  {" +:+ dq +:+ filename +:+ dq +:+ ", " +:+ var_name +:+ ", "
  +:+ var_name +:+ "_len}," +:+ nl.

(** The lookup table as the header declares it: the structure, the
    entries of [audioFiles] one after the other, and the constant
    [audioFileCount] of value [count]. *)
Definition table_layout (entries : list string) (count : nat) : string :=
  "// Lookup table for audio files" +:+ nl
  +:+ "struct AudioFile {" +:+ nl
  +:+ "  const char* name;" +:+ nl
  +:+ "  const uint8_t* data;" +:+ nl
  +:+ "  uint32_t length;" +:+ nl
  +:+ "};" +:+ nl +:+ nl
  +:+ "const AudioFile audioFiles[] = {" +:+ nl
  +:+ String.concat "" entries
  +:+ "};" +:+ nl +:+ nl
  +:+ "const int audioFileCount = " +:+ str_nat count +:+ ";" +:+ nl +:+ nl.

(** The payload of a required file: its bytes from offset 44 on (none for
    a path that is no regular file). *)
Definition payload (m : gmap string node) (filename : string) : list byte :=
  match m !! audio_path filename with
  | Some (File data) => drop 44 data
  | _ => []
  end.

(** The entries that lines 72-74 add to the table for [file_list]. *)
Definition table_entries (file_list : list string) : list string :=
  (λ filename, entry_layout filename (get_var_name filename)) <$> file_list.

(** The arrays that lines 150-159 write for the files [l] of the file
    system [m]. *)
Definition arrays_of (m : gmap string node) (l : list string) : list string :=
  (λ filename,
     array_layout filename (get_var_name filename)
       (length (payload m filename)) (array_body (payload m filename))) <$> l.

(** The header of a run that converts every existing file: the preamble,
    the arrays, the table and the closing guard. *)
Definition complete_header (m : gmap string node) : string :=
  let existing_files := existing_in m REQUIRED_FILES in
  preamble existing_files (data_total m REQUIRED_FILES)
  +:+ String.concat "" (arrays_of m existing_files)
  +:+ table_layout (table_entries existing_files) (length existing_files)
  +:+ ("#endif // AUDIO_DATA_H" +:+ nl).

(** The vocabulary in the order the specification gives: 1-9, 10-19, the
    tens 20-90, the hundreds 100-900, then the connector word. *)
Definition canonical_vocabulary : list string :=
  [ "1.wav"; "2.wav"; "3.wav"; "4.wav"; "5.wav"; "6.wav"; "7.wav"; "8.wav";
    "9.wav";
    "10.wav"; "11.wav"; "12.wav"; "13.wav"; "14.wav"; "15.wav"; "16.wav";
    "17.wav"; "18.wav"; "19.wav";
    "20.wav"; "30.wav"; "40.wav"; "50.wav"; "60.wav"; "70.wav"; "80.wav";
    "90.wav";
    "100.wav"; "200.wav"; "300.wav"; "400.wav"; "500.wav"; "600.wav";
    "700.wav"; "800.wav"; "900.wav";
    "and.wav" ].

(** ** What a run prints *)

(** What lines 112-129 print after the loop, by the number of required
    files found and the total of the payloads: a warning when files are
    missing, the summary, and a warning when the total is above 60
    percent of the flash memory, which is 921,600 bytes. *)
Definition summary (m : gmap string node) : list string :=
  let found := length (existing_in m REQUIRED_FILES) in
  let total := data_total m REQUIRED_FILES in
  (if decide (found = 37) then []
   else [ (nl +:+ "⚠️  WARNING: " +:+ str_nat (37 - found)
             +:+ " files missing!") +:+ nl;
          "Proceeding with available files only..." +:+ nl ])
  ++ [ (nl +:+ "📊 Summary:") +:+ nl;
       ("  Files found: " +:+ str_nat found +:+ "/37") +:+ nl;
       ("  Total audio data: " +:+ format_comma total +:+ " bytes ("
          +:+ format_kb_1f total +:+ " KB)") +:+ nl ]
  ++ (if decide (921600 < total)%Z then
        [ (nl +:+ "⚠️  WARNING: Audio data is large ("
             +:+ format_kb_0f total +:+ "KB)") +:+ nl;
          "  This may not fit with your program code!" +:+ nl;
          "  Consider:" +:+ nl;
          "    - Using shorter audio clips" +:+ nl;
          "    - Lower sample rate (4kHz instead of 8kHz)" +:+ nl;
          "    - Using SD card instead" +:+ nl ]
      else []).

(** The prompt of line 131. *)
Definition prompt (m : gmap string node) : string :=
  nl +:+ "🔄 Convert " +:+ str_nat (length (existing_in m REQUIRED_FILES))
     +:+ " files to C header? (y/n): ".

(** The line that the handlers of lines 191-198 print for an exception. *)
Definition handler_line (e : exn) : string :=
  match e with
  | KeyboardInterrupt => (nl +:+ nl +:+ "⚠️  Cancelled by user") +:+ nl
  | _ => (nl +:+ nl +:+ "❌ ERROR: " +:+ str_exn e) +:+ nl
  end.

(** What a run that converts nothing prints after the prompt. *)
Definition farewell (input : list stdin_event) : list string :=
  match input with
  | [] => [ handler_line EOFError ]
  | CtrlC :: _ => [ handler_line KeyboardInterrupt ]
  | Line _ :: _ => [ "Cancelled." +:+ nl ]
  end.

(** The lines that the loop of lines 150-159 prints for the files [l],
    counted from [k], of [total]: the progress of each file and its check
    mark, up to the first file that cannot be read. *)
Fixpoint convert_log (m : gmap string node) (total k : nat) (l : list string)
    : list string :=
  match l with
  | [] => []
  | f :: rest =>
      ("  [" +:+ str_nat k +:+ "/" +:+ str_nat total +:+ "] Converting "
         +:+ f +:+ "...")
      :: match m !! audio_path f with
         | Some (File _) => (" ✓" +:+ nl) :: convert_log m total (S k) rest
         | _ => []
         end
  end.

(** What lines 169-187 print after a header of [output_size] bytes. *)
Definition success_block (output_size : Z) : list string :=
  [ (nl +:+ "✅ Success!") +:+ nl;
    ("  Created: " +:+ OUTPUT_FILE) +:+ nl;
    ("  Header size: " +:+ format_comma output_size +:+ " bytes ("
       +:+ format_kb_1f output_size +:+ " KB)") +:+ nl;
    (nl +:+ str_mul "=" 60) +:+ nl;
    "NEXT STEPS" +:+ nl;
    str_mul "=" 60 +:+ nl;
    ("1. Copy " +:+ OUTPUT_FILE +:+ " to your Arduino sketch folder") +:+ nl;
    "   (same directory as your .ino file)" +:+ nl;
    "" +:+ nl;
    "2. In your sketch, add:" +:+ nl;
    ("   #include " +:+ dq +:+ "audio_data.h" +:+ dq) +:+ nl;
    "" +:+ nl;
    "3. Upload to XIAO MG24 and test!" +:+ nl;
    "" +:+ nl;
    "⚠️  Note: Large sketches may take 2-3 minutes to upload" +:+ nl;
    str_mul "=" 60 +:+ nl ].

(** What a confirmed run prints after the prompt. *)
Definition conversion (m : gmap string node) : list string :=
  let existing_files := existing_in m REQUIRED_FILES in
  ((nl +:+ "⚙️  Generating " +:+ OUTPUT_FILE +:+ "...") +:+ nl)
  :: match m !! OUTPUT_FILE with
     | Some (Dir _) => [ handler_line (IsADirectoryError OUTPUT_FILE) ]
     | _ =>
         convert_log m (length existing_files) 1 existing_files
         ++ match arrays_error m existing_files with
            | Some e => [ handler_line e ]
            | None =>
                [ "  Creating lookup table..."; " ✓" +:+ nl ]
                ++ success_block
                     (Z.of_nat (length (String.list_byte_of_string
                                          (header_text m))))
            end
     end.

(** Everything that a run prints, by the file system and the input it
    finds. *)
Definition transcript (m : gmap string node) (input : list stdin_event)
    : list string :=
  match m !! AUDIO_DIR with
  | None =>
      [ str_mul "=" 60 +:+ nl;
        "WAV TO C HEADER CONVERTER" +:+ nl;
        str_mul "=" 60 +:+ nl;
        (nl +:+ "❌ ERROR: Directory '" +:+ AUDIO_DIR +:+ "/' not found!") +:+ nl;
        "Please run generate_audio.py first" +:+ nl ]
  | Some _ =>
      banner ++ (check_line m <$> REQUIRED_FILES) ++ summary m ++ [prompt m]
      ++ match input with
         | Line response :: _ =>
             if decide (accepted response) then conversion m
             else farewell input
         | _ => farewell input
         end
  end.

(** ** Identifiers and totals *)

(** Text made of decimal digits only. *)
Fixpoint digits_only (s : string) : Prop :=
  match s with
  | "" => True
  | String c rest => (48 ≤ nat_of_ascii c ≤ 57)%nat ∧ digits_only rest
  end.

(** The number of sample bytes in the arrays of the files [l]. *)
Definition payload_total (m : gmap string node) (l : list string) : nat :=
  sum_list ((λ filename, length (payload m filename)) <$> l).

(** ** What the generator's checks compute *)

(** The sum of the sizes of the files of [l] that exist. *)
Fixpoint size_total (m : gmap string node) (l : list string) : Z :=
  match l with
  | [] => 0
  | f :: rest =>
      match m !! audio_path f with
      | Some n => node_size n + size_total m rest
      | None => size_total m rest
      end
  end%Z.

(** The line that lines 203-211 of the generator print for a file. *)
Definition verify_line (m : gmap string node) (filename : string) : string :=
  match m !! audio_path filename with
  | Some n =>
      ("  ✓ " +:+ ljust 12 filename +:+ " - "
         +:+ rjust 6 (format_comma (node_size n)) +:+ " bytes") +:+ nl
  | None => missing_line filename
  end.

(** What [verify_files] prints, by the number of required files found
    and the total of the payloads: each file takes its 44 header bytes
    more than the packer counts for it. *)
Definition verify_report (m : gmap string node) : list string :=
  let found := length (existing_in m REQUIRED_FILES) in
  let total := (data_total m REQUIRED_FILES + 44 * Z.of_nat found)%Z in
  [ (nl +:+ str_mul "=" 60) +:+ nl;
    "VERIFYING GENERATED FILES" +:+ nl;
    (str_mul "=" 60 +:+ nl) +:+ nl ]
  ++ (verify_line m <$> REQUIRED_FILES)
  ++ [ (nl +:+ " Total files: " +:+ str_nat found +:+ "/37") +:+ nl;
       (" Total size: " +:+ format_comma total +:+ " bytes ("
          +:+ format_kb_1f total +:+ " KB)") +:+ nl;
       if decide (found = 37)
       then (nl +:+ " All files generated successfully!") +:+ nl
       else (nl +:+ "⚠ WARNING: " +:+ str_nat (37 - found)
               +:+ " files missing!") +:+ nl ].

(** The file of a number, and the line that announces a file. *)
Definition wav (z : Z) : string := GenerateAudio.str_int z +:+ ".wav".
Definition play_line (filename : string) : string :=
  ("  → " +:+ filename) +:+ nl.

(** The numbers that have a file of their own, in the order of the
    vocabulary. *)
Definition spoken_numbers : list Z :=
  [ 1; 2; 3; 4; 5; 6; 7; 8; 9; 10; 11; 12; 13; 14; 15; 16; 17; 18; 19;
    20; 30; 40; 50; 60; 70; 80; 90;
    100; 200; 300; 400; 500; 600; 700; 800; 900 ]%Z.

(** ** What the generation leaves *)

(** A computation that lets no exception escape but an interrupt, and
    whose value, when it returns one, satisfies [P]. *)
Definition contained {A} (P : A → Prop) (m : M A) : Prop :=
  ∀ w, match fst (m w) with
       | Ok a => P a
       | Raise e => e = KeyboardInterrupt
       | SysExit _ => True
       end.

(** Every required file that exists in [w] exists in [w']. *)
Definition extends (w w' : world) : Prop :=
  ∀ f, f ∈ REQUIRED_FILES →
       is_Some (fs w !! audio_path f) → is_Some (fs w' !! audio_path f).

(** ** Sample worlds *)

(** The 44-byte header of an 8 kHz, mono, 8-bit PCM file with [n] bytes
    of samples ([n < 256]). *)
Definition wav_header (n : byte) : list byte :=
  [ x52; x49; x46; x46; x00; x00; x00; x00; x57; x41; x56; x45;
    x66; x6d; x74; x20; x10; x00; x00; x00; x01; x00; x01; x00;
    x40; x1f; x00; x00; x40; x1f; x00; x00; x01; x00; x08; x00;
    x64; x61; x74; x61; n; x00; x00; x00 ].

(** [n] sample bytes 0, 1, 2, ... (modulo 256). *)
Definition ramp (n : nat) : list byte :=
  (λ i, default x00 (Byte.of_nat (i mod 256))) <$> seq 0 n.

(** A file of 44 header bytes and 1000 sample bytes, under [100_temp]. *)
Definition scenario_world : world :=
  World {[ "100_temp" := File (wav_header xe8 ++ ramp 1000) ]} [] [].

(** The audio directory with the files [l], each of 44 header bytes and
    three sample bytes; the user answers [response]. *)
Definition audio_fs (l : list string) : gmap string node :=
  <[AUDIO_DIR := Dir 4096]>
    (list_to_map ((λ f, (audio_path f, File (wav_header x03 ++ ramp 3))) <$> l)).
Definition audio_world (l : list string) (response : string) : world :=
  World (audio_fs l) [Line response] [].

(** Every required file but [1.wav], [2.wav] and [3.wav]. *)
Definition all_but_three : list string := drop 3 REQUIRED_FILES.

(** A file of ten bytes, shorter than a header, and one of exactly 44. *)
Definition short_world : world :=
  World {[ "audio_files/1.wav" := File (take 10 (wav_header x00));
           "audio_files/2.wav" := File (wav_header x00) ]} [] [].

(** Library calls that write the files they are asked for: the synthesis
    leaves an empty MP3 file, the conversion a WAV file of three
    samples. *)
Definition sample_tts_save (text filename : string) : M unit :=
  λ w, (Ok (), World (<[filename := File []]> (fs w)) (stdin w) (stdout w)).
Definition sample_export_wav (mp3_file wav_file : string) : M unit :=
  λ w, (Ok (),
        World (<[wav_file := File (wav_header x03 ++ ramp 3)]> (fs w))
              (stdin w) (stdout w)).

(** ** The embedding at work *)

Example range_examples :
  range 20 100 10 = [20; 30; 40; 50; 60; 70; 80; 90]
  ∧ range 0 33 16 = [0; 16; 32]
  ∧ range 0 32 16 = [0; 16]
  ∧ range 0 0 16 = [].
Proof. repeat split; reflexivity. Qed.

Example format_examples :
  format_comma 1234567 = "1,234,567"
  ∧ format_comma (-1234) = "-1,234"
  ∧ format_comma 999 = "999"
  ∧ rjust 6 (format_comma (-34)) = "   -34"
  ∧ rjust 6 (format_comma 1234567) = "1,234,567"
  ∧ ljust 12 "and.wav" = "and.wav     "
  ∧ format_02X x0a = "0A"
  ∧ format_02X xff = "FF".
Proof. repeat split; vm_compute; reflexivity. Qed.

Example format_kb_examples :
  format_kb_1f 1536 = "1.5"
  ∧ format_kb_1f 0 = "0.0"
  ∧ format_kb_1f 51 = "0.0"
  ∧ format_kb_1f 52 = "0.1"
  ∧ format_kb_1f (-34) = "-0.0"
  ∧ format_kb_1f 1000000 = "976.6"
  ∧ format_kb_0f 1536 = "2"
  ∧ format_kb_0f 2560 = "2"
  ∧ format_kb_0f 512 = "0".
Proof. repeat split; vm_compute; reflexivity. Qed.

Example over_budget_examples :
  over_budget 921600 = false ∧ over_budget 921601 = true.
Proof. split; reflexivity. Qed.

Example replace_examples :
  replace ".wav" "" "100.wav" = "100"
  ∧ replace ".wav" "" "a.wav.wavb" = "ab"
  ∧ replace ".wav" "" "..wavwav" = ".wav"
  ∧ replace ".wav" "" "and" = "and".
Proof. repeat split; reflexivity. Qed.

Example path_examples :
  path_join "audio_files" "1.wav" = "audio_files/1.wav"
  ∧ path_join "a/" "b" = "a/b"
  ∧ path_join "a" "/b" = "/b"
  ∧ basename "audio_files/1.wav" = "1.wav"
  ∧ basename "a/b/" = ""
  ∧ basename "100_temp" = "100_temp".
Proof. repeat split; reflexivity. Qed.

Example lower_examples :
  lower "Yes" = "yes" ∧ lower "Y" = "y" ∧ lower " y" = " y".
Proof. repeat split; reflexivity. Qed.

Example get_var_name_examples :
  get_var_name "100.wav" = "audio_100" ∧ get_var_name "and.wav" = "audio_and".
Proof. split; reflexivity. Qed.

(** A payload of seventeen bytes makes two rows, the first one closed by
    a comma. *)
Example convert_seventeen_bytes :
  fst (convert_wav_to_array "audio_files/5.wav" "audio_5"
         (World {[ "audio_files/5.wav" := File (wav_header x11 ++ ramp 17) ]}
                [] []))
  = Ok ("// 5.wav - 17 bytes" +:+ nl
        +:+ "const uint8_t audio_5[] PROGMEM = {" +:+ nl
        +:+ "  0x00, 0x01, 0x02, 0x03, 0x04, 0x05, 0x06, 0x07, "
        +:+ "0x08, 0x09, 0x0A, 0x0B, 0x0C, 0x0D, 0x0E, 0x0F," +:+ nl
        +:+ "  0x10" +:+ nl
        +:+ "};" +:+ nl
        +:+ "const uint32_t audio_5_len = 17;" +:+ nl +:+ nl).
Proof. vm_compute. reflexivity. Qed.

(** The header of a confirmed run that finds [1.wav] and [and.wav], of
    three sample bytes each. *)
Example header_of_two_files :
  fs (snd (script (audio_world ["1.wav"; "and.wav"] "y"))) !! OUTPUT_FILE
  = Some (File (String.list_byte_of_string
      ("// Auto-generated audio data from WAV files" +:+ nl
       +:+ "// DO NOT EDIT MANUALLY" +:+ nl
       +:+ "// Generated from 2 WAV files" +:+ nl
       +:+ "// Total audio data: 6 bytes" +:+ nl
       +:+ nl
       +:+ "#ifndef AUDIO_DATA_H" +:+ nl
       +:+ "#define AUDIO_DATA_H" +:+ nl
       +:+ nl
       +:+ "#include <Arduino.h>" +:+ nl
       +:+ nl
       +:+ "// 1.wav - 3 bytes" +:+ nl
       +:+ "const uint8_t audio_1[] PROGMEM = {" +:+ nl
       +:+ "  0x00, 0x01, 0x02" +:+ nl
       +:+ "};" +:+ nl
       +:+ "const uint32_t audio_1_len = 3;" +:+ nl
       +:+ nl
       +:+ "// and.wav - 3 bytes" +:+ nl
       +:+ "const uint8_t audio_and[] PROGMEM = {" +:+ nl
       +:+ "  0x00, 0x01, 0x02" +:+ nl
       +:+ "};" +:+ nl
       +:+ "const uint32_t audio_and_len = 3;" +:+ nl
       +:+ nl
       +:+ "// Lookup table for audio files" +:+ nl
       +:+ "struct AudioFile {" +:+ nl
       +:+ "  const char* name;" +:+ nl
       +:+ "  const uint8_t* data;" +:+ nl
       +:+ "  uint32_t length;" +:+ nl
       +:+ "};" +:+ nl
       +:+ nl
       +:+ "const AudioFile audioFiles[] = {" +:+ nl
       +:+ "  {" +:+ dq +:+ "1.wav" +:+ dq +:+ ", audio_1, audio_1_len}," +:+ nl
       +:+ "  {" +:+ dq +:+ "and.wav" +:+ dq +:+ ", audio_and, audio_and_len},"
       +:+ nl
       +:+ "};" +:+ nl
       +:+ nl
       +:+ "const int audioFileCount = 2;" +:+ nl
       +:+ nl
       +:+ "#endif // AUDIO_DATA_H" +:+ nl))).
Proof. vm_compute. reflexivity. Qed.

(** Without the audio directory the script prints its banner and the
    error, and leaves with status 1. *)
Example run_without_directory :
  script (World ∅ [Line "y"] [])
  = (1%Z,
     World ∅ [Line "y"]
       [ "============================================================" +:+ nl;
         "WAV TO C HEADER CONVERTER" +:+ nl;
         "============================================================" +:+ nl;
         nl +:+ "❌ ERROR: Directory 'audio_files/' not found!" +:+ nl;
         "Please run generate_audio.py first" +:+ nl ]).
Proof. vm_compute. reflexivity. Qed.

(** A required path that is a directory stops the run in the middle of
    the header: status 1, and the header ends after the arrays written
    so far. *)
Example run_with_unreadable_file :
  let w :=
    World (<["audio_files/2.wav" := Dir 4096]> (audio_fs ["1.wav"; "and.wav"]))
          [Line "y"] [] in
  fst (script w) = 1%Z
  ∧ fs (snd (script w)) !! OUTPUT_FILE
    = Some (File (String.list_byte_of_string
        ("// Auto-generated audio data from WAV files" +:+ nl
         +:+ "// DO NOT EDIT MANUALLY" +:+ nl
         +:+ "// Generated from 3 WAV files" +:+ nl
         +:+ "// Total audio data: 4,058 bytes" +:+ nl
         +:+ nl
         +:+ "#ifndef AUDIO_DATA_H" +:+ nl
         +:+ "#define AUDIO_DATA_H" +:+ nl
         +:+ nl
         +:+ "#include <Arduino.h>" +:+ nl
         +:+ nl
         +:+ "// 1.wav - 3 bytes" +:+ nl
         +:+ "const uint8_t audio_1[] PROGMEM = {" +:+ nl
         +:+ "  0x00, 0x01, 0x02" +:+ nl
         +:+ "};" +:+ nl
         +:+ "const uint32_t audio_1_len = 3;" +:+ nl
         +:+ nl))).
Proof. split; vm_compute; reflexivity. Qed.

Example announcement_examples :
  stdout (snd (GenerateAudio.test_score_announcement 812 (World ∅ [] [])))
  = [ (nl +:+ "Test Score: 812") +:+ nl; "Files to play:" +:+ nl;
      play_line "800.wav"; play_line "and.wav"; play_line "12.wav" ]
  ∧ stdout (snd (GenerateAudio.test_score_announcement 47 (World ∅ [] [])))
    = [ (nl +:+ "Test Score: 47") +:+ nl; "Files to play:" +:+ nl;
        play_line "and.wav"; play_line "40.wav"; play_line "7.wav" ]
  ∧ stdout (snd (GenerateAudio.test_score_announcement 500 (World ∅ [] [])))
    = [ (nl +:+ "Test Score: 500") +:+ nl; "Files to play:" +:+ nl;
        play_line "500.wav" ].
Proof. repeat split; vm_compute; reflexivity. Qed.

Example verify_files_examples :
  fst (GenerateAudio.verify_files (World (audio_fs REQUIRED_FILES) [] []))
  = Ok true
  ∧ GenerateAudio.verify_files (World (audio_fs ["1.wav"]) [] [])
    = (Ok false,
       World (audio_fs ["1.wav"]) []
         ([ (nl +:+ str_mul "=" 60) +:+ nl;
            "VERIFYING GENERATED FILES" +:+ nl;
            (str_mul "=" 60 +:+ nl) +:+ nl;
            "  ✓ 1.wav        -     47 bytes" +:+ nl ]
          ++ (missing_line <$> drop 1 REQUIRED_FILES)
          ++ [ (nl +:+ " Total files: 1/37") +:+ nl;
               " Total size: 47 bytes (0.0 KB)" +:+ nl;
               (nl +:+ "⚠ WARNING: 36 files missing!") +:+ nl ])).
Proof. split; vm_compute; reflexivity. Qed.

Example generate_audio_file_examples :
  GenerateAudio.generate_audio_file
    (λ text filename w, (Raise (FileNotFoundError filename), w))
    sample_export_wav (GenerateAudio.Number 7) "seven" (World ∅ [] [])
  = (Ok false,
     World ∅ []
       [ "  ✗ Failed to generate TTS for 'seven': [Errno 2] No such file or directory: 'temp_audio/7_temp.mp3'"
           +:+ nl ])
  ∧ GenerateAudio.generate_audio_file sample_tts_save sample_export_wav
      (GenerateAudio.Word "and") "and" (World ∅ [] [])
    = (Ok true,
       World {[ "audio_files/and.wav" := File (wav_header x03 ++ ramp 3) ]}
             [] []).
Proof. split; vm_compute; reflexivity. Qed.

(** ** Properties of the built-ins *)

Lemma append_nil_l (a : string) : "" +:+ a = a.
Proof. reflexivity. Qed.

Lemma append_cons (ch : ascii) (a b : string) :
  String ch a +:+ b = String ch (a +:+ b).
Proof. reflexivity. Qed.

Lemma append_assoc (a b c : string) : (a +:+ b) +:+ c = a +:+ (b +:+ c).
Proof.
  induction a as [|ch a IH]; [done|]. by rewrite !append_cons, IH.
Qed.

Lemma append_nil_r (a : string) : a +:+ "" = a.
Proof. induction a as [|ch a IH]; [done|]. by rewrite append_cons, IH. Qed.

Lemma hex_literal_format (b : byte) (rest : string) :
  hex_literal ("0x" +:+ format_02X b +:+ rest) = Some b.
Proof. destruct b; reflexivity. Qed.

Lemma literal_shape (b : byte) (rest : string) :
  ∃ h l, "0x" +:+ format_02X b +:+ rest
         = String "0" (String "x" (String h (String l rest))).
Proof. unfold format_02X. eexists _, _. reflexivity. Qed.

(** A literal is read as its byte, and reading goes on behind it. *)
Lemma c_array_bytes_literal (b : byte) (rest : string) :
  c_array_bytes_go 0 ("0x" +:+ format_02X b +:+ rest)
  = b :: c_array_bytes_go 0 rest.
Proof.
  pose proof (hex_literal_format b rest) as Hlit.
  destruct (literal_shape b rest) as (h & l & Hshape).
  rewrite Hshape in *.
  cbn [c_array_bytes_go]. by rewrite Hlit.
Qed.

(** A separator starts no literal. *)
Lemma c_array_bytes_separator (c : ascii) (rest : string) :
  separator c →
  c_array_bytes_go 0 (String c rest) = c_array_bytes_go 0 rest.
Proof. by intros [->|[->|[->| ->]]]. Qed.

Lemma c_array_bytes_hex_values (chunk : list byte) (rest : string) :
  c_array_bytes_go 0
    (join ", " ((λ b, "0x" +:+ format_02X b) <$> chunk) +:+ rest)
  = chunk ++ c_array_bytes_go 0 rest.
Proof.
  induction chunk as [|b [|b' chunk] IH].
  - done.
  - change (c_array_bytes_go 0 (("0x" +:+ format_02X b) +:+ rest)
            = [b] ++ c_array_bytes_go 0 rest).
    by rewrite append_assoc, c_array_bytes_literal.
  - change (join ", " ((λ b, "0x" +:+ format_02X b) <$> b :: b' :: chunk))
      with (("0x" +:+ format_02X b) +:+ ", "
            +:+ join ", " ((λ b, "0x" +:+ format_02X b) <$> b' :: chunk)).
    rewrite !append_assoc, c_array_bytes_literal, !append_cons, append_nil_l.
    rewrite !c_array_bytes_separator by (unfold separator; auto).
    by rewrite IH.
Qed.

(** ** The rows of an array and the bytes they denote *)

Lemma array_row_acc (audio_data : list byte) (acc : string) (i : nat) :
  array_row audio_data acc i = acc +:+ array_row audio_data "" i.
Proof.
  unfold array_row. destruct (i + 16 <? length audio_data)%nat;
    by rewrite ?append_assoc, ?append_nil_l.
Qed.

Lemma foldl_array_row (audio_data : list byte) (l : list nat) (acc : string) :
  foldl (array_row audio_data) acc l
  = acc +:+ foldl (array_row audio_data) "" l.
Proof.
  revert acc. induction l as [|i l IH]; intros acc; simpl.
  - by rewrite append_nil_r.
  - rewrite IH, (IH (array_row _ "" i)), array_row_acc. apply append_assoc.
Qed.

(** One row denotes the sixteen bytes (or fewer, at the end) that it was
    made of. *)
Lemma c_array_bytes_row (audio_data : list byte) (i : nat) (rest : string) :
  c_array_bytes_go 0 (array_row audio_data "" i +:+ rest)
  = take 16 (drop i audio_data) ++ c_array_bytes_go 0 rest.
Proof.
  unfold array_row.
  destruct (i + 16 <? length audio_data)%nat;
    rewrite ?append_nil_l, ?append_assoc, ?append_cons, ?append_nil_l;
    rewrite !c_array_bytes_separator by (unfold separator; auto);
    rewrite c_array_bytes_hex_values;
    unfold nl; rewrite ?append_cons, ?append_nil_l;
    by rewrite !c_array_bytes_separator by (unfold separator; auto).
Qed.

Lemma c_array_bytes_rows (audio_data : list byte) (m j : nat) (rest : string) :
  c_array_bytes_go 0
    (foldl (array_row audio_data) "" ((λ k, 0 + k * 16) <$> seq j m) +:+ rest)
  = take (m * 16) (drop (j * 16) audio_data) ++ c_array_bytes_go 0 rest.
Proof.
  revert j. induction m as [|m IH]; intros j.
  - by rewrite append_nil_l.
  - cbn [seq fmap list_fmap foldl].
    rewrite foldl_array_row, append_assoc, c_array_bytes_row, IH.
    rewrite app_assoc. f_equal.
    replace (0 + j * 16) with (j * 16) by lia.
    replace (S j * 16) with (j * 16 + 16) by lia.
    replace (S m * 16) with (16 + m * 16) by lia.
    by rewrite <- drop_drop, <- take_take_drop.
Qed.

(** The array body denotes exactly the payload: every byte, in order,
    nothing more. *)
Lemma c_array_bytes_body (audio_data : list byte) (rest : string) :
  c_array_bytes_go 0 (array_body audio_data +:+ rest)
  = audio_data ++ c_array_bytes_go 0 rest.
Proof.
  unfold array_body, range. rewrite c_array_bytes_rows.
  rewrite drop_0, take_ge; [done|].
  pose proof (Nat.div_mod_eq (length audio_data - 0 + (16 - 1)) 16).
  pose proof (Nat.mod_upper_bound (length audio_data - 0 + (16 - 1)) 16).
  lia.
Qed.

(** ** The statements of the script, one by one *)

Lemma convert_wav_to_array_eq (filepath var_name : string) (w : world) :
  convert_wav_to_array filepath var_name w
  = match fs w !! filepath with
    | Some (File data) =>
        (Ok (array_text (basename filepath) var_name (drop 44 data)), w)
    | Some (Dir _) => (Raise (IsADirectoryError filepath), w)
    | None => (Raise (FileNotFoundError filepath), w)
    end.
Proof.
  unfold convert_wav_to_array, bind, read_binary.
  destruct (fs w !! filepath) as [[data|z]|]; [|done..].
  unfold ret, array_text. do 2 f_equal.
  rewrite foldl_array_row. fold (array_body (drop 44 data)).
  by rewrite !append_assoc.
Qed.

Lemma check_file_loop (l : list string) (e mi : list string) (t : Z) (w : world) :
  for_each l check_file (e, mi, t) w
  = (Ok (e ++ existing_in (fs w) l, mi ++ missing_in (fs w) l,
         (t + data_total (fs w) l)%Z),
     World (fs w) (stdin w) (stdout w ++ (check_line (fs w) <$> l))).
Proof.
  revert e mi t w. induction l as [|f l IH]; intros e mi t w.
  - simpl. unfold ret. rewrite !app_nil_r, Z.add_0_r. by destruct w.
  - cbn [for_each]. unfold bind at 1. unfold check_file at 1.
    unfold bind at 1. unfold path_exists at 1. fold (audio_path f).
    unfold existing_in, missing_in. rewrite !filter_cons.
    cbn [data_total fmap list_fmap]. unfold check_line at 1.
    destruct (fs w !! audio_path f) as [n|] eqn:Hf.
    + rewrite bool_decide_eq_true_2 by eauto.
      rewrite decide_True by eauto. rewrite decide_False by (intros H; apply H; eauto).
      unfold bind, getsize, print, write_stdout, ret. rewrite Hf.
      assert (∀ z, found_line f z = ("  ✓ " +:+ ljust 12 f +:+ " - "
                +:+ rjust 6 (format_comma z) +:+ " bytes (audio data)") +:+ nl) as Hline.
      { intros z. unfold found_line. by rewrite !append_assoc. }
      destruct n as [data|z]; rewrite IH; cbn [fs stdin stdout node_size];
        rewrite <- Hline, <- !(assoc_L (++)), Z.add_assoc; reflexivity.
    + rewrite bool_decide_eq_false_2 by (intros [? ?]; done).
      rewrite decide_False by (intros [? ?]; done).
      rewrite decide_True by (intros [? ?]; done).
      unfold bind, print, write_stdout, ret. rewrite IH.
      cbn [fs stdin stdout]. unfold missing_line.
      rewrite <- !(assoc_L (++)), !append_assoc. reflexivity.
Qed.

Lemma list_byte_of_string_app (a b : string) :
  String.list_byte_of_string (a +:+ b)
  = String.list_byte_of_string a ++ String.list_byte_of_string b.
Proof.
  induction a as [|ch a IH]; [done|].
  rewrite append_cons. unfold String.list_byte_of_string in *.
  cbn [String.list_ascii_of_string map]. by rewrite IH.
Qed.

Lemma audio_path_not_output (filename : string) :
  audio_path filename ≠ OUTPUT_FILE.
Proof.
  unfold audio_path, path_join.
  destruct (String.prefix "/" filename) eqn:Hprefix.
  - intros ->. done.
  - vm_compute. discriminate.
Qed.

Lemma file_write_eq (p s : string) (data : list byte) (w : world) :
  fs w !! p = Some (File data) →
  file_write p s w
  = (Ok (), World (<[p := File (data ++ String.list_byte_of_string s)]> (fs w))
                  (stdin w) (stdout w)).
Proof.
  intros Hp. unfold file_write. do 2 f_equal.
  apply map_eq. intros q. rewrite lookup_alter, lookup_insert.
  destruct (decide (p = q)) as [->|]; [|done]. by rewrite Hp.
Qed.

Section output_untouched.
Variables (m : gmap string node) (n : node).

Lemma lookup_audio_insert_output (filename : string) :
  <[OUTPUT_FILE := n]> m !! audio_path filename = m !! audio_path filename.
Proof. apply lookup_insert_ne. by intros ?%symmetry%audio_path_not_output. Qed.

Lemma arrays_text_insert_output (l : list string) :
  arrays_text (<[OUTPUT_FILE := n]> m) l = arrays_text m l.
Proof.
  induction l as [|f l IH]; [done|]. cbn [arrays_text].
  by rewrite lookup_audio_insert_output, IH.
Qed.

Lemma arrays_error_insert_output (l : list string) :
  arrays_error (<[OUTPUT_FILE := n]> m) l = arrays_error m l.
Proof.
  induction l as [|f l IH]; [done|]. cbn [arrays_error].
  by rewrite lookup_audio_insert_output, IH.
Qed.

Lemma existing_in_insert_output (l : list string) :
  existing_in (<[OUTPUT_FILE := n]> m) l = existing_in m l.
Proof.
  unfold existing_in. apply list_filter_iff. intros f.
  by rewrite lookup_audio_insert_output.
Qed.

Lemma data_total_insert_output (l : list string) :
  data_total (<[OUTPUT_FILE := n]> m) l = data_total m l.
Proof.
  induction l as [|f l IH]; [done|]. cbn [data_total].
  by rewrite lookup_audio_insert_output, IH.
Qed.

Lemma header_text_insert_output :
  header_text (<[OUTPUT_FILE := n]> m) = header_text m.
Proof.
  unfold header_text.
  by rewrite existing_in_insert_output, data_total_insert_output,
    arrays_text_insert_output, arrays_error_insert_output.
Qed.
End output_untouched.

Lemma convert_file_loop (existing_files l : list string) (k : nat)
    (data : list byte) (w : world) :
  fs w !! OUTPUT_FILE = Some (File data) →
  ∃ log,
    for_each (zip (seq k (length l)) l) (convert_file existing_files) () w
    = (match arrays_error (fs w) l with None => Ok () | Some e => Raise e end,
       World (<[OUTPUT_FILE :=
                  File (data ++ String.list_byte_of_string (arrays_text (fs w) l))]>
                (fs w))
             (stdin w) (stdout w ++ log)).
Proof.
  revert k data w. induction l as [|f l IH]; intros k data w Hout.
  - exists []. simpl. unfold ret. rewrite !app_nil_r.
    rewrite insert_id by done. by destruct w.
  - cbn [length seq zip zip_with for_each arrays_error arrays_text].
    unfold bind at 1. unfold convert_file at 1.
    unfold bind at 1. unfold print_no_end at 1, write_stdout at 1.
    unfold bind at 1. rewrite convert_wav_to_array_eq. cbn [fs stdin stdout].
    fold (audio_path f).
    destruct (fs w !! audio_path f) as [[d|z]|] eqn:Hf.
    + unfold bind at 1.
      erewrite file_write_eq by (cbn [fs]; exact Hout).
      cbn [fs stdin stdout]. unfold print, write_stdout.
      cbn [fs stdin stdout].
      match goal with
      | |- context [for_each _ _ _ ?w1] =>
          destruct (IH (S k) _ w1 (lookup_insert_eq _ _ _)) as [log Hlog];
          cbn [fs stdin stdout] in Hlog; rewrite Hlog
      end.
      rewrite arrays_error_insert_output, arrays_text_insert_output.
      rewrite insert_insert_eq, list_byte_of_string_app, <- !(assoc_L (++)).
      eexists. reflexivity.
    + change (String.list_byte_of_string "") with (@nil byte).
      rewrite app_nil_r, insert_id by done. eexists. reflexivity.
    + change (String.list_byte_of_string "") with (@nil byte).
      rewrite app_nil_r, insert_id by done. eexists. reflexivity.
Qed.

Section steps.
Context {B : Type} (k : unit → M B) (w : world).

Lemma bind_print (s : string) :
  bind (print s) k w
  = k () (World (fs w) (stdin w) (stdout w ++ [s +:+ nl])).
Proof. reflexivity. Qed.

Lemma bind_print_no_end (s : string) :
  bind (print_no_end s) k w
  = k () (World (fs w) (stdin w) (stdout w ++ [s])).
Proof. reflexivity. Qed.

Lemma bind_ret {A} (a : A) (k' : A → M B) : bind (ret a) k' w = k' a w.
Proof. reflexivity. Qed.

Lemma bind_sys_exit {A} (code : Z) (k' : A → M B) :
  bind (sys_exit code) k' w = (SysExit code, w).
Proof. reflexivity. Qed.

Lemma bind_file_write (p s : string) (data : list byte) :
  fs w !! p = Some (File data) →
  bind (file_write p s) k w
  = k () (World (<[p := File (data ++ String.list_byte_of_string s)]> (fs w))
                (stdin w) (stdout w)).
Proof. intros Hp. unfold bind. by erewrite file_write_eq. Qed.
End steps.

Lemma bind_assoc {A B C} (m : M A) (k1 : A → M B) (k2 : B → M C) (w : world) :
  bind (bind m k1) k2 w = bind m (λ a, bind (k1 a) k2) w.
Proof. unfold bind. by destruct (m w) as [[a|e|c] w']. Qed.

Ltac run_prints :=
  repeat (first [ rewrite bind_print | rewrite bind_print_no_end
                | rewrite bind_assoc ];
          cbn [fs stdin stdout]).

Ltac run_write :=
  erewrite bind_file_write by (cbn [fs]; apply lookup_insert_eq);
  cbn [fs stdin stdout]; rewrite insert_insert_eq.

Lemma write_header_dir (existing_files : list string) (total_size z : Z)
    (w : world) :
  fs w !! OUTPUT_FILE = Some (Dir z) →
  write_header existing_files total_size w
  = (Raise (IsADirectoryError OUTPUT_FILE), w).
Proof. intros Hout. unfold write_header, bind, open_w. by rewrite Hout. Qed.

Lemma write_header_file (existing_files : list string) (total_size : Z)
    (w : world) :
  (∀ z, fs w !! OUTPUT_FILE ≠ Some (Dir z)) →
  ∃ log,
    write_header existing_files total_size w
    = (match arrays_error (fs w) existing_files with
       | None => Ok ()
       | Some e => Raise e
       end,
       World (<[OUTPUT_FILE :=
                  File (String.list_byte_of_string
                          (preamble existing_files total_size
                           +:+ arrays_text (fs w) existing_files
                           +:+ match arrays_error (fs w) existing_files with
                               | None =>
                                   create_lookup_table existing_files
                                     +:+ ("#endif // AUDIO_DATA_H" +:+ nl)
                               | Some _ => ""
                               end))]> (fs w))
             (stdin w) (stdout w ++ log)).
Proof.
  intros Hout. unfold write_header.
  unfold bind at 1.
  assert (open_w OUTPUT_FILE w
          = (Ok (), World (<[OUTPUT_FILE := File []]> (fs w)) (stdin w) (stdout w)))
    as ->.
  { unfold open_w. destruct (fs w !! OUTPUT_FILE) as [[d|z]|] eqn:E; try done.
    by destruct (Hout z). }
  do 7 run_write.
  unfold bind at 1. unfold enumerate.
  match goal with
  | |- context [for_each _ _ _ ?w1] =>
      destruct (convert_file_loop existing_files existing_files 1 _ w1
                  (lookup_insert_eq _ _ _)) as [log Hlog];
      cbn [fs stdin stdout] in Hlog; rewrite Hlog
  end.
  rewrite arrays_error_insert_output, arrays_text_insert_output, insert_insert_eq.
  destruct (arrays_error (fs w) existing_files) as [e|]; cbv beta iota.
  - exists log. do 3 f_equal. unfold preamble.
    rewrite append_nil_r, !list_byte_of_string_app, !app_nil_l.
    rewrite <- !(assoc_L (++)).
    reflexivity.
  - run_prints. run_write. run_prints.
    erewrite file_write_eq by (cbn [fs]; apply lookup_insert_eq).
    cbn [fs stdin stdout]. rewrite insert_insert_eq.
    eexists. f_equal. f_equal.
    + do 2 f_equal. unfold preamble.
      rewrite !list_byte_of_string_app, !app_nil_l, <- !(assoc_L (++)).
      reflexivity.
    + rewrite <- !(assoc_L (++)). reflexivity.
Qed.

(** ** The run of the script *)

Lemma prints_only_ret : prints_only (ret ()).
Proof. exists []. intros [m i o]. unfold ret. by rewrite app_nil_r. Qed.

Lemma prints_only_print (s : string) : prints_only (print s).
Proof. by eexists. Qed.

Lemma prints_only_bind (m1 m2 : M unit) :
  prints_only m1 → prints_only m2 → prints_only (bind m1 (λ _, m2)).
Proof.
  intros [l1 H1] [l2 H2]. exists (l1 ++ l2). intros w.
  unfold bind. rewrite H1, H2. cbn [fs stdin stdout]. by rewrite (assoc_L (++)).
Qed.

Lemma prints_only_if (b : bool) (m1 m2 : M unit) :
  prints_only m1 → prints_only m2 → prints_only (if b then m1 else m2).
Proof. by destruct b. Qed.

Lemma bind_prints_only {B} (m : M unit) (k : unit → M B) :
  prints_only m →
  ∃ log, ∀ w, bind m k w = k () (World (fs w) (stdin w) (stdout w ++ log)).
Proof. intros [log H]. exists log. intros w. unfold bind. by rewrite H. Qed.

Create HintDb prints.
#[local] Hint Resolve prints_only_ret prints_only_print prints_only_bind
  prints_only_if : prints.

Ltac run_block :=
  match goal with
  | |- context [bind (if ?b then ?m1 else ?m2) ?k ?w] =>
      let log := fresh "log" in
      let H := fresh "Hblock" in
      destruct (bind_prints_only (if b then m1 else m2) k
                  ltac:(auto 10 with prints)) as [log H];
      rewrite H; clear H; cbn [fs stdin stdout]
  end.

Lemma bind_path_exists {B} (p : string) (k : bool → M B) (w : world) :
  bind (path_exists p) k w = k (bool_decide (is_Some (fs w !! p))) w.
Proof. reflexivity. Qed.

Lemma bind_check_files {B} (k : list string * list string * Z → M B)
    (w : world) :
  bind (for_each REQUIRED_FILES check_file ([], [], 0%Z)) k w
  = k (existing_in (fs w) REQUIRED_FILES, missing_in (fs w) REQUIRED_FILES,
       data_total (fs w) REQUIRED_FILES)
      (World (fs w) (stdin w)
             (stdout w ++ (check_line (fs w) <$> REQUIRED_FILES))).
Proof. unfold bind. by rewrite check_file_loop. Qed.

Ltac finish :=
  unfold sys_exit; cbn [exit_status fs stdin stdout];
  exists banner; eexists; unfold banner;
  rewrite <- ?(assoc_L (++)); cbn [app]; reflexivity.

Ltac run_header :=
  match goal with
  | |- context [write_header ?e ?t ?w1] =>
      let log := fresh "log" in
      let H := fresh "Hw" in
      destruct (write_header_file e t w1) as [log H];
      [ cbn [fs]; intros ?; congruence
      | cbn [fs stdin stdout] in H; rewrite H; clear H ]
  end.

Ltac after_header w :=
  destruct (arrays_error (fs w) (existing_in (fs w) REQUIRED_FILES))
    as [[]|]; cbv beta iota;
  [ rewrite bind_print; finish ..
  | unfold bind at 1, getsize at 1; cbn [fs]; rewrite lookup_insert_eq;
    cbv beta iota; run_prints; unfold print, write_stdout; finish ].

Lemma script_eq (w : world) :
  ∃ log1 log2,
    script w
    = (let '(status, m, input) := outcome (fs w) (stdin w) in
       (status, World m input (stdout w ++ log1 ++ report (fs w) ++ log2))).
Proof.
  unfold script, guarded_main, main, outcome, report.
  run_prints. rewrite bind_path_exists. cbn [fs stdin stdout].
  destruct (fs w !! AUDIO_DIR) as [dir|] eqn:Hdir.
  - rewrite bool_decide_eq_true_2 by eauto. cbn [negb].
    rewrite bind_ret. run_prints. rewrite bind_check_files.
    cbn [fs stdin stdout]. cbv beta iota. run_block. run_prints. run_block.
    unfold bind at 1, input at 1. run_prints.
    destruct (stdin w) as [|[response|] rest].
    + rewrite bind_print. finish.
    + cbv beta iota. unfold accepted.
      destruct (decide (lower response = "y")) as [Hyes|Hno].
      * rewrite bool_decide_eq_true_2 by done. cbn [negb].
        rewrite bind_ret. run_prints. unfold bind at 1.
        unfold confirmed_status, packed, header_text.
        destruct (fs w !! OUTPUT_FILE) as [[d|z]|] eqn:Hout.
        -- run_header. after_header w.
        -- erewrite write_header_dir by (cbn [fs]; exact Hout).
           rewrite bind_print. finish.
        -- run_header. after_header w.
      * rewrite bool_decide_eq_false_2 by done. cbn [negb].
        run_prints. rewrite bind_sys_exit. finish.
    + rewrite bind_print. finish.
  - rewrite bool_decide_eq_false_2 by (by intros [? ?]). cbn [negb].
    run_prints. rewrite bind_sys_exit.
    cbn [exit_status]. exists []. eexists.
    rewrite <- ?(assoc_L (++)). cbn [app]. reflexivity.
Qed.

(** ** The encoder: [convert_wav_to_array] *)

Lemma array_text_layout (name var_name : string) (audio_data : list byte) :
  array_text name var_name audio_data
  = array_layout name var_name (length audio_data) (array_body audio_data).
Proof. reflexivity. Qed.

Lemma c_array_bytes_array_body (audio_data : list byte) :
  c_array_bytes (array_body audio_data) = audio_data.
Proof.
  unfold c_array_bytes.
  rewrite <- (append_nil_r (array_body audio_data)), c_array_bytes_body.
  apply app_nil_r.
Qed.

(** C1. A file of at least 44 bytes is packed into an array whose comment
    and length constant both give the file's size less 44, and whose
    initializer denotes exactly the bytes of the file from offset 44 on. *)
Theorem convert_wav_to_array_payload (w : world) (filepath var_name : string)
    (data : list byte) :
  fs w !! filepath = Some (File data) →
  (44 ≤ length data)%nat →
  ∃ (n : nat) (body : string),
    convert_wav_to_array filepath var_name w
    = (Ok (array_layout (basename filepath) var_name n body), w)
    ∧ Z.of_nat n = (Z.of_nat (length data) - 44)%Z
    ∧ c_array_bytes body = drop 44 data
    ∧ length (c_array_bytes body) = n.
Proof.
  intros Hfile Hlen.
  exists (length (drop 44 data)), (array_body (drop 44 data)).
  rewrite convert_wav_to_array_eq, Hfile, array_text_layout.
  rewrite c_array_bytes_array_body, length_drop.
  repeat split. lia.
Qed.

Lemma convert_wav_to_array_payload_witness :
  fs scenario_world !! "100_temp" = Some (File (wav_header xe8 ++ ramp 1000))
  ∧ (44 ≤ length (wav_header xe8 ++ ramp 1000))%nat
  ∧ ∃ (n : nat) (body : string),
      convert_wav_to_array "100_temp" "100" scenario_world
      = (Ok (array_layout "100_temp" "100" n body), scenario_world)
      ∧ Z.of_nat n = 1000%Z
      ∧ c_array_bytes body = ramp 1000
      ∧ length (c_array_bytes body) = n.
Proof.
  assert (fs scenario_world !! "100_temp"
          = Some (File (wav_header xe8 ++ ramp 1000))) as Hfile
    by (vm_compute; reflexivity).
  assert (44 ≤ length (wav_header xe8 ++ ramp 1000))%nat as Hlen
    by (vm_compute; lia).
  split; [exact Hfile|]. split; [exact Hlen|].
  destruct (convert_wav_to_array_payload scenario_world "100_temp" "100"
              _ Hfile Hlen) as (n & body & Hrun & Hn & Hbytes & Hcount).
  exists n, body. repeat split; [exact Hrun| |exact Hbytes|exact Hcount].
  rewrite Hn. vm_compute. reflexivity.
Defined.

Lemma convert_wav_to_array_no_payload (w : world) (filepath var_name : string)
    (data : list byte) :
  fs w !! filepath = Some (File data) →
  (length data ≤ 44)%nat →
  convert_wav_to_array filepath var_name w
  = (Ok (array_layout (basename filepath) var_name 0 ""), w).
Proof.
  intros Hfile Hlen.
  rewrite convert_wav_to_array_eq, Hfile, array_text_layout.
  by rewrite drop_ge.
Qed.

(** C6. A file of exactly 44 bytes is converted without an error: the
    array is empty and the length is 0. *)
Theorem convert_wav_to_array_header_only (w : world)
    (filepath var_name : string) (data : list byte) :
  fs w !! filepath = Some (File data) →
  length data = 44 →
  convert_wav_to_array filepath var_name w
  = (Ok (array_layout (basename filepath) var_name 0 ""), w)
  ∧ c_array_bytes "" = [].
Proof.
  intros Hfile Hlen. split; [|done].
  apply convert_wav_to_array_no_payload with data; [done | lia].
Qed.

Lemma convert_wav_to_array_header_only_witness :
  fs short_world !! "audio_files/2.wav" = Some (File (wav_header x00))
  ∧ length (wav_header x00) = 44
  ∧ convert_wav_to_array "audio_files/2.wav" "audio_2" short_world
    = (Ok (array_layout "2.wav" "audio_2" 0 ""), short_world)
  ∧ c_array_bytes "" = [].
Proof.
  assert (fs short_world !! "audio_files/2.wav" = Some (File (wav_header x00)))
    as Hfile by (vm_compute; reflexivity).
  split; [exact Hfile|]. split; [reflexivity|].
  exact (convert_wav_to_array_header_only short_world "audio_files/2.wav"
           "audio_2" (wav_header x00) Hfile eq_refl).
Defined.

(** C4, as the specification states it, fails on the script: a file of
    ten bytes is converted without any error, into an empty array of
    length 0. *)
Lemma short_file_raises_nothing :
  fs short_world !! "audio_files/1.wav" = Some (File (take 10 (wav_header x00)))
  ∧ length (take 10 (wav_header x00)) = 10
  ∧ convert_wav_to_array "audio_files/1.wav" "audio_1" short_world
    = (Ok ("// 1.wav - 0 bytes" +:+ nl
           +:+ "const uint8_t audio_1[] PROGMEM = {" +:+ nl
           +:+ "};" +:+ nl
           +:+ "const uint32_t audio_1_len = 0;" +:+ nl +:+ nl),
       short_world).
Proof. repeat split; vm_compute; reflexivity. Qed.

(** C4, amended. The encoder does not check the size of its input: a file
    shorter than 44 bytes is converted like any other, without an error,
    and its array is empty with length 0. *)
Theorem convert_wav_to_array_short_file (w : world)
    (filepath var_name : string) (data : list byte) :
  fs w !! filepath = Some (File data) →
  (length data < 44)%nat →
  convert_wav_to_array filepath var_name w
  = (Ok (array_layout (basename filepath) var_name 0 ""), w).
Proof.
  intros Hfile Hlen.
  apply convert_wav_to_array_no_payload with data; [done | lia].
Qed.

Lemma convert_wav_to_array_short_file_witness :
  fs short_world !! "audio_files/1.wav" = Some (File (take 10 (wav_header x00)))
  ∧ (length (take 10 (wav_header x00)) < 44)%nat
  ∧ convert_wav_to_array "audio_files/1.wav" "audio_1" short_world
    = (Ok (array_layout "1.wav" "audio_1" 0 ""), short_world).
Proof.
  assert (fs short_world !! "audio_files/1.wav"
          = Some (File (take 10 (wav_header x00)))) as Hfile
    by (vm_compute; reflexivity).
  assert (length (take 10 (wav_header x00)) < 44)%nat as Hlen
    by (vm_compute; lia).
  split; [exact Hfile|]. split; [exact Hlen|].
  exact (convert_wav_to_array_short_file short_world "audio_files/1.wav"
           "audio_1" _ Hfile Hlen).
Defined.

(** ** The table and the arrays *)

Lemma concat_cons (x : string) (l : list string) :
  String.concat "" (x :: l) = x +:+ String.concat "" l.
Proof. destruct l; cbn; [by rewrite append_nil_r | done]. Qed.

Lemma lookup_entry_acc (lookup filename : string) :
  lookup_entry lookup filename
  = lookup +:+ entry_layout filename (get_var_name filename).
Proof. reflexivity. Qed.

Lemma foldl_lookup_entry (l : list string) (acc : string) :
  foldl lookup_entry acc l = acc +:+ String.concat "" (table_entries l).
Proof.
  revert acc. induction l as [|f l IH]; intros acc.
  - by rewrite append_nil_r.
  - cbn [foldl]. unfold table_entries. rewrite fmap_cons, concat_cons.
    rewrite IH, lookup_entry_acc. apply append_assoc.
Qed.

(** The table that [create_lookup_table] returns has one entry per file
    of its argument, in order, and declares their number. *)
Lemma create_lookup_table_layout (file_list : list string) :
  create_lookup_table file_list
  = table_layout (table_entries file_list) (length file_list).
Proof.
  unfold create_lookup_table, table_layout.
  rewrite foldl_lookup_entry. by rewrite !append_assoc.
Qed.

Lemma REQUIRED_FILES_canonical : REQUIRED_FILES = canonical_vocabulary.
Proof. vm_compute. reflexivity. Qed.

Lemma basename_required (filename : string) :
  filename ∈ REQUIRED_FILES → basename (audio_path filename) = filename.
Proof.
  revert filename. apply Forall_forall.
  rewrite REQUIRED_FILES_canonical. repeat constructor.
Qed.

Lemma existing_in_required (m : gmap string node) (filename : string) :
  filename ∈ existing_in m REQUIRED_FILES → filename ∈ REQUIRED_FILES.
Proof. unfold existing_in. rewrite list_elem_of_filter. tauto. Qed.

Lemma arrays_text_complete (m : gmap string node) (l : list string) :
  Forall (λ f, f ∈ REQUIRED_FILES) l →
  arrays_error m l = None →
  arrays_text m l = String.concat "" (arrays_of m l).
Proof.
  induction 1 as [|f l Hf Hl IH]; [done|].
  cbn [arrays_error arrays_text]. unfold arrays_of. rewrite fmap_cons, concat_cons.
  unfold payload at 1 2.
  destruct (m !! audio_path f) as [[data|z]|]; [|done..].
  intros Herr. rewrite IH by done.
  by rewrite array_text_layout, basename_required.
Qed.

Lemma header_text_complete (m : gmap string node) :
  arrays_error m (existing_in m REQUIRED_FILES) = None →
  header_text m = complete_header m.
Proof.
  intros Herr. unfold header_text, complete_header.
  rewrite Herr, arrays_text_complete, create_lookup_table_layout; [done| |done].
  apply Forall_forall. intros f. apply existing_in_required.
Qed.

Lemma existing_missing_length (m : gmap string node) (l : list string) :
  length (existing_in m l) + length (missing_in m l) = length l.
Proof.
  unfold existing_in, missing_in. induction l as [|f l IH]; [done|].
  rewrite !filter_cons. destruct (decide (is_Some (m !! audio_path f))).
  - rewrite decide_False by tauto. cbn [length]. lia.
  - rewrite decide_True by done. cbn [length]. lia.
Qed.

Lemma REQUIRED_FILES_length : length REQUIRED_FILES = 37.
Proof. reflexivity. Qed.

Lemma existing_in_sublist (m : gmap string node) (l : list string) :
  existing_in m l `sublist_of` l.
Proof. apply sublist_filter. Qed.

(** ** The outcome of a run *)

Lemma script_outcome (w : world) :
  (fst (script w), fs (snd (script w)), stdin (snd (script w)))
  = outcome (fs w) (stdin w).
Proof.
  destruct (script_eq w) as (log1 & log2 & ->).
  by destruct (outcome (fs w) (stdin w)) as [[status m] input].
Qed.

Lemma script_stdout (w : world) :
  ∃ log1 log2,
    stdout (snd (script w)) = stdout w ++ log1 ++ report (fs w) ++ log2.
Proof.
  destruct (script_eq w) as (log1 & log2 & ->). exists log1, log2.
  by destruct (outcome (fs w) (stdin w)) as [[status m] input].
Qed.

Lemma lower_char_y (c : ascii) :
  lower_char c = "y"%char → c = "y"%char ∨ c = "Y"%char.
Proof.
  destruct c as [[] [] [] [] [] [] [] []]; vm_compute; intros H;
    first [ by left | by right | discriminate H ].
Qed.

(** The responses that pass line 132 are [y] and [Y], and no other. *)
Lemma accepted_iff (response : string) :
  accepted response ↔ response = "y" ∨ response = "Y".
Proof.
  unfold accepted. split.
  - destruct response as [|c [|c' response]]; cbn [lower]; try done.
    intros [= Hc]. by destruct (lower_char_y c Hc) as [-> | ->]; [left|right].
  - by intros [-> | ->].
Qed.

Lemma script_confirmed (w : world) (response : string)
    (rest : list stdin_event) :
  is_Some (fs w !! AUDIO_DIR) →
  stdin w = Line response :: rest →
  accepted response →
  fst (script w) = confirmed_status (fs w)
  ∧ fs (snd (script w)) = packed (fs w)
  ∧ stdin (snd (script w)) = rest.
Proof.
  intros [dir Hdir] Hin Hyes. pose proof (script_outcome w) as Hrun.
  unfold outcome in Hrun. rewrite Hdir, Hin, decide_True in Hrun by done.
  by injection Hrun.
Qed.

Lemma script_declined (w : world) (response : string)
    (rest : list stdin_event) :
  is_Some (fs w !! AUDIO_DIR) →
  stdin w = Line response :: rest →
  ¬ accepted response →
  fst (script w) = 0%Z ∧ fs (snd (script w)) = fs w
  ∧ stdin (snd (script w)) = rest.
Proof.
  intros [dir Hdir] Hin Hno. pose proof (script_outcome w) as Hrun.
  unfold outcome in Hrun. rewrite Hdir, Hin, decide_False in Hrun by done.
  by injection Hrun.
Qed.

Lemma script_no_directory (w : world) :
  fs w !! AUDIO_DIR = None →
  fst (script w) = 1%Z ∧ fs (snd (script w)) = fs w.
Proof.
  intros Hdir. pose proof (script_outcome w) as Hrun.
  unfold outcome in Hrun. rewrite Hdir in Hrun. by injection Hrun.
Qed.

Lemma confirmed_status_0 (m : gmap string node) :
  confirmed_status m = 0%Z →
  packed m !! OUTPUT_FILE
  = Some (File (String.list_byte_of_string (complete_header m))).
Proof.
  unfold confirmed_status, packed.
  destruct (m !! OUTPUT_FILE) as [[d|z]|]; [|done|];
    (destruct (arrays_error m (existing_in m REQUIRED_FILES)) eqn:Herr;
       [done|]; intros _;
     by rewrite lookup_insert_eq, header_text_complete).
Qed.

(** A confirmed run that ends with status 0 leaves the complete header. *)
Lemma script_complete_header (w : world) (response : string)
    (rest : list stdin_event) :
  is_Some (fs w !! AUDIO_DIR) →
  stdin w = Line response :: rest →
  accepted response →
  fst (script w) = 0%Z →
  fs (snd (script w)) !! OUTPUT_FILE
  = Some (File (String.list_byte_of_string (complete_header (fs w)))).
Proof.
  intros Hdir Hin Hyes Hstatus.
  destruct (script_confirmed w response rest Hdir Hin Hyes) as (Hst & -> & _).
  apply confirmed_status_0. by rewrite <- Hst.
Qed.

(** ** The lookup table of a run *)

(** C2. The count constant of the table that a run writes is the number
    of entries written into it, which is the number of required files
    that exist; it is the number of required files only when none is
    missing. The same holds of every table that [create_lookup_table]
    returns. *)
Theorem lookup_table_count (w : world) (response : string)
    (rest : list stdin_event) :
  is_Some (fs w !! AUDIO_DIR) →
  stdin w = Line response :: rest →
  accepted response →
  fst (script w) = 0%Z →
  let existing_files := existing_in (fs w) REQUIRED_FILES in
  let entries := table_entries existing_files in
  fs (snd (script w)) !! OUTPUT_FILE
  = Some (File (String.list_byte_of_string
                  (preamble existing_files (data_total (fs w) REQUIRED_FILES)
                   +:+ String.concat "" (arrays_of (fs w) existing_files)
                   +:+ table_layout entries (length entries)
                   +:+ ("#endif // AUDIO_DATA_H" +:+ nl))))
  ∧ length entries = length existing_files
  ∧ length entries + length (missing_in (fs w) REQUIRED_FILES)
    = length REQUIRED_FILES
  ∧ ∀ file_list,
      create_lookup_table file_list
      = table_layout (table_entries file_list)
          (length (table_entries file_list)).
Proof.
  intros Hdir Hin Hyes Hstatus existing_files entries.
  assert (length entries = length existing_files) as Hlen
    by apply length_fmap.
  split; [|split; [done|split]].
  - rewrite Hlen. by rewrite (script_complete_header w response rest).
  - rewrite Hlen. apply existing_missing_length.
  - intros file_list. unfold table_entries at 2. rewrite length_fmap.
    apply create_lookup_table_layout.
Qed.

Lemma lookup_table_count_witness :
  let w := audio_world all_but_three "y" in
  is_Some (fs w !! AUDIO_DIR)
  ∧ stdin w = [Line "y"]
  ∧ accepted "y"
  ∧ fst (script w) = 0%Z
  ∧ length (table_entries (existing_in (fs w) REQUIRED_FILES)) = 34
  ∧ length (table_entries (existing_in (fs w) REQUIRED_FILES))
    + length (missing_in (fs w) REQUIRED_FILES)
    = length REQUIRED_FILES.
Proof.
  assert (is_Some (fs (audio_world all_but_three "y") !! AUDIO_DIR)) as Hdir
    by (vm_compute; eauto).
  assert (fst (script (audio_world all_but_three "y")) = 0%Z) as Hstatus
    by (vm_compute; reflexivity).
  pose proof (lookup_table_count (audio_world all_but_three "y") "y" []
                Hdir eq_refl eq_refl Hstatus) as (_ & _ & Hsum & _).
  split; [exact Hdir|]. split; [reflexivity|]. split; [reflexivity|].
  split; [exact Hstatus|]. split; [vm_compute; reflexivity | exact Hsum].
Defined.

(** C3. The entries of the table that a run writes are those of the
    existing files in the order of the vocabulary (1-9, 10-19, the tens,
    the hundreds, the connector word). The order is fixed by the list of
    the script and by which files exist: the script never lists the
    directory, and a run is the same in whatever order the entries of the
    file system are enumerated. *)
Theorem lookup_table_order (w : world) (response : string)
    (rest : list stdin_event) :
  is_Some (fs w !! AUDIO_DIR) →
  stdin w = Line response :: rest →
  accepted response →
  fst (script w) = 0%Z →
  let existing_files := existing_in (fs w) REQUIRED_FILES in
  (∃ before after,
     fs (snd (script w)) !! OUTPUT_FILE
     = Some (File (String.list_byte_of_string
                     (before
                      +:+ table_layout (table_entries existing_files)
                            (length existing_files)
                      +:+ after))))
  ∧ existing_files
    = filter (λ f, is_Some (fs w !! audio_path f)) canonical_vocabulary
  ∧ existing_files `sublist_of` canonical_vocabulary
  ∧ (∀ m' : gmap string node,
       (∀ f, f ∈ canonical_vocabulary →
             is_Some (m' !! audio_path f) ↔ is_Some (fs w !! audio_path f)) →
       existing_in m' REQUIRED_FILES = existing_files)
  ∧ (∀ listing listing' : list (string * node),
       NoDup listing.*1 →
       listing ≡ₚ listing' →
       fs w = list_to_map listing →
       script (World (list_to_map listing') (stdin w) (stdout w)) = script w).
Proof.
  intros Hdir Hin Hyes Hstatus existing_files.
  split; [|split; [|split; [|split]]]; cycle 4.
  { intros listing listing' Hnodup Hperm Hfs.
    rewrite <- (list_to_map_proper listing listing') by done.
    rewrite <- Hfs. by destruct w. }
  - eexists _, _.
    rewrite (script_complete_header w response rest) by done.
    unfold complete_header. fold existing_files.
    rewrite <- append_assoc. reflexivity.
  - unfold existing_files, existing_in. by rewrite REQUIRED_FILES_canonical.
  - rewrite <- REQUIRED_FILES_canonical. apply existing_in_sublist.
  - intros m' Hsame. unfold existing_files, existing_in.
    rewrite REQUIRED_FILES_canonical in *.
    induction canonical_vocabulary as [|f l IH]; [done|].
    rewrite !filter_cons.
    rewrite IH by (intros g Hg; apply Hsame; by right).
    pose proof (Hsame f ltac:(by left)) as Hf.
    destruct (decide (is_Some (m' !! audio_path f)));
      destruct (decide (is_Some (fs w !! audio_path f))); tauto.
Qed.

Lemma lookup_table_order_witness :
  let w := audio_world ["and.wav"; "100.wav"; "7.wav"; "20.wav"] "Y" in
  let listing :=
    (AUDIO_DIR, Dir 4096)
      :: ((λ f, (audio_path f, File (wav_header x03 ++ ramp 3)))
            <$> ["and.wav"; "100.wav"; "7.wav"; "20.wav"]) in
  is_Some (fs w !! AUDIO_DIR)
  ∧ stdin w = [Line "Y"]
  ∧ accepted "Y"
  ∧ fst (script w) = 0%Z
  ∧ existing_in (fs w) REQUIRED_FILES
    = ["7.wav"; "20.wav"; "100.wav"; "and.wav"]
  ∧ existing_in (fs w) REQUIRED_FILES `sublist_of` canonical_vocabulary
  ∧ existing_in (<["notes.txt" := Dir 0]> (audio_fs ["7.wav"; "20.wav";
                                                      "100.wav"; "and.wav"]))
      REQUIRED_FILES
    = existing_in (fs w) REQUIRED_FILES
  ∧ NoDup listing.*1
  ∧ listing ≡ₚ reverse listing
  ∧ fs w = list_to_map listing
  ∧ script (World (list_to_map (reverse listing)) (stdin w) (stdout w))
    = script w.
Proof.
  assert (is_Some (fs (audio_world ["and.wav"; "100.wav"; "7.wav"; "20.wav"] "Y")
                     !! AUDIO_DIR)) as Hdir
    by (vm_compute; eauto).
  assert (fst (script (audio_world ["and.wav"; "100.wav"; "7.wav"; "20.wav"] "Y"))
          = 0%Z) as Hstatus
    by (vm_compute; reflexivity).
  pose proof (lookup_table_order
                (audio_world ["and.wav"; "100.wav"; "7.wav"; "20.wav"] "Y")
                "Y" [] Hdir eq_refl eq_refl Hstatus)
    as (_ & _ & Hsub & Hsame & Hlisting).
  assert (NoDup ((AUDIO_DIR, Dir 4096)
                   :: ((λ f, (audio_path f, File (wav_header x03 ++ ramp 3)))
                         <$> ["and.wav"; "100.wav"; "7.wav"; "20.wav"])).*1)
    as Hnodup
    by (apply (bool_decide_unpack _); vm_compute; reflexivity).
  split; [exact Hdir|]. split; [reflexivity|]. split; [reflexivity|].
  split; [exact Hstatus|]. split; [vm_compute; reflexivity|].
  split; [exact Hsub|]. split.
  { apply Hsame. apply Forall_forall. unfold canonical_vocabulary.
    repeat (apply Forall_cons_2;
            [split; vm_compute; intros Hf; exact Hf|]).
    apply Forall_nil_2. }
  split; [exact Hnodup|]. split; [symmetry; apply reverse_Permutation|].
  split; [reflexivity|].
  exact (Hlisting _ _ Hnodup (symmetry (reverse_Permutation _)) eq_refl).
Defined.

(** ** Missing files *)

Lemma table_entries_NoDup : NoDup (table_entries REQUIRED_FILES).
Proof. apply (bool_decide_unpack _). vm_compute. reflexivity. Qed.

Lemma NoDup_fmap_eq {A B} (f : A → B) (l : list A) (x y : A) :
  NoDup (f <$> l) → x ∈ l → y ∈ l → f x = f y → x = y.
Proof.
  induction l as [|a l IH]; [by intros _ ?%elem_of_nil|].
  rewrite fmap_cons, NoDup_cons, !elem_of_cons.
  intros [Ha Hl] [->|Hx] [->|Hy] Heq; [done| | |by apply IH].
  - destruct Ha. rewrite Heq. by apply list_elem_of_fmap_2.
  - destruct Ha. rewrite <- Heq. by apply list_elem_of_fmap_2.
Qed.

(** C5 fails on the script as the specification states it: with three of
    the required files missing the table has 34 entries, since the script
    requires 37 files and not 35. *)
Lemma three_missing_leave_34_entries :
  let w := audio_world all_but_three "y" in
  length REQUIRED_FILES = 37
  ∧ missing_in (fs w) REQUIRED_FILES = ["1.wav"; "2.wav"; "3.wav"]
  ∧ fst (script w) = 0%Z
  ∧ fs (snd (script w)) !! OUTPUT_FILE
    = Some (File (String.list_byte_of_string
                    (preamble (existing_in (fs w) REQUIRED_FILES)
                       (data_total (fs w) REQUIRED_FILES)
                     +:+ String.concat ""
                           (arrays_of (fs w) (existing_in (fs w) REQUIRED_FILES))
                     +:+ table_layout
                           (table_entries (existing_in (fs w) REQUIRED_FILES)) 34
                     +:+ ("#endif // AUDIO_DATA_H" +:+ nl))))
  ∧ length (table_entries (existing_in (fs w) REQUIRED_FILES)) = 34.
Proof. repeat split; vm_compute; reflexivity. Qed.

(** C5, amended. A required file that is absent when the script runs is
    reported by a line of its own that names it, is not among the files
    packed, and has no entry in the table; with three of the 37 required
    files missing the table has 34 entries. *)
Theorem missing_file_excluded_and_reported (w : world) (filename : string) :
  is_Some (fs w !! AUDIO_DIR) →
  filename ∈ REQUIRED_FILES →
  fs w !! audio_path filename = None →
  let existing_files := existing_in (fs w) REQUIRED_FILES in
  missing_line filename ∈ stdout (snd (script w))
  ∧ (filename ∉ existing_files)
  ∧ (entry_layout filename (get_var_name filename)
     ∉ table_entries existing_files)
  ∧ (length (missing_in (fs w) REQUIRED_FILES) = 3 →
     length (table_entries existing_files) = 34)
  ∧ (∀ response rest,
       stdin w = Line response :: rest →
       accepted response →
       fst (script w) = 0%Z →
       ∃ before after,
         fs (snd (script w)) !! OUTPUT_FILE
         = Some (File (String.list_byte_of_string
                         (before
                          +:+ table_layout (table_entries existing_files)
                                (length existing_files)
                          +:+ after)))).
Proof.
  intros Hdir Hreq Hnone existing_files.
  assert (filename ∉ existing_files) as Hnot.
  { unfold existing_files, existing_in. rewrite list_elem_of_filter, Hnone.
    by intros [[? ?] _]. }
  split; [|split; [done|split; [|split]]].
  - destruct (script_stdout w) as (log1 & log2 & ->).
    unfold report. destruct Hdir as [dir ->].
    rewrite !elem_of_app. right. right. left.
    apply list_elem_of_fmap. exists filename. split; [|done].
    unfold check_line. by rewrite Hnone.
  - intros (g & Heq & Hg)%list_elem_of_fmap. apply Hnot.
    replace filename with g; [done|]. symmetry.
    apply (NoDup_fmap_eq (λ f, entry_layout f (get_var_name f)) REQUIRED_FILES);
      [apply table_entries_NoDup | done
      | by apply (existing_in_required (fs w)) | done].
  - intros Hthree. unfold table_entries. rewrite length_fmap.
    pose proof (existing_missing_length (fs w) REQUIRED_FILES) as Hsum.
    fold existing_files in Hsum. rewrite Hthree, REQUIRED_FILES_length in Hsum.
    lia.
  - intros response rest Hin Hyes Hstatus. eexists _, _.
    rewrite (script_complete_header w response rest) by done.
    unfold complete_header. fold existing_files.
    rewrite <- append_assoc. reflexivity.
Qed.

Lemma missing_file_excluded_and_reported_witness :
  let w := audio_world all_but_three "y" in
  is_Some (fs w !! AUDIO_DIR)
  ∧ "2.wav" ∈ REQUIRED_FILES
  ∧ fs w !! audio_path "2.wav" = None
  ∧ "  ✗ 2.wav        - MISSING!" +:+ nl ∈ stdout (snd (script w))
  ∧ ("2.wav" ∉ existing_in (fs w) REQUIRED_FILES)
  ∧ length (missing_in (fs w) REQUIRED_FILES) = 3
  ∧ length (table_entries (existing_in (fs w) REQUIRED_FILES)) = 34
  ∧ stdin w = [Line "y"]
  ∧ accepted "y"
  ∧ fst (script w) = 0%Z
  ∧ ∃ before after,
      fs (snd (script w)) !! OUTPUT_FILE
      = Some (File (String.list_byte_of_string
                      (before
                       +:+ table_layout
                             (table_entries (existing_in (fs w) REQUIRED_FILES))
                             (length (existing_in (fs w) REQUIRED_FILES))
                       +:+ after))).
Proof.
  assert (is_Some (fs (audio_world all_but_three "y") !! AUDIO_DIR)) as Hdir
    by (vm_compute; eauto).
  assert ("2.wav" ∈ REQUIRED_FILES) as Hreq
    by (rewrite REQUIRED_FILES_canonical; right; left).
  assert (fs (audio_world all_but_three "y") !! audio_path "2.wav" = None)
    as Hnone by (vm_compute; reflexivity).
  assert (length (missing_in (fs (audio_world all_but_three "y")) REQUIRED_FILES)
          = 3) as Hthree by (vm_compute; reflexivity).
  assert (fst (script (audio_world all_but_three "y")) = 0%Z) as Hstatus
    by (vm_compute; reflexivity).
  pose proof (missing_file_excluded_and_reported
                (audio_world all_but_three "y") "2.wav" Hdir Hreq Hnone)
    as (Hline & Hnot & _ & Hcount & Htable).
  split; [exact Hdir|]. split; [exact Hreq|]. split; [exact Hnone|].
  split; [exact Hline|]. split; [exact Hnot|]. split; [exact Hthree|].
  split; [exact (Hcount Hthree)|].
  split; [reflexivity|]. split; [reflexivity|]. split; [exact Hstatus|].
  exact (Htable "y" [] eq_refl eq_refl Hstatus).
Defined.

(** ** The invariant of the packed index *)

Lemma var_names_NoDup : NoDup (get_var_name <$> REQUIRED_FILES).
Proof. apply (bool_decide_unpack _). vm_compute. reflexivity. Qed.

Lemma c_array_bytes_payload (m : gmap string node) (filename : string) :
  c_array_bytes (array_body (payload m filename)) = payload m filename.
Proof. apply c_array_bytes_array_body. Qed.

(** C7. In the header that a run writes, every array comes with a length
    constant equal to the number of bytes that its initializer denotes,
    and the identifiers of the arrays are pairwise distinct; the
    identifier of a numbered file is [audio_] and its number, that of the
    connector word is [audio_and]. *)
Theorem packed_index_invariant (w : world) (response : string)
    (rest : list stdin_event) :
  is_Some (fs w !! AUDIO_DIR) →
  stdin w = Line response :: rest →
  accepted response →
  fst (script w) = 0%Z →
  let existing_files := existing_in (fs w) REQUIRED_FILES in
  (∃ (n : string → nat) (body : string → string),
     fs (snd (script w)) !! OUTPUT_FILE
     = Some (File (String.list_byte_of_string
                     (preamble existing_files (data_total (fs w) REQUIRED_FILES)
                      +:+ String.concat ""
                            ((λ f, array_layout f (get_var_name f) (n f) (body f))
                               <$> existing_files)
                      +:+ table_layout (table_entries existing_files)
                            (length existing_files)
                      +:+ ("#endif // AUDIO_DATA_H" +:+ nl))))
     ∧ (∀ f, length (c_array_bytes (body f)) = n f)
     ∧ (∀ f, c_array_bytes (body f) = payload (fs w) f))
  ∧ NoDup (get_var_name <$> existing_files)
  ∧ NoDup (get_var_name <$> REQUIRED_FILES)
  ∧ get_var_name <$> REQUIRED_FILES
    = [ "audio_1"; "audio_2"; "audio_3"; "audio_4"; "audio_5"; "audio_6";
        "audio_7"; "audio_8"; "audio_9";
        "audio_10"; "audio_11"; "audio_12"; "audio_13"; "audio_14";
        "audio_15"; "audio_16"; "audio_17"; "audio_18"; "audio_19";
        "audio_20"; "audio_30"; "audio_40"; "audio_50"; "audio_60";
        "audio_70"; "audio_80"; "audio_90";
        "audio_100"; "audio_200"; "audio_300"; "audio_400"; "audio_500";
        "audio_600"; "audio_700"; "audio_800"; "audio_900";
        "audio_and" ].
Proof.
  intros Hdir Hin Hyes Hstatus existing_files.
  split; [|split; [|split]].
  - exists (λ f, length (payload (fs w) f)),
           (λ f, array_body (payload (fs w) f)).
    split; [|split].
    + by rewrite (script_complete_header w response rest).
    + intros f. by rewrite c_array_bytes_payload.
    + intros f. apply c_array_bytes_payload.
  - eapply sublist_NoDup; [apply var_names_NoDup|].
    apply fmap_sublist, existing_in_sublist.
  - apply var_names_NoDup.
  - vm_compute. reflexivity.
Qed.

Lemma packed_index_invariant_witness :
  let w := audio_world ["9.wav"; "and.wav"; "300.wav"] "y" in
  is_Some (fs w !! AUDIO_DIR)
  ∧ stdin w = [Line "y"]
  ∧ accepted "y"
  ∧ fst (script w) = 0%Z
  ∧ NoDup (get_var_name <$> existing_in (fs w) REQUIRED_FILES)
  ∧ get_var_name <$> existing_in (fs w) REQUIRED_FILES
    = ["audio_9"; "audio_300"; "audio_and"].
Proof.
  assert (is_Some (fs (audio_world ["9.wav"; "and.wav"; "300.wav"] "y")
                     !! AUDIO_DIR)) as Hdir
    by (vm_compute; eauto).
  assert (fst (script (audio_world ["9.wav"; "and.wav"; "300.wav"] "y")) = 0%Z)
    as Hstatus by (vm_compute; reflexivity).
  pose proof (packed_index_invariant
                (audio_world ["9.wav"; "and.wav"; "300.wav"] "y") "y" []
                Hdir eq_refl eq_refl Hstatus) as (_ & Hdistinct & _).
  split; [exact Hdir|]. split; [reflexivity|]. split; [reflexivity|].
  split; [exact Hstatus|]. split; [exact Hdistinct | vm_compute; reflexivity].
Defined.

(** ** Running the script again *)

Lemma packed_lookup_ne (m : gmap string node) (p : string) :
  p ≠ OUTPUT_FILE → packed m !! p = m !! p.
Proof.
  intros Hp. unfold packed.
  destruct (m !! OUTPUT_FILE) as [[d|z]|]; [|done|];
    by rewrite lookup_insert_ne.
Qed.

Lemma packed_idempotent (m : gmap string node) : packed (packed m) = packed m.
Proof.
  unfold packed at 2 3.
  destruct (m !! OUTPUT_FILE) as [[d|z]|] eqn:Hout.
  - unfold packed. rewrite lookup_insert_eq, header_text_insert_output.
    apply insert_insert_eq.
  - unfold packed. by rewrite Hout.
  - unfold packed. rewrite lookup_insert_eq, header_text_insert_output.
    apply insert_insert_eq.
Qed.

Section same_inputs.
Variables (m m' : gmap string node).
Hypothesis Hsame :
  ∀ f, f ∈ REQUIRED_FILES → m' !! audio_path f = m !! audio_path f.

Lemma existing_in_same (l : list string) :
  Forall (λ f, f ∈ REQUIRED_FILES) l → existing_in m' l = existing_in m l.
Proof.
  unfold existing_in. induction 1 as [|f l Hf Hl IH]; [done|].
  by rewrite !filter_cons, IH, Hsame.
Qed.

Lemma data_total_same (l : list string) :
  Forall (λ f, f ∈ REQUIRED_FILES) l → data_total m' l = data_total m l.
Proof.
  induction 1 as [|f l Hf Hl IH]; [done|].
  cbn [data_total]. by rewrite IH, Hsame.
Qed.

Lemma arrays_text_same (l : list string) :
  Forall (λ f, f ∈ REQUIRED_FILES) l → arrays_text m' l = arrays_text m l.
Proof.
  induction 1 as [|f l Hf Hl IH]; [done|].
  cbn [arrays_text]. by rewrite IH, Hsame.
Qed.

Lemma arrays_error_same (l : list string) :
  Forall (λ f, f ∈ REQUIRED_FILES) l → arrays_error m' l = arrays_error m l.
Proof.
  induction 1 as [|f l Hf Hl IH]; [done|].
  cbn [arrays_error]. by rewrite IH, Hsame.
Qed.

(** The header depends on the required files only. *)
Lemma header_text_same : header_text m' = header_text m.
Proof.
  assert (Forall (λ f, f ∈ REQUIRED_FILES) REQUIRED_FILES) as Hall
    by by apply Forall_forall.
  assert (Forall (λ f, f ∈ REQUIRED_FILES) (existing_in m REQUIRED_FILES))
    as Hexisting
    by (apply Forall_forall; intros f; apply existing_in_required).
  unfold header_text.
  by rewrite (existing_in_same _ Hall), (data_total_same _ Hall),
    (arrays_text_same _ Hexisting), (arrays_error_same _ Hexisting).
Qed.
End same_inputs.

(** C8. A second confirmed run on what the first one left changes
    nothing: the header it writes is, byte for byte, the header that is
    there. And the header depends only on which required files exist and
    on their contents: two confirmed runs that find the same required
    files write the same header. *)
Theorem packing_twice_same_output (w : world) (response : string)
    (rest : list stdin_event) :
  stdin w = Line response :: rest →
  accepted response →
  (∀ response2 rest2 out2,
     accepted response2 →
     fs (snd (script (World (fs (snd (script w)))
                            (Line response2 :: rest2) out2)))
     = fs (snd (script w)))
  ∧ (∀ w' response' rest',
       stdin w' = Line response' :: rest' →
       accepted response' →
       is_Some (fs w !! AUDIO_DIR) →
       is_Some (fs w' !! AUDIO_DIR) →
       (∀ z, fs w !! OUTPUT_FILE ≠ Some (Dir z)) →
       (∀ z, fs w' !! OUTPUT_FILE ≠ Some (Dir z)) →
       (∀ f, f ∈ REQUIRED_FILES →
             fs w' !! audio_path f = fs w !! audio_path f) →
       fs (snd (script w')) !! OUTPUT_FILE
       = fs (snd (script w)) !! OUTPUT_FILE).
Proof.
  intros Hin Hyes. split.
  - intros response2 rest2 out2 Hyes2.
    destruct (fs w !! AUDIO_DIR) as [dir|] eqn:Hdir.
    + destruct (script_confirmed w response rest) as (_ & Hfs & _);
        [eauto | done | done |].
      rewrite Hfs.
      destruct (script_confirmed
                  (World (packed (fs w)) (Line response2 :: rest2) out2)
                  response2 rest2) as (_ & -> & _); [|done|done|].
      * cbn [fs]. rewrite packed_lookup_ne by done. eauto.
      * cbn [fs]. apply packed_idempotent.
    + destruct (script_no_directory w Hdir) as [_ Hfs]. rewrite Hfs.
      by destruct (script_no_directory
                     (World (fs w) (Line response2 :: rest2) out2) Hdir).
  - intros w' response' rest' Hin' Hyes' Hdir Hdir' Hout Hout' Hsame.
    destruct (script_confirmed w response rest) as (_ & -> & _); [done..|].
    destruct (script_confirmed w' response' rest') as (_ & -> & _); [done..|].
    unfold packed.
    destruct (fs w !! OUTPUT_FILE) as [[d|z]|] eqn:E; [|by destruct (Hout z)|];
      (destruct (fs w' !! OUTPUT_FILE) as [[d'|z']|] eqn:E';
         [|by destruct (Hout' z')|]);
      by rewrite !lookup_insert_eq, (header_text_same (fs w) (fs w')).
Qed.

Lemma packing_twice_same_output_witness :
  let w := audio_world ["1.wav"; "and.wav"] "y" in
  let again := World (fs (snd (script w))) [Line "Y"; Line "n"] ["noise"] in
  let w' :=
    World (<["notes.txt" := File [x68; x69]]> (audio_fs ["and.wav"; "1.wav"]))
          [Line "Y"] ["noise"] in
  stdin w = [Line "y"]
  ∧ accepted "y"
  ∧ accepted "Y"
  ∧ fs (snd (script again)) = fs (snd (script w))
  ∧ is_Some (fs (snd (script w)) !! OUTPUT_FILE)
  ∧ fs (snd (script w')) !! OUTPUT_FILE = fs (snd (script w)) !! OUTPUT_FILE.
Proof.
  pose proof (packing_twice_same_output
                (audio_world ["1.wav"; "and.wav"] "y") "y" []
                eq_refl eq_refl) as [Hagain Hsame].
  split; [reflexivity|]. split; [reflexivity|]. split; [reflexivity|].
  split; [exact (Hagain "Y" [Line "n"] ["noise"] eq_refl)|].
  split; [vm_compute; eauto|].
  apply (Hsame (World (<["notes.txt" := File [x68; x69]]>
                         (audio_fs ["and.wav"; "1.wav"]))
                      [Line "Y"] ["noise"]) "Y" []);
    [reflexivity | reflexivity | vm_compute; eauto | vm_compute; eauto
    | intros z; vm_compute; discriminate
    | intros z; vm_compute; discriminate |].
  apply Forall_forall. rewrite REQUIRED_FILES_canonical.
  repeat constructor; vm_compute; reflexivity.
Defined.

(** ** The confirmation *)

(** C9. When the user declines at the prompt the script ends with status
    0 and the file system is as it was: nothing is written before the
    confirmation. When the audio directory is missing the script ends
    with status 1. *)
Theorem decline_exits_0_and_writes_nothing (w : world) :
  (∀ response rest,
     is_Some (fs w !! AUDIO_DIR) →
     stdin w = Line response :: rest →
     ¬ accepted response →
     fst (script w) = 0%Z ∧ fs (snd (script w)) = fs w)
  ∧ (fs w !! AUDIO_DIR = None →
     fst (script w) = 1%Z ∧ fs (snd (script w)) = fs w).
Proof.
  split.
  - intros response rest Hdir Hin Hno.
    by destruct (script_declined w response rest Hdir Hin Hno) as (? & ? & _).
  - apply script_no_directory.
Qed.

Lemma decline_exits_0_and_writes_nothing_witness :
  let w := audio_world ["1.wav"; "and.wav"] "n" in
  let w' := World ∅ [Line "y"] [] in
  (is_Some (fs w !! AUDIO_DIR)
   ∧ stdin w = [Line "n"]
   ∧ ¬ accepted "n"
   ∧ fst (script w) = 0%Z ∧ fs (snd (script w)) = fs w
   ∧ fs (snd (script w)) !! OUTPUT_FILE = None)
  ∧ (fs w' !! AUDIO_DIR = None
     ∧ fst (script w') = 1%Z ∧ fs (snd (script w')) = fs w').
Proof.
  assert (is_Some (fs (audio_world ["1.wav"; "and.wav"] "n") !! AUDIO_DIR))
    as Hdir by (vm_compute; eauto).
  assert (¬ accepted "n") as Hno by (vm_compute; discriminate).
  pose proof (proj1 (decline_exits_0_and_writes_nothing
                       (audio_world ["1.wav"; "and.wav"] "n"))
                "n" [] Hdir eq_refl Hno) as [Hstatus Hfs].
  pose proof (proj2 (decline_exits_0_and_writes_nothing (World ∅ [Line "y"] []))
                eq_refl) as [Hstatus' Hfs'].
  split.
  - split; [exact Hdir|]. split; [reflexivity|]. split; [exact Hno|].
    split; [exact Hstatus|]. split; [exact Hfs|].
    rewrite Hfs. vm_compute. reflexivity.
  - split; [reflexivity|]. split; [exact Hstatus' | exact Hfs'].
Defined.

(** C10. The response [y], in either case, is the only one that lets the
    script write: it then opens the header and writes it. Every other
    response, [yes] among them, ends the script with status 0 and leaves
    the file system as it was. *)
Theorem only_y_confirms (w : world) (response : string)
    (rest : list stdin_event) :
  is_Some (fs w !! AUDIO_DIR) →
  stdin w = Line response :: rest →
  (response = "y" ∨ response = "Y" →
   fst (script w) = confirmed_status (fs w)
   ∧ fs (snd (script w)) = packed (fs w)
   ∧ ((∀ z, fs w !! OUTPUT_FILE ≠ Some (Dir z)) →
      fs (snd (script w)) !! OUTPUT_FILE
      = Some (File (String.list_byte_of_string (header_text (fs w))))))
  ∧ (response ≠ "y" → response ≠ "Y" →
     fst (script w) = 0%Z ∧ fs (snd (script w)) = fs w).
Proof.
  intros Hdir Hin. split.
  - intros Hyes%accepted_iff.
    destruct (script_confirmed w response rest Hdir Hin Hyes) as (-> & -> & _).
    split; [done|]. split; [done|]. intros Hout. unfold packed.
    destruct (fs w !! OUTPUT_FILE) as [[d|z]|]; [|by destruct (Hout z)|];
      apply lookup_insert_eq.
  - intros Hy HY.
    assert (¬ accepted response) as Hno
      by (rewrite accepted_iff; tauto).
    by destruct (script_declined w response rest Hdir Hin Hno) as (? & ? & _).
Qed.

Lemma only_y_confirms_witness :
  let w := audio_world ["1.wav"; "and.wav"] "yes" in
  let w' := audio_world ["1.wav"; "and.wav"] "Y" in
  (is_Some (fs w !! AUDIO_DIR)
   ∧ stdin w = [Line "yes"]
   ∧ "yes" ≠ "y" ∧ "yes" ≠ "Y"
   ∧ fst (script w) = 0%Z ∧ fs (snd (script w)) = fs w)
  ∧ (is_Some (fs w' !! AUDIO_DIR)
     ∧ stdin w' = [Line "Y"]
     ∧ (∀ z, fs w' !! OUTPUT_FILE ≠ Some (Dir z))
     ∧ fst (script w') = confirmed_status (fs w')
     ∧ fs (snd (script w')) !! OUTPUT_FILE
       = Some (File (String.list_byte_of_string (header_text (fs w'))))).
Proof.
  assert (is_Some (audio_fs ["1.wav"; "and.wav"] !! AUDIO_DIR))
    as Hdir by (vm_compute; eauto).
  assert ("yes" ≠ "y") as Hy by discriminate.
  assert ("yes" ≠ "Y") as HY by discriminate.
  assert (∀ z, audio_fs ["1.wav"; "and.wav"] !! OUTPUT_FILE ≠ Some (Dir z))
    as Hout by (intros z; vm_compute; discriminate).
  pose proof (proj1 (only_y_confirms (audio_world ["1.wav"; "and.wav"] "Y")
                       "Y" [] Hdir eq_refl) (or_intror eq_refl))
    as (Hstatus & _ & Hfile).
  split.
  - split; [exact Hdir|]. split; [reflexivity|].
    split; [exact Hy|]. split; [exact HY|].
    exact (proj2 (only_y_confirms (audio_world ["1.wav"; "and.wav"] "yes")
                    "yes" [] Hdir eq_refl) Hy HY).
  - split; [exact Hdir|]. split; [reflexivity|]. split; [exact Hout|].
    split; [exact Hstatus | exact (Hfile Hout)].
Defined.

(** ** Further properties of a run *)

(** X1. When the prompt meets the end of the input, or an interrupt, the
    script ends with status 1 and the file system is as it was. *)
Theorem no_answer_exits_1 (w : world) :
  is_Some (fs w !! AUDIO_DIR) →
  stdin w = [] ∨ (∃ rest, stdin w = CtrlC :: rest) →
  fst (script w) = 1%Z ∧ fs (snd (script w)) = fs w.
Proof.
  intros [dir Hdir] Hin. pose proof (script_outcome w) as Hrun.
  unfold outcome in Hrun. rewrite Hdir in Hrun.
  destruct Hin as [Hin | [rest Hin]]; rewrite Hin in Hrun;
    by injection Hrun.
Qed.

Lemma no_answer_exits_1_witness :
  let w := World (audio_fs ["1.wav"]) [] [] in
  let w' := World (audio_fs ["1.wav"]) [CtrlC; Line "y"] [] in
  is_Some (fs w !! AUDIO_DIR)
  ∧ stdin w = []
  ∧ fst (script w) = 1%Z ∧ fs (snd (script w)) = fs w
  ∧ fst (script w') = 1%Z ∧ fs (snd (script w')) = fs w'.
Proof.
  assert (is_Some (audio_fs ["1.wav"] !! AUDIO_DIR)) as Hdir
    by (vm_compute; eauto).
  pose proof (no_answer_exits_1 (World (audio_fs ["1.wav"]) [] [])
                Hdir (or_introl eq_refl)) as [Hstatus Hfs].
  pose proof (no_answer_exits_1 (World (audio_fs ["1.wav"]) [CtrlC; Line "y"] [])
                Hdir (or_intror (ex_intro _ [Line "y"] eq_refl)))
    as [Hstatus' Hfs'].
  split; [exact Hdir|]. split; [reflexivity|].
  split; [exact Hstatus|]. split; [exact Hfs|].
  split; [exact Hstatus' | exact Hfs'].
Defined.

Lemma arrays_error_directory (m : gmap string node) (l : list string)
    (filename : string) (z : Z) :
  filename ∈ l →
  m !! audio_path filename = Some (Dir z) →
  arrays_error m l ≠ None.
Proof.
  induction l as [|f l IH]; [by intros ?%elem_of_nil|].
  intros [->|Hin]%elem_of_cons Hdir; cbn [arrays_error].
  - by rewrite Hdir.
  - destruct (m !! audio_path f) as [[d|z']|]; [by apply IH|done..].
Qed.

(** X2. When a required path is a directory, a confirmed run ends with
    status 1 in the middle of the header: the file holds the preamble
    and the arrays written before the failure, and no table. *)
Theorem unreadable_file_cuts_header (w : world) (response : string)
    (rest : list stdin_event) (filename : string) (z : Z) :
  is_Some (fs w !! AUDIO_DIR) →
  stdin w = Line response :: rest →
  accepted response →
  (∀ z', fs w !! OUTPUT_FILE ≠ Some (Dir z')) →
  filename ∈ REQUIRED_FILES →
  fs w !! audio_path filename = Some (Dir z) →
  let existing_files := existing_in (fs w) REQUIRED_FILES in
  fst (script w) = 1%Z
  ∧ fs (snd (script w)) !! OUTPUT_FILE
    = Some (File (String.list_byte_of_string
                    (preamble existing_files (data_total (fs w) REQUIRED_FILES)
                     +:+ arrays_text (fs w) existing_files))).
Proof.
  intros Hdir Hin Hyes Hout Hreq Hfile existing_files.
  destruct (script_confirmed w response rest Hdir Hin Hyes) as (-> & -> & _).
  assert (arrays_error (fs w) existing_files ≠ None) as Herr.
  { apply arrays_error_directory with filename z; [|done].
    unfold existing_files, existing_in. rewrite list_elem_of_filter, Hfile.
    eauto. }
  unfold confirmed_status, packed, header_text. fold existing_files.
  destruct (arrays_error (fs w) existing_files) as [e|]; [|done].
  rewrite append_nil_r.
  destruct (fs w !! OUTPUT_FILE) as [[d|z']|]; [|by destruct (Hout z')|];
    by rewrite lookup_insert_eq.
Qed.

Lemma unreadable_file_cuts_header_witness :
  let w :=
    World (<["audio_files/2.wav" := Dir 4096]> (audio_fs ["1.wav"; "and.wav"]))
          [Line "y"] [] in
  is_Some (fs w !! AUDIO_DIR)
  ∧ stdin w = [Line "y"]
  ∧ accepted "y"
  ∧ (∀ z', fs w !! OUTPUT_FILE ≠ Some (Dir z'))
  ∧ "2.wav" ∈ REQUIRED_FILES
  ∧ fs w !! audio_path "2.wav" = Some (Dir 4096)
  ∧ fst (script w) = 1%Z.
Proof.
  assert (is_Some
            ((<["audio_files/2.wav" := Dir 4096]> (audio_fs ["1.wav"; "and.wav"])
              : gmap string node) !! AUDIO_DIR)) as Hdir
    by (vm_compute; eauto).
  assert (∀ z',
            (<["audio_files/2.wav" := Dir 4096]> (audio_fs ["1.wav"; "and.wav"])
             : gmap string node) !! OUTPUT_FILE ≠ Some (Dir z')) as Hout
    by (intros z'; vm_compute; discriminate).
  assert ("2.wav" ∈ REQUIRED_FILES) as Hreq
    by (rewrite REQUIRED_FILES_canonical; right; left).
  assert ((<["audio_files/2.wav" := Dir 4096]> (audio_fs ["1.wav"; "and.wav"])
           : gmap string node) !! audio_path "2.wav" = Some (Dir 4096)) as Hfile
    by (vm_compute; reflexivity).
  split; [exact Hdir|]. split; [reflexivity|]. split; [reflexivity|].
  split; [exact Hout|]. split; [exact Hreq|]. split; [exact Hfile|].
  exact (proj1 (unreadable_file_cuts_header
                  (World (<["audio_files/2.wav" := Dir 4096]>
                            (audio_fs ["1.wav"; "and.wav"]))
                         [Line "y"] [])
                  "y" [] "2.wav" 4096 Hdir eq_refl eq_refl Hout Hreq Hfile)).
Defined.

(** X3. When [audio_data.h] is a directory, a confirmed run ends with
    status 1 and the file system is as it was. *)
Theorem output_directory_exits_1 (w : world) (response : string)
    (rest : list stdin_event) (z : Z) :
  is_Some (fs w !! AUDIO_DIR) →
  stdin w = Line response :: rest →
  accepted response →
  fs w !! OUTPUT_FILE = Some (Dir z) →
  fst (script w) = 1%Z ∧ fs (snd (script w)) = fs w.
Proof.
  intros Hdir Hin Hyes Hout.
  destruct (script_confirmed w response rest Hdir Hin Hyes) as (-> & -> & _).
  unfold confirmed_status, packed. by rewrite Hout.
Qed.

Lemma output_directory_exits_1_witness :
  let w := World (<[OUTPUT_FILE := Dir 4096]> (audio_fs ["1.wav"])) [Line "y"] [] in
  is_Some (fs w !! AUDIO_DIR)
  ∧ stdin w = [Line "y"]
  ∧ accepted "y"
  ∧ fs w !! OUTPUT_FILE = Some (Dir 4096)
  ∧ fst (script w) = 1%Z.
Proof.
  assert (is_Some ((<[OUTPUT_FILE := Dir 4096]> (audio_fs ["1.wav"])
                    : gmap string node) !! AUDIO_DIR)) as Hdir
    by (vm_compute; eauto).
  assert ((<[OUTPUT_FILE := Dir 4096]> (audio_fs ["1.wav"])
           : gmap string node) !! OUTPUT_FILE = Some (Dir 4096)) as Hout
    by (vm_compute; reflexivity).
  split; [exact Hdir|]. split; [reflexivity|]. split; [reflexivity|].
  split; [exact Hout|].
  exact (proj1 (output_directory_exits_1
                  (World (<[OUTPUT_FILE := Dir 4096]> (audio_fs ["1.wav"]))
                         [Line "y"] [])
                  "y" [] 4096 Hdir eq_refl eq_refl Hout)).
Defined.

Lemma existing_in_nil (m : gmap string node) (l : list string) :
  (∀ f, f ∈ l → m !! audio_path f = None) →
  existing_in m l = [] ∧ data_total m l = 0%Z.
Proof.
  unfold existing_in. induction l as [|f l IH]; [done|]. intros Hnone.
  rewrite filter_cons. cbn [data_total].
  rewrite (Hnone f) by by left.
  rewrite decide_False by (by intros [? ?]).
  apply IH. intros g Hg. apply Hnone. by right.
Qed.

(** X4. When no required file exists, a confirmed run still ends with
    status 0: the header it writes declares no array, an empty table and
    a count of 0. *)
Theorem no_files_empty_table (w : world) (response : string)
    (rest : list stdin_event) :
  is_Some (fs w !! AUDIO_DIR) →
  stdin w = Line response :: rest →
  accepted response →
  (∀ z, fs w !! OUTPUT_FILE ≠ Some (Dir z)) →
  (∀ f, f ∈ REQUIRED_FILES → fs w !! audio_path f = None) →
  fst (script w) = 0%Z
  ∧ fs (snd (script w)) !! OUTPUT_FILE
    = Some (File (String.list_byte_of_string
                    (preamble [] 0 +:+ table_layout [] 0
                     +:+ ("#endif // AUDIO_DATA_H" +:+ nl)))).
Proof.
  intros Hdir Hin Hyes Hout Hnone.
  destruct (script_confirmed w response rest Hdir Hin Hyes) as (-> & -> & _).
  destruct (existing_in_nil (fs w) REQUIRED_FILES Hnone) as [Hex Htot].
  unfold confirmed_status, packed, header_text. rewrite Hex, Htot.
  cbn [arrays_error arrays_text]. rewrite create_lookup_table_layout.
  destruct (fs w !! OUTPUT_FILE) as [[d|z]|]; [|by destruct (Hout z)|];
    by rewrite lookup_insert_eq.
Qed.

Lemma no_files_empty_table_witness :
  let w := audio_world [] "Y" in
  is_Some (fs w !! AUDIO_DIR)
  ∧ stdin w = [Line "Y"]
  ∧ accepted "Y"
  ∧ (∀ z, fs w !! OUTPUT_FILE ≠ Some (Dir z))
  ∧ (∀ f, f ∈ REQUIRED_FILES → fs w !! audio_path f = None)
  ∧ fst (script w) = 0%Z.
Proof.
  assert (is_Some (fs (audio_world [] "Y") !! AUDIO_DIR)) as Hdir
    by (vm_compute; eauto).
  assert (∀ z, fs (audio_world [] "Y") !! OUTPUT_FILE ≠ Some (Dir z)) as Hout
    by (intros z; vm_compute; discriminate).
  assert (∀ f, f ∈ REQUIRED_FILES → fs (audio_world [] "Y") !! audio_path f = None)
    as Hnone.
  { apply Forall_forall. rewrite REQUIRED_FILES_canonical.
    repeat (apply Forall_cons_2; [vm_compute; reflexivity|]). apply Forall_nil_2. }
  split; [exact Hdir|]. split; [reflexivity|]. split; [reflexivity|].
  split; [exact Hout|]. split; [exact Hnone|].
  exact (proj1 (no_files_empty_table (audio_world [] "Y") "Y" []
                  Hdir eq_refl eq_refl Hout Hnone)).
Defined.

(** X5. A run changes no path other than [audio_data.h]; it reads the
    first event of its input when the audio directory exists, and none
    otherwise; and it only adds to the output. *)
Theorem script_footprint (w : world) :
  (∀ p, p ≠ OUTPUT_FILE → fs (snd (script w)) !! p = fs w !! p)
  ∧ stdin (snd (script w))
    = (if decide (is_Some (fs w !! AUDIO_DIR)) then tail (stdin w)
       else stdin w)
  ∧ (∃ log, stdout (snd (script w)) = stdout w ++ log).
Proof.
  destruct (script_stdout w) as (log1 & log2 & Hout).
  pose proof (script_outcome w) as Hrun. unfold outcome in Hrun.
  split; [|split].
  - intros p Hp.
    destruct (fs w !! AUDIO_DIR); [|by injection Hrun as _ ->].
    destruct (stdin w) as [|[response|] rest];
      [by injection Hrun as _ ->| |by injection Hrun as _ ->].
    destruct (decide (accepted response)); injection Hrun as _ -> _; [|done].
    by apply packed_lookup_ne.
  - destruct (fs w !! AUDIO_DIR) as [dir|].
    + rewrite decide_True by eauto.
      destruct (stdin w) as [|[response|] rest]; [by injection Hrun| |].
      * by destruct (decide (accepted response)); injection Hrun.
      * by injection Hrun.
    + rewrite decide_False by (by intros [? ?]). by injection Hrun.
  - eexists. exact Hout.
Qed.

Lemma script_footprint_witness :
  let w := audio_world ["1.wav"] "y" in
  "audio_files/1.wav" ≠ OUTPUT_FILE
  ∧ fs (snd (script w)) !! "audio_files/1.wav" = fs w !! "audio_files/1.wav"
  ∧ stdin (snd (script w)) = [].
Proof.
  assert ("audio_files/1.wav" ≠ OUTPUT_FILE) as Hp by (vm_compute; discriminate).
  destruct (script_footprint (audio_world ["1.wav"] "y")) as (Hfs & Hin & _).
  split; [exact Hp|]. split; [exact (Hfs _ Hp)|].
  rewrite Hin. vm_compute. reflexivity.
Defined.

Lemma arrays_error_None (m : gmap string node) (l : list string) :
  arrays_error m (existing_in m l) = None
  ↔ ∀ f z, f ∈ l → m !! audio_path f ≠ Some (Dir z).
Proof.
  unfold existing_in. induction l as [|f l IH].
  - split; [|done]. by intros _ f z ?%elem_of_nil.
  - rewrite filter_cons.
    destruct (m !! audio_path f) as [[d|z]|] eqn:Hf.
    + rewrite decide_True by eauto. cbn [arrays_error]. rewrite Hf, IH.
      split.
      * intros H g z [->|Hg]%elem_of_cons; [by rewrite Hf | by apply H].
      * intros H g z Hg. apply H. by right.
    + rewrite decide_True by eauto. cbn [arrays_error]. rewrite Hf.
      split; [done|]. intros H. destruct (H f z); [by left | done].
    + rewrite decide_False by (by intros [? ?]). rewrite IH.
      split.
      * intros H g z [->|Hg]%elem_of_cons; [by rewrite Hf | by apply H].
      * intros H g z Hg. apply H. by right.
Qed.



Lemma data_total_payload (m : gmap string node) (l : list string) :
  (∀ f data, f ∈ l → m !! audio_path f = Some (File data) → (44 ≤ length data)%nat) →
  (∀ f z, f ∈ l → m !! audio_path f ≠ Some (Dir z)) →
  data_total m l = Z.of_nat (payload_total m (existing_in m l)).
Proof.
  unfold payload_total, existing_in. induction l as [|f l IH]; [done|].
  intros Hlong Hfile. rewrite filter_cons. cbn [data_total].
  assert (data_total m l
          = Z.of_nat (sum_list ((λ filename, length (payload m filename))
                                  <$> filter (λ f, is_Some (m !! audio_path f)) l)))
    as Hrest.
  { apply IH; intros g ? Hg; [apply Hlong | apply Hfile]; by right. }
  destruct (m !! audio_path f) as [[d|z]|] eqn:Hf.
  - rewrite decide_True by eauto. rewrite fmap_cons.
    cbn [sum_list sum_list_with node_size].
    unfold payload at 1. rewrite Hf, Hrest, length_drop.
    pose proof (Hlong f d ltac:(by left) Hf). unfold id. lia.
  - by destruct (Hfile f z ltac:(by left)).
  - by rewrite decide_False by (by intros [? ?]).
Qed.

(** X7. When every required file that exists has its 44 header bytes,
    the total in the comment at the top of the header is the sum of the
    lengths of the arrays that the header declares. *)
Theorem header_total_is_sum_of_lengths (w : world) (response : string)
    (rest : list stdin_event) :
  is_Some (fs w !! AUDIO_DIR) →
  stdin w = Line response :: rest →
  accepted response →
  fst (script w) = 0%Z →
  (∀ f data, f ∈ REQUIRED_FILES →
             fs w !! audio_path f = Some (File data) → (44 ≤ length data)%nat) →
  let existing_files := existing_in (fs w) REQUIRED_FILES in
  fs (snd (script w)) !! OUTPUT_FILE
  = Some (File (String.list_byte_of_string
                  (preamble existing_files
                     (Z.of_nat (payload_total (fs w) existing_files))
                   +:+ String.concat "" (arrays_of (fs w) existing_files)
                   +:+ table_layout (table_entries existing_files)
                         (length existing_files)
                   +:+ ("#endif // AUDIO_DATA_H" +:+ nl)))).
Proof.
  intros Hdir Hin Hyes Hstatus Hlong existing_files.
  rewrite (script_complete_header w response rest) by done.
  unfold complete_header. fold existing_files.
  rewrite (data_total_payload (fs w) REQUIRED_FILES); [done|done|].
  apply arrays_error_None.
  destruct (script_confirmed w response rest Hdir Hin Hyes) as (Hst & _ & _).
  rewrite Hstatus in Hst. unfold confirmed_status in Hst.
  destruct (fs w !! OUTPUT_FILE) as [[d|z]|]; [|done|];
    by destruct (arrays_error (fs w) (existing_in (fs w) REQUIRED_FILES)).
Qed.

Lemma header_total_is_sum_of_lengths_witness :
  let w := audio_world ["1.wav"; "and.wav"] "y" in
  is_Some (fs w !! AUDIO_DIR)
  ∧ stdin w = [Line "y"]
  ∧ accepted "y"
  ∧ fst (script w) = 0%Z
  ∧ (∀ f data, f ∈ REQUIRED_FILES →
               fs w !! audio_path f = Some (File data) → (44 ≤ length data)%nat)
  ∧ payload_total (fs w) (existing_in (fs w) REQUIRED_FILES) = 6
  ∧ is_Some (fs (snd (script w)) !! OUTPUT_FILE).
Proof.
  assert (is_Some (fs (audio_world ["1.wav"; "and.wav"] "y") !! AUDIO_DIR))
    as Hdir by (vm_compute; eauto).
  assert (fst (script (audio_world ["1.wav"; "and.wav"] "y")) = 0%Z)
    as Hstatus by (vm_compute; reflexivity).
  assert (∀ f data, f ∈ REQUIRED_FILES →
            fs (audio_world ["1.wav"; "and.wav"] "y") !! audio_path f
            = Some (File data) → (44 ≤ length data)%nat) as Hlong.
  { intros f data Hf. revert f Hf data.
    refine (proj1 (Forall_forall
                     (λ f, ∀ data, fs _ !! audio_path f = Some (File data)
                                   → (44 ≤ length data)%nat) _) _).
    rewrite REQUIRED_FILES_canonical.
    repeat (apply Forall_cons_2;
            [intros data Hd; vm_compute in Hd;
             first [discriminate Hd | injection Hd as <-; cbn [length]; lia]|]).
    apply Forall_nil_2. }
  pose proof (header_total_is_sum_of_lengths
                (audio_world ["1.wav"; "and.wav"] "y") "y" []
                Hdir eq_refl eq_refl Hstatus Hlong) as Hheader.
  split; [exact Hdir|]. split; [reflexivity|]. split; [reflexivity|].
  split; [exact Hstatus|]. split; [exact Hlong|].
  split; [vm_compute; reflexivity|].
  cbv zeta in Hheader. rewrite Hheader. eexists. reflexivity.
Defined.

(** ** The console of a run *)

Lemma over_budget_spec (total_size : Z) :
  over_budget total_size = true ↔ (921600 < total_size)%Z.
Proof. unfold over_budget, FLASH_SIZE. rewrite Z.ltb_lt. lia. Qed.

Lemma missing_in_nil (m : gmap string node) :
  missing_in m REQUIRED_FILES = []
  ↔ length (existing_in m REQUIRED_FILES) = 37.
Proof.
  pose proof (existing_missing_length m REQUIRED_FILES) as Hlen.
  rewrite REQUIRED_FILES_length in Hlen.
  rewrite <- length_zero_iff_nil. lia.
Qed.

Lemma summary_eq (m : gmap string node) :
  summary m
  = (if negb (bool_decide (missing_in m REQUIRED_FILES = [])) then
       [ (nl +:+ "⚠️  WARNING: " +:+ str_nat (length (missing_in m REQUIRED_FILES))
             +:+ " files missing!") +:+ nl;
          "Proceeding with available files only..." +:+ nl ]
     else [])
    ++ [ (nl +:+ "📊 Summary:") +:+ nl;
         ("  Files found: " +:+ str_nat (length (existing_in m REQUIRED_FILES))
            +:+ "/" +:+ str_nat (length REQUIRED_FILES)) +:+ nl;
         ("  Total audio data: " +:+ format_comma (data_total m REQUIRED_FILES)
            +:+ " bytes (" +:+ format_kb_1f (data_total m REQUIRED_FILES)
            +:+ " KB)") +:+ nl ]
    ++ (if over_budget (data_total m REQUIRED_FILES) then
          [ (nl +:+ "⚠️  WARNING: Audio data is large ("
               +:+ format_kb_0f (data_total m REQUIRED_FILES) +:+ "KB)") +:+ nl;
            "  This may not fit with your program code!" +:+ nl;
            "  Consider:" +:+ nl;
            "    - Using shorter audio clips" +:+ nl;
            "    - Lower sample rate (4kHz instead of 8kHz)" +:+ nl;
            "    - Using SD card instead" +:+ nl ]
        else []).
Proof.
  pose proof (existing_missing_length m REQUIRED_FILES) as Hlen.
  rewrite REQUIRED_FILES_length in Hlen.
  assert (negb (bool_decide (missing_in m REQUIRED_FILES = []))
          = if decide (length (existing_in m REQUIRED_FILES) = 37)
            then false else true) as ->.
  { destruct (decide (length (existing_in m REQUIRED_FILES) = 37)).
    - by rewrite bool_decide_eq_true_2 by by apply missing_in_nil.
    - by rewrite bool_decide_eq_false_2 by by rewrite missing_in_nil. }
  assert (over_budget (data_total m REQUIRED_FILES)
          = if decide (921600 < data_total m REQUIRED_FILES)%Z
            then true else false) as ->.
  { destruct (decide (921600 < data_total m REQUIRED_FILES)%Z) as [Hb|Hb].
    - by apply over_budget_spec.
    - apply not_true_is_false. by rewrite over_budget_spec. }
  unfold summary.
  replace (37 - length (existing_in m REQUIRED_FILES))
    with (length (missing_in m REQUIRED_FILES)) by lia.
  destruct (decide (length (existing_in m REQUIRED_FILES) = 37));
    destruct (decide (921600 < data_total m REQUIRED_FILES)%Z); reflexivity.
Qed.

Lemma convert_log_insert_output (m : gmap string node) (n : node)
    (total k : nat) (l : list string) :
  convert_log (<[OUTPUT_FILE := n]> m) total k l = convert_log m total k l.
Proof.
  revert k. induction l as [|f l IH]; intros k; [done|]. cbn [convert_log].
  by rewrite lookup_audio_insert_output, IH.
Qed.

Lemma convert_file_loop_log (existing_files l : list string) (k : nat)
    (data : list byte) (w : world) :
  fs w !! OUTPUT_FILE = Some (File data) →
  for_each (zip (seq k (length l)) l) (convert_file existing_files) () w
  = (match arrays_error (fs w) l with None => Ok () | Some e => Raise e end,
     World (<[OUTPUT_FILE :=
                File (data ++ String.list_byte_of_string (arrays_text (fs w) l))]>
              (fs w))
           (stdin w)
           (stdout w ++ convert_log (fs w) (length existing_files) k l)).
Proof.
  revert k data w. induction l as [|f l IH]; intros k data w Hout.
  - simpl. unfold ret. rewrite !app_nil_r.
    rewrite insert_id by done. by destruct w.
  - cbn [length seq zip zip_with for_each arrays_error arrays_text convert_log].
    unfold bind at 1. unfold convert_file at 1.
    unfold bind at 1. unfold print_no_end at 1, write_stdout at 1.
    unfold bind at 1. rewrite convert_wav_to_array_eq. cbn [fs stdin stdout].
    fold (audio_path f).
    destruct (fs w !! audio_path f) as [[d|z]|] eqn:Hf.
    + unfold bind at 1.
      erewrite file_write_eq by (cbn [fs]; exact Hout).
      cbn [fs stdin stdout]. unfold print, write_stdout.
      cbn [fs stdin stdout].
      rewrite (IH (S k) _ _ (lookup_insert_eq _ _ _)). cbn [fs stdin stdout].
      rewrite arrays_error_insert_output, arrays_text_insert_output,
        convert_log_insert_output.
      rewrite insert_insert_eq, list_byte_of_string_app, <- !(assoc_L (++)).
      reflexivity.
    + change (String.list_byte_of_string "") with (@nil byte).
      rewrite app_nil_r, insert_id by done. reflexivity.
    + change (String.list_byte_of_string "") with (@nil byte).
      rewrite app_nil_r, insert_id by done. reflexivity.
Qed.

Lemma write_header_file_log (existing_files : list string) (total_size : Z)
    (w : world) :
  (∀ z, fs w !! OUTPUT_FILE ≠ Some (Dir z)) →
  write_header existing_files total_size w
  = (match arrays_error (fs w) existing_files with
     | None => Ok ()
     | Some e => Raise e
     end,
     World (<[OUTPUT_FILE :=
                File (String.list_byte_of_string
                        (preamble existing_files total_size
                         +:+ arrays_text (fs w) existing_files
                         +:+ match arrays_error (fs w) existing_files with
                             | None =>
                                 create_lookup_table existing_files
                                   +:+ ("#endif // AUDIO_DATA_H" +:+ nl)
                             | Some _ => ""
                             end))]> (fs w))
           (stdin w)
           (stdout w
              ++ convert_log (fs w) (length existing_files) 1 existing_files
              ++ match arrays_error (fs w) existing_files with
                 | None => [ "  Creating lookup table..."; " ✓" +:+ nl ]
                 | Some _ => []
                 end)).
Proof.
  intros Hout. unfold write_header.
  unfold bind at 1.
  assert (open_w OUTPUT_FILE w
          = (Ok (), World (<[OUTPUT_FILE := File []]> (fs w)) (stdin w) (stdout w)))
    as ->.
  { unfold open_w. destruct (fs w !! OUTPUT_FILE) as [[d|z]|] eqn:E; try done.
    by destruct (Hout z). }
  do 7 run_write.
  unfold bind at 1. unfold enumerate.
  rewrite (convert_file_loop_log existing_files existing_files 1 _ _
             (lookup_insert_eq _ _ _)).
  cbn [fs stdin stdout].
  rewrite arrays_error_insert_output, arrays_text_insert_output,
    convert_log_insert_output, insert_insert_eq.
  destruct (arrays_error (fs w) existing_files) as [e|]; cbv beta iota.
  - do 3 f_equal; [|by rewrite app_nil_r]. unfold preamble.
    rewrite append_nil_r, !list_byte_of_string_app, !app_nil_l.
    rewrite <- !(assoc_L (++)).
    reflexivity.
  - run_prints. run_write. run_prints.
    erewrite file_write_eq by (cbn [fs]; apply lookup_insert_eq).
    cbn [fs stdin stdout]. rewrite insert_insert_eq.
    f_equal. f_equal.
    + do 2 f_equal. unfold preamble.
      rewrite !list_byte_of_string_app, !app_nil_l, <- !(assoc_L (++)).
      reflexivity.
    + rewrite <- !(assoc_L (++)). reflexivity.
Qed.

Ltac finish_transcript :=
  unfold sys_exit, handler_line, success_block;
  cbn [exit_status fs stdin stdout farewell str_exn];
  unfold banner; rewrite <- ?(assoc_L (++)); cbn [app]; reflexivity.

Ltac after_header_transcript w :=
  destruct (arrays_error (fs w) (existing_in (fs w) REQUIRED_FILES))
    as [[]|]; cbv beta iota;
  [ rewrite bind_print; finish_transcript ..
  | unfold bind at 1, getsize at 1; cbn [fs]; rewrite lookup_insert_eq;
    cbv beta iota; run_prints; unfold print, write_stdout;
    finish_transcript ].

Ltac run_header_log :=
  match goal with
  | |- context [write_header ?e ?t ?w1] =>
      rewrite (write_header_file_log e t w1)
        by (cbn [fs]; intros ?; congruence);
      cbn [fs stdin stdout]
  end.

(** The script, statement by statement, against its closed form: the
    outcome and everything printed. *)
Lemma script_transcript (w : world) :
  script w
  = (let '(status, m, input) := outcome (fs w) (stdin w) in
     (status, World m input (stdout w ++ transcript (fs w) (stdin w)))).
Proof.
  unfold transcript, conversion. rewrite summary_eq.
  unfold script, guarded_main, main, outcome, prompt.
  run_prints. rewrite bind_path_exists. cbn [fs stdin stdout].
  destruct (fs w !! AUDIO_DIR) as [dir|] eqn:Hdir.
  2:{ rewrite bool_decide_eq_false_2 by (by intros [? ?]). cbn [negb].
      run_prints. rewrite bind_sys_exit. finish_transcript. }
  rewrite bool_decide_eq_true_2 by eauto. cbn [negb].
  rewrite bind_ret. run_prints. rewrite bind_check_files.
  cbn [fs stdin stdout]. cbv beta iota.
  destruct (negb (bool_decide (missing_in (fs w) REQUIRED_FILES = []))).
  all: run_prints; rewrite ?bind_ret; run_prints.
  all: destruct (over_budget (data_total (fs w) REQUIRED_FILES)).
  all: run_prints; rewrite ?bind_ret.
  all: unfold bind at 1, input at 1; run_prints.
  all: destruct (stdin w) as [|[response|] rest].
  all: try (rewrite bind_print; finish_transcript).
  all: cbv beta iota; unfold accepted.
  all: destruct (decide (lower response = "y")) as [Hyes|Hno].
  all: try (rewrite bool_decide_eq_false_2 by done; cbn [negb];
            run_prints; rewrite bind_sys_exit; finish_transcript).
  all: rewrite bool_decide_eq_true_2 by done; cbn [negb].
  all: rewrite bind_ret; run_prints; unfold bind at 1.
  all: unfold confirmed_status, packed, header_text.
  all: destruct (fs w !! OUTPUT_FILE) as [[d|z]|] eqn:Hout.
  all: try (erewrite write_header_dir by (cbn [fs]; exact Hout);
            rewrite bind_print; finish_transcript).
  all: run_header_log; after_header_transcript w.
Qed.

Lemma script_console (w : world) :
  stdout (snd (script w)) = stdout w ++ transcript (fs w) (stdin w).
Proof.
  rewrite script_transcript.
  by destruct (outcome (fs w) (stdin w)) as [[status m] input].
Qed.


(** X9. A run that ends with status 0 after an acceptance closes its
    output with the success block, and the header size printed there is
    the number of bytes of the header that it has written. *)
Theorem header_size_reported (w : world) (response : string)
    (rest : list stdin_event) :
  is_Some (fs w !! AUDIO_DIR) →
  stdin w = Line response :: rest →
  accepted response →
  fst (script w) = 0%Z →
  ∃ header log,
    fs (snd (script w)) !! OUTPUT_FILE = Some (File header)
    ∧ header = String.list_byte_of_string (complete_header (fs w))
    ∧ stdout (snd (script w))
      = stdout w ++ log ++ success_block (Z.of_nat (length header)).
Proof.
  intros Hdir Hin Hyes Hstatus. eexists _, _.
  split; [by apply (script_complete_header w response rest)|].
  split; [done|].
  rewrite script_console. f_equal.
  destruct (script_confirmed w response rest Hdir Hin Hyes) as (Hst & _ & _).
  rewrite Hstatus in Hst. symmetry in Hst.
  pose proof (header_text_complete (fs w)) as Hcomplete.
  destruct Hdir as [dir Hdir].
  unfold transcript, conversion. rewrite Hdir, Hin, decide_True by done.
  unfold confirmed_status in Hst.
  destruct (fs w !! OUTPUT_FILE) as [[d|z]|]; [|done|];
    (destruct (arrays_error (fs w) (existing_in (fs w) REQUIRED_FILES));
       [done|]);
    rewrite Hcomplete by done;
    rewrite !app_comm_cons, !(assoc_L (++)); reflexivity.
Qed.

Lemma header_size_reported_witness :
  let w := audio_world ["1.wav"; "and.wav"] "y" in
  is_Some (fs w !! AUDIO_DIR)
  ∧ stdin w = [Line "y"]
  ∧ accepted "y"
  ∧ fst (script w) = 0%Z
  ∧ ∃ header log,
      fs (snd (script w)) !! OUTPUT_FILE = Some (File header)
      ∧ stdout (snd (script w))
        = stdout w ++ log ++ success_block (Z.of_nat (length header)).
Proof.
  assert (is_Some (fs (audio_world ["1.wav"; "and.wav"] "y") !! AUDIO_DIR))
    as Hdir by (vm_compute; eauto).
  assert (fst (script (audio_world ["1.wav"; "and.wav"] "y")) = 0%Z)
    as Hstatus by (vm_compute; reflexivity).
  destruct (header_size_reported (audio_world ["1.wav"; "and.wav"] "y") "y" []
              Hdir eq_refl eq_refl Hstatus)
    as (header & log & Hfile & _ & Hout).
  split; [exact Hdir|]. split; [reflexivity|]. split; [reflexivity|].
  split; [exact Hstatus|]. exists header, log. split; [exact Hfile | exact Hout].
Defined.




(** ** The identifiers of numbered files *)

Lemma pretty_N_char_digit (x : N) :
  (48 ≤ nat_of_ascii (pretty_N_char x) ≤ 57)%nat.
Proof.
  destruct x as [|p]; [vm_compute; lia|].
  do 4 (try destruct p as [p|p|]); vm_compute; lia.
Qed.

Lemma pretty_N_go_digits (x : N) (s : string) :
  digits_only s → digits_only (pretty_N_go x s).
Proof.
  revert s. induction (N.lt_wf_0 x) as [x _ IH]; intros s Hs.
  destruct (decide (x = 0%N)) as [->|Hx]; [by rewrite pretty_N_go_0|].
  rewrite pretty_N_go_step by lia.
  apply IH; [apply N.div_lt; lia|].
  split; [apply pretty_N_char_digit | done].
Qed.

Lemma str_nat_digits (n : nat) : digits_only (str_nat n).
Proof.
  unfold str_nat, pretty, pretty_nat, pretty, pretty_N.
  case_decide; [vm_compute; lia|]. by apply pretty_N_go_digits.
Qed.

Lemma replace_wav_digits (s : string) :
  digits_only s → replace ".wav" "" (s +:+ ".wav") = s.
Proof.
  unfold replace. induction s as [|c s IH]; [done|].
  intros [Hc Hs]. rewrite append_cons. cbn [replace_go].
  assert (String.prefix ".wav" (String c (s +:+ ".wav")) = false) as ->.
  { cbn [String.prefix]. destruct (ascii_dec "." c) as [<-|]; [|done].
    vm_compute in Hc. lia. }
  by rewrite IH.
Qed.

(** The identifier is [audio_] followed by the file name without any
    [.wav]; the branch for [and] gives nothing else. *)
Lemma get_var_name_rule (filename : string) :
  get_var_name filename = "audio_" +:+ replace ".wav" "" filename.
Proof. unfold get_var_name. case_decide as H; [by rewrite H | done]. Qed.

(** X11. The identifier of the file of a number [n], for every natural
    number and not only those of the vocabulary, is [audio_] followed by
    the decimal digits of [n]. *)
Theorem get_var_name_numbered (n : nat) :
  get_var_name (str_nat n +:+ ".wav") = "audio_" +:+ str_nat n.
Proof.
  by rewrite get_var_name_rule, replace_wav_digits by apply str_nat_digits.
Qed.

(** X12. The files of two different numbers get different identifiers,
    and neither gets the identifier of [and.wav]. *)
Theorem get_var_name_numbered_distinct (n m : nat) :
  n ≠ m →
  get_var_name (str_nat n +:+ ".wav") ≠ get_var_name (str_nat m +:+ ".wav")
  ∧ get_var_name (str_nat n +:+ ".wav") ≠ get_var_name "and.wav".
Proof.
  intros Hnm. rewrite !get_var_name_numbered. split.
  - intros Heq. apply Hnm.
    by apply (inj pretty), (inj (String.app "audio_")).
  - intros Heq. apply (inj (String.app "audio_") _ "and") in Heq.
    pose proof (str_nat_digits n) as Hdigits. rewrite Heq in Hdigits.
    vm_compute in Hdigits. lia.
Qed.

Lemma get_var_name_numbered_distinct_witness :
  7 ≠ 70
  ∧ get_var_name (str_nat 7 +:+ ".wav") ≠ get_var_name (str_nat 70 +:+ ".wav").
Proof.
  split; [lia|].
  exact (proj1 (get_var_name_numbered_distinct 7 70 ltac:(lia))).
Defined.

(** ** The size of an array *)

Lemma length_append (a b : string) :
  String.length (a +:+ b) = String.length a + String.length b.
Proof. induction a as [|c a IH]; [done|]. rewrite append_cons. simpl. by rewrite IH. Qed.

Lemma format_02X_length (b : byte) : String.length (format_02X b) = 2.
Proof. reflexivity. Qed.

Lemma hex_values_length (chunk : list byte) :
  String.length (join ", " ((λ b, "0x" +:+ format_02X b) <$> chunk))
  = 6 * length chunk - 2.
Proof.
  induction chunk as [|b [|b' chunk] IH]; [done..|].
  change (join ", " ((λ b, "0x" +:+ format_02X b) <$> b :: b' :: chunk))
    with (("0x" +:+ format_02X b) +:+ ", "
          +:+ join ", " ((λ b, "0x" +:+ format_02X b) <$> b' :: chunk)).
  rewrite !length_append, IH. cbn [length]. simpl String.length. lia.
Qed.

Lemma array_row_length (audio_data : list byte) (i : nat) :
  i < length audio_data →
  String.length (array_row audio_data "" i)
  = 6 * Nat.min 16 (length audio_data - i) + 1
    + (if (i + 16 <? length audio_data)%nat then 1 else 0).
Proof.
  intros Hi. unfold array_row.
  destruct (i + 16 <? length audio_data)%nat;
    rewrite !length_append, hex_values_length, length_take, length_drop;
    simpl String.length; lia.
Qed.

Lemma array_rows_length (audio_data : list byte) (m j : nat) :
  (j + m) * 16 < length audio_data ≤ (j + S m) * 16 →
  String.length
    (foldl (array_row audio_data) "" ((λ k, 0 + k * 16) <$> seq j (S m)))
  = 6 * (length audio_data - j * 16) + 2 * S m - 1.
Proof.
  revert j. induction m as [|m IH]; intros j Hj.
  - cbn [seq fmap list_fmap foldl]. rewrite array_row_length by lia.
    destruct (Nat.ltb_spec (0 + j * 16 + 16) (length audio_data)); lia.
  - remember (S m) as m' eqn:Hm'.
    cbn [seq fmap list_fmap foldl].
    rewrite foldl_array_row, length_append, array_row_length by lia.
    subst m'. rewrite IH by lia.
    destruct (Nat.ltb_spec (0 + j * 16 + 16) (length audio_data)); lia.
Qed.

(** X13. The rows of an array of [n] sample bytes take, for [n > 0],
    [6 n + 2 r - 1] characters, where [r] is the number of rows, one per
    sixteen bytes; no row is written for an empty payload. *)
Theorem array_body_length (audio_data : list byte) :
  String.length (array_body audio_data)
  = if decide (audio_data = []) then 0
    else 6 * length audio_data + 2 * ((length audio_data + 15) / 16) - 1.
Proof.
  destruct audio_data as [|b audio_data]; [done|].
  rewrite decide_False by done.
  unfold array_body, range.
  set (n := length (b :: audio_data)).
  assert (0 < n) as Hn by (unfold n; cbn [length]; lia).
  replace (n - 0 + (16 - 1)) with (n + 15) by lia.
  pose proof (Nat.div_mod_eq (n + 15) 16) as Hdiv.
  pose proof (Nat.mod_upper_bound (n + 15) 16) as Hmod.
  destruct ((n + 15) / 16) as [|m] eqn:Hrows; [lia|].
  rewrite array_rows_length by (fold n; lia). fold n. lia.
Qed.

(** ** The generator's checks *)

Lemma str_int_of_nat (n : nat) : GenerateAudio.str_int (Z.of_nat n) = str_nat n.
Proof. by destruct n. Qed.

Lemma verify_file_loop (l : list string) (mi : list string) (t : Z) (w : world) :
  for_each l GenerateAudio.verify_file (mi, t) w
  = (Ok (mi ++ missing_in (fs w) l, (t + size_total (fs w) l)%Z),
     World (fs w) (stdin w) (stdout w ++ (verify_line (fs w) <$> l))).
Proof.
  revert mi t w. induction l as [|f l IH]; intros mi t w.
  - simpl. unfold ret. rewrite !app_nil_r, Z.add_0_r. by destruct w.
  - cbn [for_each]. unfold bind at 1. unfold GenerateAudio.verify_file at 1.
    unfold bind at 1. unfold path_exists at 1.
    change (path_join GenerateAudio.OUTPUT_DIR f) with (audio_path f).
    unfold missing_in. rewrite !filter_cons.
    cbn [size_total fmap list_fmap]. unfold verify_line at 1.
    destruct (fs w !! audio_path f) as [n|] eqn:Hf.
    + rewrite bool_decide_eq_true_2 by eauto.
      rewrite decide_False by (intros H; apply H; eauto).
      unfold bind, getsize, print, write_stdout, ret. rewrite Hf.
      destruct n as [data|z]; rewrite IH; cbn [fs stdin stdout node_size];
        rewrite <- !(assoc_L (++)), Z.add_assoc; reflexivity.
    + rewrite bool_decide_eq_false_2 by (intros [? ?]; done).
      rewrite decide_True by (intros [? ?]; done).
      unfold bind, print, write_stdout, ret. rewrite IH.
      cbn [fs stdin stdout]. unfold missing_line.
      rewrite <- !(assoc_L (++)), !append_assoc. reflexivity.
Qed.

Lemma size_total_data_total (m : gmap string node) (l : list string) :
  size_total m l
  = (data_total m l + 44 * Z.of_nat (length (existing_in m l)))%Z.
Proof.
  unfold existing_in. induction l as [|f l IH]; [done|].
  cbn [size_total data_total]. rewrite filter_cons.
  destruct (m !! audio_path f) as [n|].
  - rewrite decide_True by eauto. cbn [length]. lia.
  - by rewrite decide_False by (by intros [? ?]).
Qed.

Lemma existing_in_all (m : gmap string node) (l : list string) :
  length (existing_in m l) = length l
  ↔ ∀ f, f ∈ l → is_Some (m !! audio_path f).
Proof.
  unfold existing_in. induction l as [|f l IH].
  - split; [|done]. by intros _ f ?%elem_of_nil.
  - rewrite filter_cons.
    pose proof (length_filter (λ f, is_Some (m !! audio_path f)) l) as Hle.
    destruct (decide (is_Some (m !! audio_path f))) as [Hf|Hf]; cbn [length].
    + split.
      * intros Hlen g [->|Hg]%elem_of_cons; [done|]. apply IH; [lia|done].
      * intros Hall. f_equal. apply IH. intros g Hg. apply Hall. by right.
    + split; [lia|]. intros Hall. destruct Hf. apply Hall. by left.
Qed.

(** X14. [verify_files] never fails and changes no file. It returns
    [True] exactly when every required file exists, and it prints one
    line per required file, the number of files found out of 37, and the
    total of the file sizes, which is the total that the packer reports
    plus 44 bytes per file found. *)
Theorem verify_files_report (w : world) :
  ∃ verdict,
    GenerateAudio.verify_files w
    = (Ok verdict,
       World (fs w) (stdin w) (stdout w ++ verify_report (fs w)))
    ∧ (verdict = true
       ↔ ∀ f, f ∈ REQUIRED_FILES → is_Some (fs w !! audio_path f)).
Proof.
  pose proof (existing_missing_length (fs w) REQUIRED_FILES) as Hlen.
  rewrite REQUIRED_FILES_length in Hlen.
  pose proof (existing_in_all (fs w) REQUIRED_FILES) as Hiff.
  rewrite REQUIRED_FILES_length in Hiff.
  unfold GenerateAudio.verify_files, verify_report. run_prints.
  fold REQUIRED_FILES. unfold bind at 1. rewrite verify_file_loop.
  cbn [fs stdin stdout]. cbv beta iota. run_prints.
  rewrite !app_nil_l, REQUIRED_FILES_length, size_total_data_total, Z.add_0_l.
  replace (Z.of_nat 37 - Z.of_nat (length (missing_in (fs w) REQUIRED_FILES)))%Z
    with (Z.of_nat (length (existing_in (fs w) REQUIRED_FILES))) by lia.
  rewrite str_int_of_nat.
  destruct (decide (length (existing_in (fs w) REQUIRED_FILES) = 37))
    as [Hall|Hsome].
  - rewrite bool_decide_eq_true_2 by by apply missing_in_nil.
    cbn [negb]. rewrite bind_print. unfold ret. cbn [fs stdin stdout].
    exists true. split; [|by rewrite <- Hiff].
    rewrite <- !(assoc_L (++)). reflexivity.
  - rewrite bool_decide_eq_false_2 by by rewrite missing_in_nil.
    cbn [negb]. rewrite bind_print. unfold ret. cbn [fs stdin stdout].
    exists false. split; [|by rewrite <- Hiff].
    replace (37 - length (existing_in (fs w) REQUIRED_FILES))
      with (length (missing_in (fs w) REQUIRED_FILES)) by lia.
    rewrite <- !(assoc_L (++)). reflexivity.
Qed.

Lemma filter_all {A} (P : A → Prop) `{∀ x, Decision (P x)} (l : list A) :
  (∀ x, x ∈ l → P x) → filter P l = l.
Proof.
  induction l as [|x l IH]; [done|]. intros Hall.
  rewrite filter_cons, decide_True by (apply Hall; by left).
  f_equal. apply IH. intros y Hy. apply Hall. by right.
Qed.

(** X15. After a verification that returned [True], a run of the packer
    that ends with status 0 after an acceptance writes the header of the
    whole vocabulary: 37 arrays and a table of 37 entries. *)
Theorem verified_files_all_packed (w : world) (response : string)
    (rest : list stdin_event) :
  fst (GenerateAudio.verify_files w) = Ok true →
  is_Some (fs w !! AUDIO_DIR) →
  stdin w = Line response :: rest →
  accepted response →
  fst (script (snd (GenerateAudio.verify_files w))) = 0%Z →
  fs (snd (script (snd (GenerateAudio.verify_files w)))) !! OUTPUT_FILE
  = Some (File (String.list_byte_of_string
                  (preamble REQUIRED_FILES (data_total (fs w) REQUIRED_FILES)
                   +:+ String.concat "" (arrays_of (fs w) REQUIRED_FILES)
                   +:+ table_layout (table_entries REQUIRED_FILES) 37
                   +:+ ("#endif // AUDIO_DATA_H" +:+ nl)))).
Proof.
  destruct (verify_files_report w) as (verdict & -> & Hverdict).
  cbn [fst snd]. intros [= ->] Hdir Hin Hyes Hstatus.
  rewrite (script_complete_header _ response rest) by done.
  cbn [fs]. unfold complete_header.
  replace (existing_in (fs w) REQUIRED_FILES) with REQUIRED_FILES; [done|].
  symmetry. apply filter_all. by apply Hverdict.
Qed.

Lemma verified_files_all_packed_witness :
  let w := audio_world REQUIRED_FILES "y" in
  fst (GenerateAudio.verify_files w) = Ok true
  ∧ is_Some (fs w !! AUDIO_DIR)
  ∧ stdin w = [Line "y"]
  ∧ accepted "y"
  ∧ fst (script (snd (GenerateAudio.verify_files w))) = 0%Z
  ∧ is_Some (fs (snd (script (snd (GenerateAudio.verify_files w))))
               !! OUTPUT_FILE).
Proof.
  assert (fst (GenerateAudio.verify_files (audio_world REQUIRED_FILES "y"))
          = Ok true) as Hverified by (vm_compute; reflexivity).
  assert (is_Some (fs (audio_world REQUIRED_FILES "y") !! AUDIO_DIR)) as Hdir
    by (vm_compute; eauto).
  assert (fst (script (snd (GenerateAudio.verify_files
                              (audio_world REQUIRED_FILES "y")))) = 0%Z)
    as Hstatus by (vm_compute; reflexivity).
  pose proof (verified_files_all_packed (audio_world REQUIRED_FILES "y") "y" []
                Hverified Hdir eq_refl eq_refl Hstatus) as Hheader.
  split; [exact Hverified|]. split; [exact Hdir|]. split; [reflexivity|].
  split; [reflexivity|]. split; [exact Hstatus|].
  rewrite Hheader. eexists. reflexivity.
Defined.

(** ** The announcement of a score *)

Lemma append_inj_r (a b s : string) : a +:+ s = b +:+ s → a = b.
Proof.
  revert b. induction a as [|c a IH]; intros [|c' b] Heq; [done|..].
  - apply (f_equal String.length) in Heq.
    rewrite !length_append in Heq. cbn [String.length] in Heq. lia.
  - apply (f_equal String.length) in Heq.
    rewrite !length_append in Heq. cbn [String.length] in Heq. lia.
  - rewrite !append_cons in Heq. injection Heq as -> Heq.
    f_equal. by apply IH.
Qed.

Lemma wav_inj (a b : Z) : wav a = wav b → a = b.
Proof. intros Heq%append_inj_r. by apply (inj pretty). Qed.

Lemma REQUIRED_FILES_spoken :
  REQUIRED_FILES = (wav <$> spoken_numbers) ++ ["and.wav"].
Proof. vm_compute. reflexivity. Qed.





Lemma str_int_digits (z : Z) : (0 ≤ z)%Z → digits_only (GenerateAudio.str_int z).
Proof.
  intros Hz. rewrite <- (Z2Nat.id z), str_int_of_nat by done.
  apply str_nat_digits.
Qed.

Lemma wav_not_required (z : Z) : (1000 ≤ z)%Z → wav z ∉ REQUIRED_FILES.
Proof.
  intros Hz. rewrite REQUIRED_FILES_spoken.
  intros [Hin|Hin]%elem_of_app.
  - apply list_elem_of_fmap in Hin as (k & ->%wav_inj & Hk).
    assert (Forall (λ k, k < 1000)%Z spoken_numbers) as Hsmall
      by (repeat constructor).
    rewrite Forall_forall in Hsmall. specialize (Hsmall _ Hk). lia.
  - apply list_elem_of_singleton in Hin.
    apply (append_inj_r _ "and") in Hin.
    pose proof (str_int_digits z ltac:(lia)) as Hdigits.
    rewrite Hin in Hdigits. vm_compute in Hdigits. lia.
Qed.

(** X17. For a score of 1000 or more, the first file that
    [test_score_announcement] lists is none of the required files. *)
Theorem announcement_beyond_vocabulary (score : Z) (w : world) :
  (1000 ≤ score)%Z →
  ∃ log,
    stdout (snd (GenerateAudio.test_score_announcement score w))
    = stdout w
        ++ [ (nl +:+ "Test Score: " +:+ GenerateAudio.str_int score) +:+ nl;
             "Files to play:" +:+ nl;
             play_line (wav (score / 100 * 100)) ]
        ++ log
    ∧ wav (score / 100 * 100) ∉ REQUIRED_FILES.
Proof.
  intros Hscore.
  pose proof (Z.div_mod score 100) as Hdiv.
  pose proof (Z.mod_pos_bound score 100) as Hmod.
  assert (1000 ≤ score / 100 * 100)%Z as Hhundreds by lia.
  unfold GenerateAudio.test_score_announcement. run_prints.
  destruct (Z.ltb_spec 0 (score / 100 * 100)); [|lia].
  run_prints.
  match goal with
  | |- context [snd (?m ?w1)] =>
      assert (prints_only m) as [log Hlog] by auto 10 with prints;
      rewrite Hlog
  end.
  cbn [snd fs stdin stdout]. exists log. split; [|by apply wav_not_required].
  rewrite <- !(assoc_L (++)). reflexivity.
Qed.

Lemma announcement_beyond_vocabulary_witness :
  (1000 ≤ 1200)%Z ∧ wav (1200 / 100 * 100) ∉ REQUIRED_FILES.
Proof.
  assert (1000 ≤ 1200)%Z as Hscore by lia.
  split; [exact Hscore|].
  destruct (announcement_beyond_vocabulary 1200 (World ∅ [] []) Hscore)
    as (log & _ & Hout).
  exact Hout.
Defined.

(** ** The generation of the files *)

Lemma contained_ret {A} (P : A → Prop) (a : A) : P a → contained P (ret a).
Proof. by intros Ha w. Qed.

Lemma contained_print (s : string) : contained (λ _, True) (print s).
Proof. by intros w. Qed.

Lemma contained_bind {A B} (Q : A → Prop) (P : B → Prop) (m : M A)
    (k : A → M B) :
  contained Q m → (∀ a, Q a → contained P (k a)) → contained P (bind m k).
Proof.
  intros Hm Hk w. specialize (Hm w). unfold bind.
  destruct (m w) as [[a|e|c] w']; cbn [fst] in *; [by apply Hk|done..].
Qed.

Lemma contained_weaken {A} (P Q : A → Prop) (m : M A) :
  (∀ a, P a → Q a) → contained P m → contained Q m.
Proof.
  intros HPQ Hm w. specialize (Hm w).
  destruct (m w) as [[a|e|c] w']; cbn [fst] in *; auto.
Qed.

Lemma contained_try_except {A} (P : A → Prop) (m : M A) (handler : exn → M A) :
  (∀ w a, fst (m w) = Ok a → P a) →
  (∀ e, contained P (handler e)) →
  contained P (GenerateAudio.try_except m handler).
Proof.
  intros Hm Hh w. unfold GenerateAudio.try_except. specialize (Hm w).
  destruct (m w) as [[a|e|c] w']; cbn [fst] in *; [by apply Hm| |done].
  destruct e; try apply Hh. done.
Qed.

Lemma contained_try_except_all {A} (P : A → Prop) (m : M A) (handler : M A) :
  (∀ w a, fst (m w) = Ok a → P a) →
  contained P handler →
  contained P (GenerateAudio.try_except_all m handler).
Proof.
  intros Hm Hh w. unfold GenerateAudio.try_except_all. specialize (Hm w).
  destruct (m w) as [[a|e|c] w']; cbn [fst] in *; [by apply Hm|apply Hh..].
Qed.

Section generation_bounds.
Variables tts_save export_wav : string → string → M unit.

Lemma generate_audio_file_contained (number : GenerateAudio.key) (text : string) :
  contained (λ _, True) (GenerateAudio.generate_audio_file tts_save export_wav number text).
Proof.
  unfold GenerateAudio.generate_audio_file, GenerateAudio.generate_tts, GenerateAudio.convert_to_wav.
  apply contained_bind with (λ _, True).
  { apply contained_try_except; [done|]. intros e.
    apply contained_bind with (λ _, True); [apply contained_print|].
    intros _ _. by apply contained_ret. }
  intros [] _; cbn [negb]; [|by apply contained_ret].
  apply contained_bind with (λ _, True).
  { apply contained_try_except; [done|]. intros e.
    apply contained_bind with (λ _, True); [apply contained_print|].
    intros _ _. by apply contained_ret. }
  intros [] _; cbn [negb]; [|by apply contained_ret].
  apply contained_bind with (λ _, True); [|intros _ _; by apply contained_ret].
  apply contained_try_except_all; [done|]. by apply contained_ret.
Qed.

Lemma generate_number_contained (success_count : nat) (item : nat * string) :
  contained (λ c, success_count ≤ c ≤ success_count + 1)%nat
    (GenerateAudio.generate_number tts_save export_wav success_count item).
Proof.
  destruct item as [num text]. unfold GenerateAudio.generate_number.
  apply contained_bind with (λ _, True);
    [apply generate_audio_file_contained|].
  intros [] _.
  - apply contained_bind with (λ _, True); [apply contained_print|].
    intros _ _. apply contained_ret. lia.
  - apply contained_bind with (λ _, True); [apply contained_print|].
    intros _ _. apply contained_ret. lia.
Qed.

Lemma generate_numbers_contained (l : list (nat * string)) (success_count : nat) :
  contained (λ c, success_count ≤ c ≤ success_count + length l)%nat
    (for_each l (GenerateAudio.generate_number tts_save export_wav) success_count).
Proof.
  revert success_count. induction l as [|item l IH]; intros success_count.
  - apply contained_ret. cbn [length]. lia.
  - cbn [for_each length].
    eapply contained_bind; [apply generate_number_contained|].
    intros c Hc. eapply contained_weaken; [|apply IH].
    intros c' Hc'. cbv beta in *. lia.
Qed.

Lemma generate_all_files_contained :
  contained (λ r, (fst r ≤ 37)%nat ∧ snd r = 35)
    (GenerateAudio.generate_all_files tts_save export_wav).
Proof.
  unfold GenerateAudio.generate_all_files.
  repeat (apply contained_bind with (λ _, True);
          [apply contained_print|]; intros _ _).
  eapply contained_bind; [apply generate_numbers_contained|].
  intros c1 Hc1. cbn [length GenerateAudio.NUMBERS_1_9] in Hc1.
  apply contained_bind with (λ _, True); [apply contained_print|]. intros _ _.
  eapply contained_bind; [apply generate_numbers_contained|].
  intros c2 Hc2. cbn [length GenerateAudio.NUMBERS_10_19] in Hc2.
  apply contained_bind with (λ _, True); [apply contained_print|]. intros _ _.
  eapply contained_bind; [apply generate_numbers_contained|].
  intros c3 Hc3. cbn [length GenerateAudio.NUMBERS_TENS] in Hc3.
  apply contained_bind with (λ _, True); [apply contained_print|]. intros _ _.
  eapply contained_bind; [apply generate_numbers_contained|].
  intros c4 Hc4. cbn [length GenerateAudio.NUMBERS_HUNDREDS] in Hc4.
  apply contained_bind with (λ _, True); [apply contained_print|]. intros _ _.
  apply contained_bind with (λ _, True);
    [apply generate_audio_file_contained|].
  intros generated _.
  apply contained_bind with (λ c, c ≤ c4 + 1)%nat.
  - destruct generated.
    + apply contained_bind with (λ _, True); [apply contained_print|].
      intros _ _. apply contained_ret. lia.
    + apply contained_bind with (λ _, True); [apply contained_print|].
      intros _ _. apply contained_ret. lia.
  - intros c5 Hc5. apply contained_ret. cbn [fst snd]. lia.
Qed.

End generation_bounds.

(** X18. Whatever the library calls do, [generate_all_files] lets no
    exception escape but an interrupt; when it returns, the total it
    reports is 35 and its count of successes is at most 37. *)
Theorem generate_all_files_counts (tts_save export_wav : string → string → M unit)
    (w : world) :
  match fst (GenerateAudio.generate_all_files tts_save export_wav w) with
  | Ok (success_count, total_files) =>
      (success_count ≤ 37)%nat ∧ total_files = 35
  | Raise e => e = KeyboardInterrupt
  | SysExit _ => True
  end.
Proof.
  pose proof (generate_all_files_contained tts_save export_wav w) as Hrun.
  destruct (fst (GenerateAudio.generate_all_files tts_save export_wav w)) as [[c t]|e|c];
    done.
Qed.

Section generation_succeeds.
Variables tts_save export_wav : string → string → M unit.
Hypothesis tts_save_returns :
  ∀ text filename w, ∃ w', tts_save text filename w = (Ok (), w').
Hypothesis export_wav_returns :
  ∀ mp3_file wav_file w, ∃ w', export_wav mp3_file wav_file w = (Ok (), w').

Lemma generate_audio_file_succeeds (number : GenerateAudio.key) (text : string)
    (w : world) :
  ∃ w', GenerateAudio.generate_audio_file tts_save export_wav number text w = (Ok true, w').
Proof.
  unfold GenerateAudio.generate_audio_file, GenerateAudio.generate_tts, GenerateAudio.convert_to_wav.
  unfold bind at 1, GenerateAudio.try_except at 1, bind at 1.
  destruct (tts_save_returns text
              (path_join GenerateAudio.TEMP_DIR (GenerateAudio.str_key number +:+ "_temp.mp3")) w)
    as [w1 ->].
  unfold ret at 1. cbn [negb].
  unfold bind at 1, GenerateAudio.try_except at 1, bind at 1.
  destruct (export_wav_returns
              (path_join GenerateAudio.TEMP_DIR (GenerateAudio.str_key number +:+ "_temp.mp3"))
              (path_join GenerateAudio.OUTPUT_DIR (GenerateAudio.str_key number +:+ ".wav")) w1)
    as [w2 ->].
  unfold ret at 1. cbn [negb].
  unfold bind, GenerateAudio.try_except_all, ret.
  destruct (GenerateAudio.os_remove _ w2) as [[[]|e|c] w3]; eauto.
Qed.

Lemma generate_numbers_succeed (l : list (nat * string)) (success_count : nat)
    (w : world) :
  ∃ w', for_each l (GenerateAudio.generate_number tts_save export_wav) success_count w
        = (Ok (success_count + length l), w').
Proof.
  revert success_count w. induction l as [|[num text] l IH];
    intros success_count w.
  - exists w. cbn. unfold ret. by rewrite Nat.add_0_r.
  - cbn [for_each length]. unfold bind at 1, GenerateAudio.generate_number at 1.
    unfold bind at 1.
    destruct (generate_audio_file_succeeds (GenerateAudio.Number num) text w) as [w1 ->].
    rewrite bind_print. unfold ret at 1.
    match goal with
    | |- context [for_each _ _ _ ?w'] =>
        destruct (IH (success_count + 1) w') as [w2 ->]
    end.
    exists w2. do 2 f_equal. lia.
Qed.

Lemma generate_all_files_succeeds (w : world) :
  fst (GenerateAudio.generate_all_files tts_save export_wav w) = Ok (37, 35).
Proof.
  unfold GenerateAudio.generate_all_files. run_prints.
  repeat (unfold bind at 1;
          match goal with
          | |- context [for_each ?l _ ?c ?w1] =>
              destruct (generate_numbers_succeed l c w1) as [? ->]
          end;
          run_prints).
  unfold bind at 1.
  match goal with
  | |- context [GenerateAudio.generate_audio_file _ _ ?k ?t ?w1] =>
      destruct (generate_audio_file_succeeds k t w1) as [? ->]
  end.
  run_prints. reflexivity.
Qed.

End generation_succeeds.

(** X19. When no library call fails, [generate_all_files] returns 37
    successes out of a total of 35. *)
Theorem all_generated_is_37_of_35
    (tts_save export_wav : string → string → M unit) (w : world) :
  (∀ text filename w, ∃ w', tts_save text filename w = (Ok (), w')) →
  (∀ mp3_file wav_file w, ∃ w', export_wav mp3_file wav_file w = (Ok (), w')) →
  fst (GenerateAudio.generate_all_files tts_save export_wav w) = Ok (37, 35).
Proof. intros Htts Hexport. by apply generate_all_files_succeeds. Qed.

Lemma all_generated_is_37_of_35_witness :
  (∀ text filename w, ∃ w', sample_tts_save text filename w = (Ok (), w'))
  ∧ (∀ mp3_file wav_file w,
       ∃ w', sample_export_wav mp3_file wav_file w = (Ok (), w'))
  ∧ fst (GenerateAudio.generate_all_files sample_tts_save sample_export_wav (World ∅ [] []))
    = Ok (37, 35).
Proof.
  assert (∀ text filename w,
            ∃ w', sample_tts_save text filename w = (Ok (), w')) as Htts
    by (intros; eexists; reflexivity).
  assert (∀ mp3_file wav_file w,
            ∃ w', sample_export_wav mp3_file wav_file w = (Ok (), w'))
    as Hexport by (intros; eexists; reflexivity).
  split; [exact Htts|]. split; [exact Hexport|].
  exact (all_generated_is_37_of_35 sample_tts_save sample_export_wav
           (World ∅ [] []) Htts Hexport).
Defined.

(** ** From the generation to the verification *)

Lemma extends_refl (w : world) : extends w w.
Proof. by intros f Hf. Qed.

Lemma extends_trans (w1 w2 w3 : world) :
  extends w1 w2 → extends w2 w3 → extends w1 w3.
Proof. intros H12 H23 f Hf Hw. by apply H23, H12. Qed.

Lemma extends_same_fs (w w' : world) : fs w' = fs w → extends w w'.
Proof. intros Hfs f Hf. by rewrite Hfs. Qed.

Lemma audio_path_first (f : string) :
  f ∈ REQUIRED_FILES → ∃ rest, audio_path f = String "a" rest.
Proof.
  revert f. apply Forall_forall. rewrite REQUIRED_FILES_canonical.
  repeat (apply Forall_cons_2; [eexists; vm_compute; reflexivity|]).
  apply Forall_nil_2.
Qed.

Lemma mp3_path_not_required (name f : string) :
  f ∈ REQUIRED_FILES → path_join GenerateAudio.TEMP_DIR name ≠ audio_path f.
Proof.
  intros [rest ->]%audio_path_first. unfold path_join.
  destruct (String.prefix "/" name) eqn:Hprefix.
  - destruct name as [|c name]; [done|]. cbn [String.prefix] in Hprefix.
    destruct (ascii_dec "/" c) as [<-|]; [|done]. discriminate.
  - vm_compute. discriminate.
Qed.

Section generation_files.
Variables tts_save export_wav : string → string → M unit.
Hypothesis tts_save_keeps :
  ∀ text filename w, extends w (snd (tts_save text filename w)).
Hypothesis export_wav_keeps :
  ∀ mp3_file wav_file w, extends w (snd (export_wav mp3_file wav_file w)).
Hypothesis export_wav_writes :
  ∀ mp3_file wav_file w,
    fst (export_wav mp3_file wav_file w) = Ok () →
    is_Some (fs (snd (export_wav mp3_file wav_file w)) !! wav_file).

Lemma remove_mp3_keeps (name : string) (r : result unit) (w w' : world) :
  GenerateAudio.try_except_all (GenerateAudio.os_remove (path_join GenerateAudio.TEMP_DIR name)) (ret ()) w
  = (r, w') →
  r = Ok ()
  ∧ ∀ f, f ∈ REQUIRED_FILES →
         fs w' !! audio_path f = fs w !! audio_path f.
Proof.
  unfold GenerateAudio.try_except_all, GenerateAudio.os_remove, ret.
  destruct (fs w !! path_join GenerateAudio.TEMP_DIR name) as [[d|z]|];
    intros [= <- <-]; (split; [done|]); intros f Hf; [|done..].
  cbn [fs]. by rewrite lookup_delete_ne by by apply mp3_path_not_required.
Qed.

Lemma generate_audio_file_files (number : GenerateAudio.key) (text : string)
    (r : result bool) (w w' : world) :
  GenerateAudio.str_key number +:+ ".wav" ∈ REQUIRED_FILES →
  GenerateAudio.generate_audio_file tts_save export_wav number text w = (r, w') →
  extends w w'
  ∧ (r = Ok true →
     is_Some (fs w' !! audio_path (GenerateAudio.str_key number +:+ ".wav"))).
Proof.
  intros Hreq.
  unfold GenerateAudio.generate_audio_file, GenerateAudio.generate_tts, GenerateAudio.convert_to_wav.
  change (path_join GenerateAudio.OUTPUT_DIR (GenerateAudio.str_key number +:+ ".wav"))
    with (audio_path (GenerateAudio.str_key number +:+ ".wav")).
  set (mp3_path := path_join GenerateAudio.TEMP_DIR (GenerateAudio.str_key number +:+ "_temp.mp3")).
  set (wav_path := audio_path (GenerateAudio.str_key number +:+ ".wav")).
  unfold bind at 1, GenerateAudio.try_except at 1, bind at 1.
  pose proof (tts_save_keeps text mp3_path w) as Hkeep1.
  destruct (tts_save text mp3_path w) as [[[]|e|c] w1]; cbn [snd] in Hkeep1.
  2:{ destruct e; rewrite ?bind_print; unfold ret; cbn [negb fs];
        intros [= <- <-]; (split; [|done]);
        (eapply extends_trans; [exact Hkeep1|]); by apply extends_same_fs. }
  2:{ by intros [= <- <-]. }
  unfold ret at 1. cbn [negb].
  unfold bind at 1, GenerateAudio.try_except at 1, bind at 1.
  pose proof (export_wav_keeps mp3_path wav_path w1) as Hkeep2.
  pose proof (export_wav_writes mp3_path wav_path w1) as Hwrite.
  destruct (export_wav mp3_path wav_path w1) as [[[]|e|c] w2];
    cbn [fst snd] in Hkeep2, Hwrite.
  2:{ destruct e; rewrite ?bind_print; unfold ret; cbn [negb fs];
        intros [= <- <-]; (split; [|done]);
        (eapply extends_trans; [exact Hkeep1|]);
        (eapply extends_trans; [exact Hkeep2|]); by apply extends_same_fs. }
  2:{ intros [= <- <-]. split; [by eapply extends_trans|done]. }
  unfold ret at 1. cbn [negb]. unfold bind.
  destruct (GenerateAudio.try_except_all (GenerateAudio.os_remove mp3_path) (ret ()) w2)
    as [r3 w3] eqn:Hremove.
  apply remove_mp3_keeps in Hremove as [-> Hsame].
  unfold ret. intros [= <- <-]. split.
  - eapply extends_trans; [exact Hkeep1|].
    eapply extends_trans; [exact Hkeep2|].
    intros f Hf. by rewrite Hsame.
  - intros _. unfold wav_path. rewrite Hsame by done. by apply Hwrite.
Qed.

Lemma generate_number_files (success_count : nat) (item : nat * string)
    (r : result nat) (w w' : world) :
  str_nat (fst item) +:+ ".wav" ∈ REQUIRED_FILES →
  GenerateAudio.generate_number tts_save export_wav success_count item w = (r, w') →
  extends w w'
  ∧ ∀ c, r = Ok c →
         (success_count ≤ c ≤ success_count + 1)%nat
         ∧ (c = success_count + 1 →
            is_Some (fs w' !! audio_path (str_nat (fst item) +:+ ".wav"))).
Proof.
  destruct item as [num text]. cbn [fst]. intros Hreq.
  unfold GenerateAudio.generate_number. unfold bind at 1.
  destruct (GenerateAudio.generate_audio_file tts_save export_wav (GenerateAudio.Number num) text w)
    as [r1 w1] eqn:Hfile.
  apply generate_audio_file_files in Hfile as [Hkeep Hwav]; [|done].
  destruct r1 as [[]|e|c1].
  - rewrite bind_print. unfold ret. intros [= <- <-]. cbn [fs].
    split; [done|]. intros c [= <-]. split; [lia|]. intros _. by apply Hwav.
  - rewrite bind_print. unfold ret. intros [= <- <-]. cbn [fs].
    split; [done|]. intros c [= <-]. split; [lia|]. lia.
  - by intros [= <- <-].
  - by intros [= <- <-].
Qed.

Lemma generate_numbers_files (l : list (nat * string)) (success_count : nat)
    (r : result nat) (w w' : world) :
  Forall (λ item, str_nat (fst item) +:+ ".wav" ∈ REQUIRED_FILES) l →
  for_each l (GenerateAudio.generate_number tts_save export_wav) success_count w = (r, w') →
  extends w w'
  ∧ ∀ c, r = Ok c →
         (success_count ≤ c ≤ success_count + length l)%nat
         ∧ (c = success_count + length l →
            Forall (λ item,
                      is_Some (fs w' !! audio_path (str_nat (fst item) +:+ ".wav")))
                   l).
Proof.
  intros Hl. revert success_count w.
  induction Hl as [|item l Hitem Hl IH]; intros success_count w.
  - cbn. unfold ret. intros [= <- <-]. split; [apply extends_refl|].
    intros c [= <-]. split; [lia|]. intros _. apply Forall_nil_2.
  - cbn [for_each length]. unfold bind at 1.
    destruct (GenerateAudio.generate_number tts_save export_wav success_count item w)
      as [r1 w1] eqn:Hstep.
    apply generate_number_files in Hstep as [Hkeep1 Hstep]; [|done].
    destruct r1 as [c1|e|code]; [|by intros [= <- <-]..].
    destruct (Hstep c1 eq_refl) as [Hc1 Hwav].
    intros Hrest. apply IH in Hrest as [Hkeep2 Hrest].
    split; [by eapply extends_trans|].
    intros c ->. destruct (Hrest c eq_refl) as [Hc Hall].
    split; [lia|]. intros ->.
    apply Forall_cons_2; [|apply Hall; lia].
    apply Hkeep2; [done|]. apply Hwav. lia.
Qed.

Lemma generated_numbers_kept (l : list (nat * string)) (w w' : world) :
  Forall (λ item, str_nat (fst item) +:+ ".wav" ∈ REQUIRED_FILES) l →
  extends w w' →
  Forall (λ item, is_Some (fs w !! audio_path (str_nat (fst item) +:+ ".wav"))) l →
  Forall (λ f, is_Some (fs w' !! audio_path f))
         ((λ item, str_nat (fst item) +:+ ".wav") <$> l).
Proof.
  intros Hreq Hkeep Hall. apply Forall_fmap.
  induction Hreq as [|item l Hitem Hreq IH]; [apply Forall_nil_2|].
  apply Forall_cons_1 in Hall as [Hhere Hall].
  apply Forall_cons_2; [by apply Hkeep | by apply IH].
Qed.

Lemma generate_all_files_files (total_files : nat) (w w' : world) :
  GenerateAudio.generate_all_files tts_save export_wav w = (Ok (37, total_files), w') →
  ∀ f, f ∈ REQUIRED_FILES → is_Some (fs w' !! audio_path f).
Proof.
  assert (∀ l, l ∈ [GenerateAudio.NUMBERS_1_9; GenerateAudio.NUMBERS_10_19; GenerateAudio.NUMBERS_TENS;
                    GenerateAudio.NUMBERS_HUNDREDS] →
               Forall (λ item, str_nat (fst item) +:+ ".wav" ∈ REQUIRED_FILES) l)
    as Hreq.
  { apply Forall_forall.
    repeat (apply Forall_cons_2;
            [apply (bool_decide_unpack _); vm_compute; reflexivity|]).
    apply Forall_nil_2. }
  pose proof (Hreq GenerateAudio.NUMBERS_1_9 ltac:(set_solver)) as Hreq1.
  pose proof (Hreq GenerateAudio.NUMBERS_10_19 ltac:(set_solver)) as Hreq2.
  pose proof (Hreq GenerateAudio.NUMBERS_TENS ltac:(set_solver)) as Hreq3.
  pose proof (Hreq GenerateAudio.NUMBERS_HUNDREDS ltac:(set_solver)) as Hreq4.
  clear Hreq.
  unfold GenerateAudio.generate_all_files. run_prints.
  unfold bind at 1.
  destruct (for_each GenerateAudio.NUMBERS_1_9 _ _ _) as [r1 w1] eqn:Hrun1.
  apply generate_numbers_files in Hrun1 as [Hkeep1 Hrun1]; [|done].
  destruct r1 as [c1|e|code]; [|by intros [= <- <-]..].
  destruct (Hrun1 c1 eq_refl) as [Hc1 Hall1]. clear Hrun1.
  run_prints. unfold bind at 1.
  destruct (for_each GenerateAudio.NUMBERS_10_19 _ _ _) as [r2 w2] eqn:Hrun2.
  apply generate_numbers_files in Hrun2 as [Hkeep2 Hrun2]; [|done].
  destruct r2 as [c2|e|code]; [|by intros [= <- <-]..].
  destruct (Hrun2 c2 eq_refl) as [Hc2 Hall2]. clear Hrun2.
  run_prints. unfold bind at 1.
  destruct (for_each GenerateAudio.NUMBERS_TENS _ _ _) as [r3 w3] eqn:Hrun3.
  apply generate_numbers_files in Hrun3 as [Hkeep3 Hrun3]; [|done].
  destruct r3 as [c3|e|code]; [|by intros [= <- <-]..].
  destruct (Hrun3 c3 eq_refl) as [Hc3 Hall3]. clear Hrun3.
  run_prints. unfold bind at 1.
  destruct (for_each GenerateAudio.NUMBERS_HUNDREDS _ _ _) as [r4 w4] eqn:Hrun4.
  apply generate_numbers_files in Hrun4 as [Hkeep4 Hrun4]; [|done].
  destruct r4 as [c4|e|code]; [|by intros [= <- <-]..].
  destruct (Hrun4 c4 eq_refl) as [Hc4 Hall4]. clear Hrun4.
  run_prints. unfold bind at 1.
  destruct (GenerateAudio.generate_audio_file _ _ _ _ _) as [r5 w5] eqn:Hrun5.
  apply generate_audio_file_files in Hrun5 as [Hkeep5 Hand];
    [|apply (bool_decide_unpack _); vm_compute; reflexivity].
  cbn [length GenerateAudio.NUMBERS_1_9 GenerateAudio.NUMBERS_10_19 GenerateAudio.NUMBERS_TENS
         GenerateAudio.NUMBERS_HUNDREDS] in *.
  destruct r5 as [[]|e|code]; [| |by intros [= <- <-]..].
  2:{ run_prints. unfold ret. intros [= Hcount <- <-]. lia. }
  run_prints. unfold ret. intros [= Hcount <- <-]. cbn [fs].
  cbn [fs stdin stdout] in *.
  assert (Forall (λ f, is_Some (fs w5 !! audio_path f)) REQUIRED_FILES) as Hall.
  { change REQUIRED_FILES
      with (((λ item : nat * string, str_nat (fst item) +:+ ".wav")
               <$> GenerateAudio.NUMBERS_1_9)
            ++ ((λ item : nat * string, str_nat (fst item) +:+ ".wav")
                  <$> GenerateAudio.NUMBERS_10_19)
            ++ ((λ item : nat * string, str_nat (fst item) +:+ ".wav")
                  <$> GenerateAudio.NUMBERS_TENS)
            ++ ((λ item : nat * string, str_nat (fst item) +:+ ".wav")
                  <$> GenerateAudio.NUMBERS_HUNDREDS)
            ++ ["and.wav"]).
    repeat apply Forall_app_2.
    - apply (generated_numbers_kept _ w1); [done| |apply Hall1; lia].
      eauto 10 using extends_trans, extends_same_fs.
    - apply (generated_numbers_kept _ w2); [done| |apply Hall2; lia].
      eauto 10 using extends_trans, extends_same_fs.
    - apply (generated_numbers_kept _ w3); [done| |apply Hall3; lia].
      eauto 10 using extends_trans, extends_same_fs.
    - apply (generated_numbers_kept _ w4); [done| |apply Hall4; lia].
      eauto 10 using extends_trans, extends_same_fs.
    - apply Forall_cons_2; [by apply Hand | apply Forall_nil_2]. }
  by apply Forall_forall.
Qed.

End generation_files.

(** X20. When the library calls remove no required file and a
    conversion that returns has written its WAV file, a generation that
    counts 37 successes leaves every required file, and the verification
    that follows returns [True]. *)
Theorem generated_files_pass_verification
    (tts_save export_wav : string → string → M unit) (w : world)
    (total_files : nat) :
  (∀ text filename w, extends w (snd (tts_save text filename w))) →
  (∀ mp3_file wav_file w, extends w (snd (export_wav mp3_file wav_file w))) →
  (∀ mp3_file wav_file w,
     fst (export_wav mp3_file wav_file w) = Ok () →
     is_Some (fs (snd (export_wav mp3_file wav_file w)) !! wav_file)) →
  fst (GenerateAudio.generate_all_files tts_save export_wav w) = Ok (37, total_files) →
  fst (GenerateAudio.verify_files
         (snd (GenerateAudio.generate_all_files tts_save export_wav w)))
  = Ok true.
Proof.
  intros Htts Hexport Hwrites Hcount.
  destruct (GenerateAudio.generate_all_files tts_save export_wav w) as [r w'] eqn:Hrun.
  cbn [fst snd] in *. subst r.
  destruct (verify_files_report w') as (verdict & -> & Hverdict).
  cbn [fst]. f_equal. apply Hverdict.
  exact (generate_all_files_files tts_save export_wav Htts Hexport Hwrites
           total_files w w' Hrun).
Qed.

Lemma generated_files_pass_verification_witness :
  (∀ text filename w, extends w (snd (sample_tts_save text filename w)))
  ∧ (∀ mp3_file wav_file w,
       extends w (snd (sample_export_wav mp3_file wav_file w)))
  ∧ (∀ mp3_file wav_file w,
       fst (sample_export_wav mp3_file wav_file w) = Ok () →
       is_Some (fs (snd (sample_export_wav mp3_file wav_file w)) !! wav_file))
  ∧ fst (GenerateAudio.generate_all_files sample_tts_save sample_export_wav
           (World ∅ [] []))
    = Ok (37, 35)
  ∧ fst (GenerateAudio.verify_files
           (snd (GenerateAudio.generate_all_files sample_tts_save sample_export_wav
                   (World ∅ [] []))))
    = Ok true.
Proof.
  assert (∀ text filename w,
            extends w (snd (sample_tts_save text filename w))) as Htts.
  { intros text filename w f Hf Hw. cbn [snd sample_tts_save fs].
    apply lookup_insert_is_Some'. by right. }
  assert (∀ mp3_file wav_file w,
            extends w (snd (sample_export_wav mp3_file wav_file w)))
    as Hexport.
  { intros mp3_file wav_file w f Hf Hw. cbn [snd sample_export_wav fs].
    apply lookup_insert_is_Some'. by right. }
  assert (∀ mp3_file wav_file w,
            fst (sample_export_wav mp3_file wav_file w) = Ok () →
            is_Some (fs (snd (sample_export_wav mp3_file wav_file w))
                       !! wav_file)) as Hwrites.
  { intros mp3_file wav_file w _. cbn [snd sample_export_wav fs].
    rewrite lookup_insert_eq. eauto. }
  assert (fst (GenerateAudio.generate_all_files sample_tts_save sample_export_wav
                 (World ∅ [] []))
          = Ok (37, 35)) as Hcount by (vm_compute; reflexivity).
  split; [exact Htts|]. split; [exact Hexport|]. split; [exact Hwrites|].
  split; [exact Hcount|].
  exact (generated_files_pass_verification sample_tts_save sample_export_wav
           (World ∅ [] []) 35 Htts Hexport Hwrites Hcount).
Defined.
